(** * python_json_logger: day-rotating log writers, the JSON record model and
      the NDJSON reader

    A shallow embedding of [app/modules/logging] (the text and the JSON
    rotating handlers, [JsonLogEntry], [JsonLogRecord], [JsonLogReader] and
    the two logger factories) together with the parts of the Python runtime
    they call: [str], [dict], the [json] codec, [traceback.format_exception],
    text files and [logging.Handler].

    Conventions.
    - A Python [str] is the list of its code points ([pystr]); a literal is
      written as a Rocq string and read through the coercion [py].
    - An operation that can raise returns a [result]; [Raise e] carries the
      exception.
    - State (the handler object, the file system, the diagnostic channel)
      is passed explicitly. *)

From Stdlib Require Import String Ascii List NArith ZArith Bool Arith Lia.
Import ListNotations.

Set Implicit Arguments.

Open Scope string_scope.
Open Scope list_scope.

(* ================================================================== *)
(** * Python strings                                                    *)
(* ================================================================== *)

Abbreviation char := N (only parsing).
Definition pystr := list char.

Definition py (s : string) : pystr :=
  List.map N_of_ascii (list_ascii_of_string s).
Coercion py : string >-> pystr.

Fixpoint str_eqb (a b : pystr) : bool :=
  match a, b with
  | [], [] => true
  | x :: a', y :: b' => N.eqb x y && str_eqb a' b'
  | _, _ => false
  end.

(** [sep.join(parts)] *)
Fixpoint join (sep : pystr) (parts : list pystr) : pystr :=
  match parts with
  | [] => []
  | [p] => p
  | p :: rest => p ++ sep ++ join sep rest
  end.

(** [s.startswith(prefix)] and the remainder after the prefix. *)
Fixpoint strip_prefix (prefix s : pystr) : option pystr :=
  match prefix, s with
  | [], _ => Some s
  | p :: prefix', c :: s' => if N.eqb p c then strip_prefix prefix' s' else None
  | _ :: _, [] => None
  end.

(** [str.isspace] on one character: the code points CPython classifies as
    white space. *)
Definition isspace (c : char) : bool :=
  ((9 <=? c) && (c <=? 13) || (28 <=? c) && (c <=? 32)
   || (c =? 133) || (c =? 160) || (c =? 5760)
   || (8192 <=? c) && (c <=? 8202)
   || (c =? 8232) || (c =? 8233) || (c =? 8239) || (c =? 8287)
   || (c =? 12288))%N.

Fixpoint lstrip (s : pystr) : pystr :=
  match s with
  | c :: s' => if isspace c then lstrip s' else s
  | [] => []
  end.

Definition rstrip (s : pystr) : pystr := rev (lstrip (rev s)).

(** [s.strip()] *)
Definition strip (s : pystr) : pystr := rstrip (lstrip s).

(** Decimal digits of a natural number, most significant first
    ([fuel] bounds the number of digits). *)
Fixpoint digits_of (fuel : nat) (n : N) (acc : pystr) : pystr :=
  match fuel with
  | O => acc
  | S fuel' =>
      let acc' := (48 + n mod 10)%N :: acc in
      if (n <? 10)%N then acc' else digits_of fuel' (n / 10)%N acc'
  end.

Definition str_of_N (n : N) : pystr := digits_of (S (N.to_nat (N.log2 n))) n [].

(** [str(i)] for an [int]. *)
Definition str_of_Z (z : Z) : pystr :=
  match z with
  | Zneg p => 45%N :: str_of_N (Npos p)
  | _ => str_of_N (Z.to_N z)
  end.

(** The limit of the interpreter on the decimal digits of an [int] that is
    converted to or from text ([sys.int_info.default_max_str_digits]). *)
Definition max_str_digits : N := 4300.

(** [int(s)] for a string of decimal digits. *)
Definition N_of_digits (s : pystr) : N :=
  fold_left (fun acc c => (acc * 10 + (c - 48))%N) s 0%N.

(** Zero-padded fixed-width decimal fields, as [strftime] prints them. *)
Definition pad2 (n : N) : pystr := [(48 + (n / 10) mod 10)%N; (48 + n mod 10)%N].
Definition pad4 (n : N) : pystr := pad2 (n / 100) ++ pad2 (n mod 100).

(* ================================================================== *)
(** * Exceptions and results                                            *)
(* ================================================================== *)

(** [json.JSONDecodeError]: the attributes the exception object carries. *)
Record DecodeError := mkDecodeError {
  de_msg : pystr;
  de_doc : pystr;
  de_pos : nat;
  de_lineno : nat;
  de_colno : nat
}.

Inductive exn :=
| OSError (msg : pystr)
| FileNotFoundError (path : pystr)
| FileExistsError (path : pystr)
| UnicodeError
| TypeError
| ValueError
| KeyError (key : pystr)
| AttributeError (msg : pystr)
| JSONDecodeError (e : DecodeError)
| RecursionError
| OtherException (name : pystr)
| KeyboardInterrupt
| SystemExit.

(** [isinstance(e, Exception)]: what an [except Exception] clause catches. *)
Definition is_Exception (e : exn) : bool :=
  match e with
  | KeyboardInterrupt | SystemExit => false
  | _ => true
  end.

(** [isinstance(e, OSError)]: the failures of file operations. *)
Definition is_OSError (e : exn) : bool :=
  match e with
  | OSError _ | FileNotFoundError _ | FileExistsError _ => true
  | _ => false
  end.

Inductive result (A : Type) : Type :=
| Ok (a : A)
| Raise (e : exn).
Arguments Ok {A} a.
Arguments Raise {A} e.

Definition bind {A B} (r : result A) (k : A -> result B) : result B :=
  match r with
  | Ok a => k a
  | Raise e => Raise e
  end.

Declare Scope result_scope.
Delimit Scope result_scope with result.
Notation "x <- r ;; k" := (bind r (fun x => k))
  (at level 61, r at next level, right associativity) : result_scope.

(* ================================================================== *)
(** * Python values that JSON denotes                                   *)
(* ================================================================== *)

(** The values [json.loads] builds.  A [float] is kept as the literal that
    denotes it; its value and its printed form are decided by floating-point
    arithmetic, which the embedding leaves to [PyRuntime] below.  A [dict]
    is the list of its items in insertion order.  An [int] is an unbounded
    integer. *)
#[warnings="-register-all"]
Inductive pyval :=
| PNone
| PBool (b : bool)
| PInt (z : Z)
| PFloat (literal : pystr)
| PStr (s : pystr)
| PList (xs : list pyval)
| PDict (items : list (pystr * pyval)).

Section Dict.
Variable V : Type.

(** [d.get(k)]: [None] stands for the absent key. *)
Fixpoint dict_lookup (d : list (pystr * V)) (k : pystr) : option V :=
  match d with
  | [] => None
  | (k', v) :: d' => if str_eqb k' k then Some v else dict_lookup d' k
  end.

(** [d.get(k, default)] *)
Definition dict_get (d : list (pystr * V)) (k : pystr) (default : V) : V :=
  match dict_lookup d k with
  | Some v => v
  | None => default
  end.

(** [d[k]] *)
Definition dict_getitem (d : list (pystr * V)) (k : pystr) : result V :=
  match dict_lookup d k with
  | Some v => Ok v
  | None => Raise (KeyError k)
  end.

(** [d[k] = v]: an existing key keeps its place, a new one goes last. *)
Fixpoint dict_setitem (d : list (pystr * V)) (k : pystr) (v : V)
  : list (pystr * V) :=
  match d with
  | [] => [(k, v)]
  | (k', v') :: d' =>
      if str_eqb k' k then (k', v) :: d' else (k', v') :: dict_setitem d' k v
  end.

(** [dict(pairs)] *)
Definition dict_of_pairs (pairs : list (pystr * V)) : list (pystr * V) :=
  fold_left (fun d kv => dict_setitem d (fst kv) (snd kv)) pairs [].
End Dict.

(** What the Python runtime prints for values whose printed form the
    embedding does not compute. *)
Class PyRuntime := {
  (** [repr(float(literal))] *)
  float_repr : pystr -> pystr;
  (** the JSON text of [float(literal)]: [float.__repr__], or [NaN],
      [Infinity], [-Infinity] *)
  float_json : pystr -> pystr;
  (** [repr(s)] of a [str] *)
  str_repr : pystr -> pystr;
  (** the recursion limit, as [json.loads] meets it where the reader calls
      it: the decoder can open [S json_nesting] containers (objects and
      arrays) inside one another, and raises [RecursionError] at the next *)
  json_nesting : nat
}.

(** [str(i)] and [repr(i)] for an [int]: [ValueError] for an [int] of more
    than [max_str_digits] decimal digits. *)
Definition str_of_int (z : Z) : result pystr :=
  if (10 ^ Z.of_N max_str_digits <=? Z.abs z)%Z then Raise ValueError
  else Ok (str_of_Z z).

Section Str.
Context {RT : PyRuntime}.

(** [repr(v)]: the items of a list and of a dictionary are printed from
    left to right, and the first that raises ends the call.  The nesting of
    [v] is not bounded here: the reader prints values that [json.loads] has
    built, within the recursion limit it met. *)
Fixpoint py_repr (v : pyval) : result pystr :=
  match v with
  | PNone => Ok (py "None")
  | PBool true => Ok (py "True")
  | PBool false => Ok (py "False")
  | PInt z => str_of_int z
  | PFloat l => Ok (float_repr l)
  | PStr s => Ok (str_repr s)
  | PList xs =>
      (parts <- (fix reprs (l : list pyval) : result (list pystr) :=
                   match l with
                   | [] => Ok []
                   | x :: l' =>
                       p <- py_repr x ;; ps <- reprs l' ;; Ok (p :: ps)
                   end) xs ;;
       Ok (py "[" ++ join ", " parts ++ py "]"))%result
  | PDict items =>
      (parts <- (fix reprs (l : list (pystr * pyval)) : result (list pystr) :=
                   match l with
                   | [] => Ok []
                   | kv :: l' =>
                       p <- py_repr (snd kv) ;; ps <- reprs l' ;;
                       Ok ((str_repr (fst kv) ++ py ": " ++ p) :: ps)
                   end) items ;;
       Ok (py "{" ++ join ", " parts ++ py "}"))%result
  end.

(** [str(v)]: a [str] is returned as it is, every other value prints as
    its [repr]. *)
Definition py_str (v : pyval) : result pystr :=
  match v with
  | PStr s => Ok s
  | _ => py_repr v
  end.
End Str.

(* ================================================================== *)
(** * The [json] codec of the standard library                          *)
(* ================================================================== *)

(** ** Encoding: [json.dumps(obj, ensure_ascii=False, default=str)]      *)

Definition hex_digit (n : N) : char :=
  (if n <? 10 then 48 + n else 87 + n)%N.

(** One character of a string literal ([ESCAPE_DCT] of [json.encoder]):
    the quote, the backslash and the control characters are escaped, every
    other character, ASCII or not, is written as it is. *)
Definition escape_char (c : char) : pystr :=
  (if c =? 34 then [92; 34]
   else if c =? 92 then [92; 92]
   else if c =? 10 then [92; 110]
   else if c =? 13 then [92; 114]
   else if c =? 9 then [92; 116]
   else if c =? 8 then [92; 98]
   else if c =? 12 then [92; 102]
   else if c <? 32 then [92; 117; 48; 48; hex_digit (c / 16); hex_digit (c mod 16)]
   else [c])%N.

Definition escape_body (s : pystr) : pystr := flat_map escape_char s.

Definition encode_basestring (s : pystr) : pystr :=
  34%N :: escape_body s ++ [34%N].

Section Encoder.
Context {RT : PyRuntime}.

(** Item separator [", "], key separator [": "], no indentation.  The
    program encodes the dictionaries of its records, which hold strings and
    [None]; the text of an [int] is the one of an [int] within the limit on
    its digits. *)
Fixpoint json_encode (v : pyval) : pystr :=
  match v with
  | PNone => "null"
  | PBool true => "true"
  | PBool false => "false"
  | PInt z => str_of_Z z
  | PFloat l => float_json l
  | PStr s => encode_basestring s
  | PList xs => py "[" ++ join ", " (List.map json_encode xs) ++ py "]"
  | PDict items =>
      py "{"
      ++ join ", "
           (List.map
              (fun kv =>
                 encode_basestring (fst kv) ++ py ": " ++ json_encode (snd kv))
              items)
      ++ py "}"
  end.

Definition json_dumps (obj : pyval) : pystr := json_encode obj.
End Encoder.

(** ** Decoding: [json.loads(s)]                                         *)

(** The outcome of scanning a prefix of the document: the value, what is
    left of the document and the index where it starts; or the message and
    index of a [JSONDecodeError]; or another exception, which ends the
    decoding as it is. *)
Inductive scan (A : Type) : Type :=
| Scanned (a : A) (rest : pystr) (end_ : nat)
| Failed (msg : pystr) (pos : nat)
| Raised (e : exn)
| OutOfFuel.
Arguments Scanned {A} a rest end_.
Arguments Failed {A} msg pos.
Arguments Raised {A} e.
Arguments OutOfFuel {A}.

Definition is_ws (c : char) : bool :=
  ((c =? 32) || (c =? 9) || (c =? 10) || (c =? 13))%N.

(** [WHITESPACE.match(s, end).end()] *)
Fixpoint skip_ws (s : pystr) (pos : nat) : pystr * nat :=
  match s with
  | c :: r => if is_ws c then skip_ws r (S pos) else (s, pos)
  | [] => (s, pos)
  end.

Definition hex_value (c : char) : option N :=
  (if (48 <=? c) && (c <=? 57) then Some (c - 48)
   else if (97 <=? c) && (c <=? 102) then Some (c - 87)
   else if (65 <=? c) && (c <=? 70) then Some (c - 55)
   else None)%N.

Definition hex4 (h1 h2 h3 h4 : char) : option N :=
  match hex_value h1, hex_value h2, hex_value h3, hex_value h4 with
  | Some a, Some b, Some c, Some d => Some (((a * 16 + b) * 16 + c) * 16 + d)%N
  | _, _, _, _ => None
  end.

(** [BACKSLASH] of [json.decoder] *)
Definition unescape (e : char) : option char :=
  (if e =? 34 then Some 34
   else if e =? 92 then Some 92
   else if e =? 47 then Some 47
   else if e =? 98 then Some 8
   else if e =? 102 then Some 12
   else if e =? 110 then Some 10
   else if e =? 114 then Some 13
   else if e =? 116 then Some 9
   else None)%N.

Definition is_high_surrogate (u : N) : bool := ((55296 <=? u) && (u <=? 56319))%N.
Definition is_low_surrogate (u : N) : bool := ((56320 <=? u) && (u <=? 57343))%N.
Definition join_surrogates (u u2 : N) : N :=
  (65536 + ((u - 55296) * 1024 + (u2 - 56320)))%N.

(** [scanstring(s, end)] in strict mode, as the C accelerator of CPython
    scans and reports its errors: a [\u] escape is read only when a
    character follows its four digits, and a low surrogate is looked for
    only when a character follows it too.  [s] is the document from index
    [pos] on, [begin] the index of the opening quote, [acc] the characters
    decoded so far, last first. *)
Fixpoint scanstring (s : pystr) (pos begin : nat) (acc : pystr) : scan pystr :=
  match s with
  | [] => Failed "Unterminated string starting at" begin
  | c :: r =>
      if (c =? 34)%N then Scanned (rev acc) r (S pos)
      else if (c =? 92)%N then
        match r with
        | [] => Failed "Unterminated string starting at" begin
        | e :: r1 =>
            if (e =? 117)%N then
              match r1 with
              | h1 :: h2 :: h3 :: h4 :: (_ :: _) as r2 =>
                  match hex4 h1 h2 h3 h4 with
                  | None => Failed "Invalid \uXXXX escape" (S pos)
                  | Some uni =>
                      if is_high_surrogate uni then
                        match r2 with
                        | b :: u :: g1 :: g2 :: g3 :: g4 :: (_ :: _) as r3 =>
                            if (b =? 92)%N && (u =? 117)%N then
                              match hex4 g1 g2 g3 g4 with
                              | None => Failed "Invalid \uXXXX escape" (7 + pos)
                              | Some uni2 =>
                                  if is_low_surrogate uni2
                                  then scanstring r3 (12 + pos) begin
                                         (join_surrogates uni uni2 :: acc)
                                  else scanstring r2 (6 + pos) begin (uni :: acc)
                              end
                            else scanstring r2 (6 + pos) begin (uni :: acc)
                        | _ => scanstring r2 (6 + pos) begin (uni :: acc)
                        end
                      else scanstring r2 (6 + pos) begin (uni :: acc)
                  end
              | _ => Failed "Invalid \uXXXX escape" (S pos)
              end
            else
              match unescape e with
              | Some ch => scanstring r1 (2 + pos) begin (ch :: acc)
              | None => Failed "Invalid \escape" pos
              end
        end
      else if (c <? 32)%N then Failed "Invalid control character at" pos
      else scanstring r (S pos) begin (c :: acc)
  end.

Definition is_digit (c : char) : bool := ((48 <=? c) && (c <=? 57))%N.

Fixpoint span_digits (s : pystr) : pystr * pystr :=
  match s with
  | c :: r =>
      if is_digit c then let (d, r') := span_digits r in (c :: d, r') else ([], s)
  | [] => ([], [])
  end.

(** [NUMBER_RE]: an optional minus sign and the integer part ([0], or a
    non-zero digit and more digits), an optional fraction (a dot and one or
    more digits), an optional exponent ([e] or [E], an optional sign, one or
    more digits).  The result is the integer part, the fraction with the
    exponent, and the rest of the document. *)
Definition match_number (s : pystr) : option (pystr * pystr * pystr) :=
  let (sign, s1) := match s with
                    | c :: r => if (c =? 45)%N then ([c], r) else ([], s)
                    | [] => ([], s)
                    end in
  match s1 with
  | [] => None
  | c :: r =>
      let int_part :=
        if (c =? 48)%N then Some ([c], r)
        else if is_digit c then let (d, r') := span_digits r in Some (c :: d, r')
        else None in
      match int_part with
      | None => None
      | Some (ds, r1) =>
          let (frac, r2) :=
            match r1 with
            | dot :: f :: r' =>
                if (dot =? 46)%N && is_digit f
                then let (d, r'') := span_digits r' in (dot :: f :: d, r'')
                else ([], r1)
            | _ => ([], r1)
            end in
          let (exp, r3) :=
            match r2 with
            | e :: r' =>
                if ((e =? 101) || (e =? 69))%N then
                  let (sg, r'') :=
                    match r' with
                    | c' :: t => if ((c' =? 43) || (c' =? 45))%N
                                 then ([c'], t) else ([], r')
                    | [] => ([], r')
                    end in
                  match span_digits r'' with
                  | ([], _) => ([], r2)
                  | (d, t) => (e :: sg ++ d, t)
                  end
                else ([], r2)
            | [] => ([], r2)
            end in
          Some (sign ++ ds, frac ++ exp, r3)
      end
  end.

(** [int(integer)] for the integer part of a number: [ValueError] when it
    has more than [max_str_digits] digits, the sign apart. *)
Definition parse_int (integer : pystr) : result Z :=
  let (negative, digits) :=
    match integer with
    | c :: ds => if (c =? 45)%N then (true, ds) else (false, integer)
    | [] => (false, [])
    end in
  if (max_str_digits <? N.of_nat (length digits))%N then Raise ValueError
  else if negative then Ok (- Z.of_N (N_of_digits digits))%Z
  else Ok (Z.of_N (N_of_digits digits)).

(** A keyword of the grammar at the head of the document. *)
Definition keyword (kw : string) (v : pyval) (s : pystr) (pos : nat)
  : option (scan pyval) :=
  match strip_prefix kw s with
  | Some rest => Some (Scanned v rest (length (py kw) + pos))
  | None => None
  end.

(** [scan_once], [JSONObject] and [JSONArray].  The two loops take the
    document after the first key's opening quote and at the first value.
    [depth] is the number of containers that can still be opened inside one
    another: the scanner enters a recursive call of the interpreter at
    every [{] and [[], before it reads what follows. *)
Fixpoint scan_once (fuel depth : nat) (s : pystr) (pos : nat) {struct fuel}
  : scan pyval :=
  match fuel with
  | O => OutOfFuel
  | S fuel' =>
      match s with
      | [] => Failed "Expecting value" pos
      | c :: r =>
          if (c =? 34)%N then
            match scanstring r (S pos) pos [] with
            | Scanned str rest e => Scanned (PStr str) rest e
            | Failed msg p => Failed msg p
            | Raised e => Raised e
            | OutOfFuel => OutOfFuel
            end
          else if (c =? 123)%N then
            match depth with
            | O => Raised RecursionError
            | S depth' =>
                let (s1, p1) := skip_ws r (S pos) in
                match s1 with
                | c1 :: r1 =>
                    if (c1 =? 125)%N then Scanned (PDict []) r1 (S p1)
                    else if (c1 =? 34)%N
                    then JSONObject_loop fuel' depth' r1 (S p1) []
                    else Failed
                           "Expecting property name enclosed in double quotes" p1
                | [] => Failed
                          "Expecting property name enclosed in double quotes" p1
                end
            end
          else if (c =? 91)%N then
            match depth with
            | O => Raised RecursionError
            | S depth' =>
                let (s1, p1) := skip_ws r (S pos) in
                match s1 with
                | c1 :: r1 =>
                    if (c1 =? 93)%N then Scanned (PList []) r1 (S p1)
                    else JSONArray_loop fuel' depth' s1 p1 []
                | [] => JSONArray_loop fuel' depth' s1 p1 []
                end
            end
          else
            match keyword "null" PNone s pos with
            | Some res => res
            | None =>
            match keyword "true" (PBool true) s pos with
            | Some res => res
            | None =>
            match keyword "false" (PBool false) s pos with
            | Some res => res
            | None =>
            match match_number s with
            | Some (integer, [], rest) =>
                match parse_int integer with
                | Ok z => Scanned (PInt z) rest (length integer + pos)
                | Raise e => Raised e
                end
            | Some (integer, frac_exp, rest) =>
                Scanned (PFloat (integer ++ frac_exp)) rest
                        (length (integer ++ frac_exp) + pos)
            | None =>
            match keyword "NaN" (PFloat "NaN") s pos with
            | Some res => res
            | None =>
            match keyword "Infinity" (PFloat "Infinity") s pos with
            | Some res => res
            | None =>
            match keyword "-Infinity" (PFloat "-Infinity") s pos with
            | Some res => res
            | None => Failed "Expecting value" pos
            end end end end end end end
      end
  end

with JSONObject_loop (fuel depth : nat) (s : pystr) (pos : nat)
                     (pairs : list (pystr * pyval)) {struct fuel}
  : scan pyval :=
  match fuel with
  | O => OutOfFuel
  | S fuel' =>
      match scanstring s pos (pos - 1) [] with
      | Failed msg p => Failed msg p
      | Raised e => Raised e
      | OutOfFuel => OutOfFuel
      | Scanned key s1 p1 =>
          let (s2, p2) := skip_ws s1 p1 in
          match s2 with
          | colon :: s3 =>
              if (colon =? 58)%N then
                let (s4, p4) := skip_ws s3 (S p2) in
                match scan_once fuel' depth s4 p4 with
                | Failed msg p => Failed msg p
                | Raised e => Raised e
                | OutOfFuel => OutOfFuel
                | Scanned value s5 p5 =>
                    let pairs' := (key, value) :: pairs in
                    let (s6, p6) := skip_ws s5 p5 in
                    match s6 with
                    | nextchar :: s7 =>
                        if (nextchar =? 125)%N then
                          Scanned (PDict (dict_of_pairs (rev pairs'))) s7 (S p6)
                        else if (nextchar =? 44)%N then
                          let (s8, p8) := skip_ws s7 (S p6) in
                          match s8 with
                          | q :: s9 =>
                              if (q =? 34)%N
                              then JSONObject_loop fuel' depth s9 (S p8) pairs'
                              else Failed
                                "Expecting property name enclosed in double quotes"
                                p8
                          | [] => Failed
                                "Expecting property name enclosed in double quotes"
                                p8
                          end
                        else Failed "Expecting ',' delimiter" p6
                    | [] => Failed "Expecting ',' delimiter" p6
                    end
                end
              else Failed "Expecting ':' delimiter" p2
          | [] => Failed "Expecting ':' delimiter" p2
          end
      end
  end

with JSONArray_loop (fuel depth : nat) (s : pystr) (pos : nat)
                    (values : list pyval) {struct fuel}
  : scan pyval :=
  match fuel with
  | O => OutOfFuel
  | S fuel' =>
      match scan_once fuel' depth s pos with
      | Failed msg p => Failed msg p
      | Raised e => Raised e
      | OutOfFuel => OutOfFuel
      | Scanned value s1 p1 =>
          let values' := value :: values in
          let (s2, p2) := skip_ws s1 p1 in
          match s2 with
          | nextchar :: s3 =>
              if (nextchar =? 93)%N then Scanned (PList (rev values')) s3 (S p2)
              else if (nextchar =? 44)%N then
                let (s4, p4) := skip_ws s3 (S p2) in
                JSONArray_loop fuel' depth s4 p4 values'
              else Failed "Expecting ',' delimiter" p2
          | [] => Failed "Expecting ',' delimiter" p2
          end
      end
  end.

Fixpoint count_newlines (s : pystr) (n : nat) : nat :=
  match n, s with
  | S n', c :: r => (if (c =? 10)%N then 1 else 0) + count_newlines r n'
  | _, _ => 0
  end.

(** [pos - doc.rfind('\n', 0, pos)] *)
Fixpoint column_of (s : pystr) (n : nat) (col : nat) : nat :=
  match n, s with
  | S n', c :: r => column_of r n' (if (c =? 10)%N then 1 else S col)
  | _, _ => col
  end.

(** [JSONDecodeError(msg, doc, pos)] *)
Definition make_decode_error (msg doc : pystr) (pos : nat) : DecodeError :=
  {| de_msg := msg; de_doc := doc; de_pos := pos;
     de_lineno := count_newlines doc pos + 1;
     de_colno := column_of doc pos 1 |}.

(** [json.loads(s)]: one value, white space around it, nothing else.  Two
    units of fuel for each character of the document are enough for every
    document; what the scanner raises besides its decode error, the
    [ValueError] of an integer that is too long and the [RecursionError] of a
    nesting that is too deep, is raised as it is. *)
Definition json_loads {RT : PyRuntime} (s : pystr) : result pyval :=
  match s with
  | 65279%N :: _ =>
      Raise (JSONDecodeError
               (make_decode_error "Unexpected UTF-8 BOM (decode using utf-8-sig)" s 0))
  | _ =>
      let (s1, p1) := skip_ws s 0 in
      match scan_once (2 * length s + 2) (S json_nesting) s1 p1 with
      | Failed msg p => Raise (JSONDecodeError (make_decode_error msg s p))
      | Raised e => Raise e
      | OutOfFuel => Raise RecursionError
      | Scanned obj s2 p2 =>
          let (s3, p3) := skip_ws s2 p2 in
          match s3 with
          | [] => Ok obj
          | _ :: _ =>
              Raise (JSONDecodeError (make_decode_error "Extra data" s p3))
          end
      end
  end.

(* ================================================================== *)
(** * Dates, paths and the [logging] records                            *)
(* ================================================================== *)

(** [datetime.now()] and [LogRecord.created], as local broken-down time. *)
Record datetime := mkDatetime {
  year : N;
  month : N;
  day : N;
  hour : N;
  minute : N;
  second : N
}.

(** [dt.strftime("%d_%m_%y")]: the date key of a log file. *)
Definition strftime_d_m_y (dt : datetime) : pystr :=
  pad2 (day dt) ++ py "_" ++ pad2 (month dt) ++ py "_" ++ pad2 (year dt mod 100).

(** [strftime("%Y-%m-%d %H:%M:%S")]: the time stamp of a record. *)
Definition strftime_Y_m_d_H_M_S (dt : datetime) : pystr :=
  pad4 (year dt) ++ py "-" ++ pad2 (month dt) ++ py "-" ++ pad2 (day dt)
  ++ py " " ++ pad2 (hour dt) ++ py ":" ++ pad2 (minute dt) ++ py ":"
  ++ pad2 (second dt).

(** A [pathlib.Path], by its string form. *)
Abbreviation Path := pystr (only parsing).

(** [directory / name] for a file name without separators. *)
Definition joinpath (directory : Path) (name : pystr) : Path :=
  directory ++ py "/" ++ name.

Definition path_eqb (p q : Path) : bool := str_eqb p q.

(** [p != q] where [q] may be [None]. *)
Definition path_ne_opt (p : Path) (q : option Path) : bool :=
  match q with
  | Some q' => negb (path_eqb p q')
  | None => true
  end.

(** The text files of the file system: path and content. *)
Definition Files := list (Path * pystr).

Module logging.

Definition DEBUG : Z := 10.
Definition INFO : Z := 20.
Definition WARN : Z := 30.
Definition ERROR : Z := 40.
Definition FATAL : Z := 50.

(** An exception class, by its [__name__]. *)
Record ExcType := mkExcType { cls_name : pystr }.

(** An exception object as the handlers use it: [str(evalue)], and the
    lines [traceback.format_exception] renders for it (header, frames,
    chained causes and the final line), or the exception either call
    raises. *)
Record ExcValue := mkExcValue {
  ev_str : result pystr;
  ev_format : result (list pystr)
}.

(** A traceback object, by the text of its frames. *)
Definition Traceback := list pystr.

(** [record.exc_info] when it is true: the triple [(etype, evalue, etb)],
    each component of which may be [None]. *)
Definition ExcInfo : Type := option ExcType * option ExcValue * option Traceback.

(** A [logging.LogRecord].  [getMessage] is the outcome of
    [record.getMessage()], which merges the arguments into the message
    and may raise; [exc_info = None] stands for a false [exc_info]. *)
Record LogRecord := mkLogRecord {
  name : pystr;
  levelno : Z;
  levelname : pystr;
  filename : pystr;
  threadName : pystr;
  created : datetime;
  getMessage : result pystr;
  exc_info : option ExcInfo
}.

(** [Formatter().formatTime(record, datefmt="%Y-%m-%d %H:%M:%S")] *)
Definition formatTime (record : LogRecord) : pystr :=
  strftime_Y_m_d_H_M_S (created record).

Definition stack_lines (etb : option Traceback) : list pystr :=
  match etb with
  | Some (frame :: frames) =>
      (py "Traceback (most recent call last):" ++ [10%N]) :: frame :: frames
  | _ => []
  end.

(** [traceback.format_exception(etype, evalue, etb)].  The class is taken
    from the value, not from [etype]; for the value [None] the final line
    names [NoneType]. *)
Definition format_exception (etype : option ExcType) (evalue : option ExcValue)
                            (etb : option Traceback) : result (list pystr) :=
  match evalue with
  | None => Ok (stack_lines etb ++ [py "NoneType: None" ++ [10%N]])
  | Some v => ev_format v
  end.

End logging.

(* ================================================================== *)
(** * The world of the writers: files, failures, the diagnostic channel *)
(* ================================================================== *)

(** The modes a log file is opened in: ["a"] and ["w"]. *)
Inductive FileMode := mode_a | mode_w.

(** The system calls that succeeded, and the reports of
    [Handler.handleError]. *)
Inductive Event :=
| Opened (path : Path) (m : FileMode)
| Closed (path : Path)
| Wrote (path : Path) (text : pystr)
| Flushed (path : Path)
| Reported (record : logging.LogRecord).

(** The process and its file system.  Paths are relative to a working
    directory that does not change, so [os.path.abspath] is left out.
    [events] is the history of the process, last event first; [stderr]
    holds the records [Handler.handleError] reported, last first;
    [next_id] is the identity the next object gets. *)
Record World := mkWorld {
  files : Files;
  dirs : list Path;
  events : list Event;
  stderr : list logging.LogRecord;
  next_id : nat
}.

(** What the surroundings do during one call: the wall clock that
    [datetime.now()] reads, and for each kind of system call the exception
    it raises, if any. *)
Record Env := mkEnv {
  now : datetime;
  mkdir_error : option exn;
  open_error : option exn;
  close_error : option exn;
  write_error : option exn;
  flush_error : option exn
}.

(** An open text file object. *)
Record Stream := mkStream { st_name : Path }.

Definition with_files (w : World) (fs : Files) : World :=
  {| files := fs; dirs := dirs w; events := events w; stderr := stderr w;
     next_id := next_id w |}.

Definition with_dirs (w : World) (ds : list Path) : World :=
  {| files := files w; dirs := ds; events := events w; stderr := stderr w;
     next_id := next_id w |}.

Definition log_event (w : World) (ev : Event) : World :=
  {| files := files w; dirs := dirs w; events := ev :: events w;
     stderr := stderr w; next_id := next_id w |}.

Definition report (w : World) (record : logging.LogRecord) : World :=
  {| files := files w; dirs := dirs w; events := Reported record :: events w;
     stderr := record :: stderr w; next_id := next_id w |}.

Definition with_next_id (w : World) (n : nat) : World :=
  {| files := files w; dirs := dirs w; events := events w; stderr := stderr w;
     next_id := n |}.

(** The file system after [open(path, mode)]: ["a"] creates a missing file
    and keeps an existing one, ["w"] creates or empties it. *)
Definition files_after_open (fs : Files) (path : Path) (m : FileMode) : Files :=
  match m, dict_lookup fs path with
  | mode_a, Some _ => fs
  | _, _ => dict_setitem fs path []
  end.

(** The file system after text is written at the end of a file. *)
Definition files_after_write (fs : Files) (path : Path) (text : pystr) : Files :=
  dict_setitem fs path (dict_get fs path [] ++ text).

(** ** Computations that change a state and may raise                    *)

Section StateExn.
Variable St : Type.

(** The state reached is kept when the computation raises. *)
Definition M (A : Type) : Type := St -> result A * St.

Definition ret {A} (a : A) : M A := fun s => (Ok a, s).

Definition raise {A} (e : exn) : M A := fun s => (Raise e, s).

Definition bindM {A B} (m : M A) (k : A -> M B) : M B :=
  fun s => match m s with
           | (Ok a, s') => k a s'
           | (Raise e, s') => (Raise e, s')
           end.

Definition gets {A} (f : St -> A) : M A := fun s => (Ok (f s), s).

Definition modify (f : St -> St) : M unit := fun s => (Ok tt, f s).

Definition lift {A} (r : result A) : M A := fun s => (r, s).

(** [try: body except Exception: handler] *)
Definition try_except_Exception (body handler : M unit) : M unit :=
  fun s => match body s with
           | (Ok a, s') => (Ok a, s')
           | (Raise e, s') => if is_Exception e then handler s' else (Raise e, s')
           end.

(** [try: body except RecursionError: raise except Exception: handler] *)
Definition try_except_reraising_RecursionError (body handler : M unit) : M unit :=
  fun s => match body s with
           | (Ok a, s') => (Ok a, s')
           | (Raise RecursionError, s') => (Raise RecursionError, s')
           | (Raise e, s') => if is_Exception e then handler s' else (Raise e, s')
           end.
End StateExn.

Declare Scope monad_scope.
Delimit Scope monad_scope with monad.
Notation "x <- m ;; k" := (bindM m (fun x => k))
  (at level 61, m at next level, right associativity) : monad_scope.
Notation "m ;;; k" := (bindM m (fun _ => k))
  (at level 61, right associativity) : monad_scope.

(** ** File objects and the handler base class                           *)

Section HandlerOps.
(** The handler object [self], of whatever class. *)
Variable H : Type.
Variable env : Env.

Definition on_world (f : World -> World) : M (H * World) unit :=
  modify (fun s => (fst s, f (snd s))).

Definition system_call (error : option exn) : M (H * World) unit :=
  match error with
  | Some e => raise e
  | None => ret tt
  end.

(** [open(path, mode, encoding=encoding)] *)
Definition open_ (path : Path) (m : FileMode) : M (H * World) Stream :=
  (system_call (open_error env) ;;;
   on_world (fun w => log_event (with_files w (files_after_open (files w) path m))
                                (Opened path m)) ;;;
   ret (mkStream path))%monad.

(** [stream.close()] *)
Definition stream_close (st : Stream) : M (H * World) unit :=
  (system_call (close_error env) ;;;
   on_world (fun w => log_event w (Closed (st_name st))))%monad.

(** [stream.write(text)] *)
Definition stream_write (st : Stream) (text : pystr) : M (H * World) unit :=
  (system_call (write_error env) ;;;
   on_world (fun w => log_event
                        (with_files w (files_after_write (files w) (st_name st) text))
                        (Wrote (st_name st) text)))%monad.

(** [stream.flush()] *)
Definition stream_flush (st : Stream) : M (H * World) unit :=
  (system_call (flush_error env) ;;;
   on_world (fun w => log_event w (Flushed (st_name st))))%monad.

(** [Handler.handleError(record)]: the record is reported on the
    diagnostic channel and the call returns. *)
Definition handleError (record : logging.LogRecord) : M (H * World) unit :=
  on_world (fun w => report w record).

(** [path.mkdir(exist_ok=True)]: a regular file of that name is in the
    way. *)
Definition mkdir_exist_ok (path : Path) : M (H * World) unit :=
  (system_call (mkdir_error env) ;;;
   fs <- gets (fun s => files (snd s)) ;;
   match dict_lookup fs path with
   | Some _ => raise (FileExistsError path)
   | None =>
       on_world (fun w => if existsb (path_eqb path) (dirs w)
                          then w else with_dirs w (path :: dirs w))
   end)%monad.

(** The identity of a new object. *)
Definition new_id : M (H * World) nat :=
  (n <- gets (fun s => next_id (snd s)) ;;
   on_world (fun w => with_next_id w (S n)) ;;;
   ret n)%monad.
End HandlerOps.

Module logging_handlers.
Import logging.

(** The two formats the program uses: the default of [logging]
    ([%(message)s]) and the format of the factories,
    [[%(asctime)s] [%(filename)s] [%(threadName)s] [%(levelname)s] - %(message)s]
    with the date format [%Y-%m-%d %H:%M:%S]. *)
Inductive Formatter := default_format | log_format.

(** The attributes of [logging.FileHandler]. *)
Record FileHandler := mkFileHandler {
  id : nat;
  level : Z;
  formatter : option Formatter;
  baseFilename : Path;
  mode : FileMode;
  encoding : pystr;
  stream : option Stream;
  _closed : bool
}.

Definition set_stream (h : FileHandler) (st : option Stream) : FileHandler :=
  {| id := id h; level := level h; formatter := formatter h;
     baseFilename := baseFilename h; mode := mode h; encoding := encoding h;
     stream := st; _closed := _closed h |}.

Definition set_baseFilename (h : FileHandler) (p : Path) : FileHandler :=
  {| id := id h; level := level h; formatter := formatter h;
     baseFilename := p; mode := mode h; encoding := encoding h;
     stream := stream h; _closed := _closed h |}.

(** [Handler.setLevel(level)] *)
Definition setLevel (h : FileHandler) (lvl : Z) : FileHandler :=
  {| id := id h; level := lvl; formatter := formatter h;
     baseFilename := baseFilename h; mode := mode h; encoding := encoding h;
     stream := stream h; _closed := _closed h |}.

(** [Handler.setFormatter(fmt)] *)
Definition setFormatter (h : FileHandler) (f : Formatter) : FileHandler :=
  {| id := id h; level := level h; formatter := Some f;
     baseFilename := baseFilename h; mode := mode h; encoding := encoding h;
     stream := stream h; _closed := _closed h |}.

(** A [logging.StreamHandler] on the console. *)
Record StreamHandler := mkStreamHandler {
  console_id : nat;
  console_level : Z;
  console_formatter : option Formatter
}.

(** [s[:-1]] when [s] ends with a newline, else [s]. *)
Definition drop_final_newline (s : pystr) : pystr :=
  match rev s with
  | c :: r => if (c =? 10)%N then rev r else s
  | [] => s
  end.

Definition ends_with_newline (s : pystr) : bool :=
  match rev s with
  | c :: _ => (c =? 10)%N
  | [] => false
  end.

(** [Formatter.format(record)]: the formatted message, and the text of
    the exception on the lines after it. *)
Definition format (f : option Formatter) (record : LogRecord) : result pystr :=
  (message <- getMessage record ;;
   let s :=
     match f with
     | Some log_format =>
         py "[" ++ formatTime record ++ py "] [" ++ filename record
         ++ py "] [" ++ threadName record ++ py "] [" ++ levelname record
         ++ py "] - " ++ message
     | _ => message
     end in
   match exc_info record with
   | Some (etype, evalue, etb) =>
       lines <- format_exception etype evalue etb ;;
       let exc_text := drop_final_newline (concat lines) in
       match exc_text with
       | [] => Ok s
       | _ :: _ =>
           Ok ((if ends_with_newline s then s else s ++ [10%N]) ++ exc_text)
       end
   | None => Ok s
   end)%result.

(** ** Methods of [logging.FileHandler] and [logging.StreamHandler]

    They run on a handler of a subclass [H] whose base-class attributes
    are [base self]. *)
Section FileHandlerMethods.
Variable H : Type.
Variable base : H -> FileHandler.
Variable with_base : H -> FileHandler -> H.
Variable env : Env.

Definition get {A} (f : FileHandler -> A) : M (H * World) A :=
  gets (fun s => f (base (fst s))).

Definition set (f : FileHandler -> FileHandler) : M (H * World) unit :=
  modify (fun s => (with_base (fst s) (f (base (fst s))), snd s)).

(** [FileHandler._open()] *)
Definition _open : M (H * World) Stream :=
  (path <- get baseFilename ;;
   m <- get mode ;;
   open_ env path m)%monad.

(** [StreamHandler.flush()] *)
Definition flush : M (H * World) unit :=
  (st <- get stream ;;
   match st with
   | Some s => stream_flush env s
   | None => ret tt
   end)%monad.

(** [StreamHandler.emit(record)] *)
Definition StreamHandler_emit (record : LogRecord) : M (H * World) unit :=
  try_except_reraising_RecursionError
    (f <- get formatter ;;
     msg <- lift (format f record) ;;
     st <- get stream ;;
     match st with
     | Some s => stream_write env s (msg ++ [10%N])
     | None => raise (AttributeError "write")
     end ;;;
     flush)%monad
    (handleError record).

(** [FileHandler.emit(record)] *)
Definition FileHandler_emit (record : LogRecord) : M (H * World) unit :=
  (st <- get stream ;;
   match st with
   | None =>
       m <- get mode ;;
       closed <- get _closed ;;
       if match m with mode_w => false | mode_a => true end || negb closed
       then (s <- _open ;; set (fun h => set_stream h (Some s)))
       else ret tt
   | Some _ => ret tt
   end ;;;
   st <- get stream ;;
   match st with
   | Some _ => StreamHandler_emit record
   | None => ret tt
   end)%monad.
End FileHandlerMethods.

(** ** [logging.Logger]                                                *)

(** A logger object and the handlers attached to it, of type [Hd]. *)
Record Logger (Hd : Type) := mkLogger {
  logger_id : nat;
  logger_name : pystr;
  logger_level : Z;
  handlers : list Hd
}.
Arguments mkLogger {Hd} logger_id logger_name logger_level handlers.

(** [Logger(name, level)]: a new object, with no handler yet.  The
    constructor does not look the name up in the registry that
    [logging.getLogger] keeps. *)
Definition Logger_init {Hd} (name : pystr) (lvl : Z)
  : M (unit * World) (Logger Hd) :=
  (i <- new_id (H := unit) ;;
   ret (mkLogger i name lvl []))%monad.

(** [Logger.setLevel(level)] *)
Definition Logger_setLevel {Hd} (lg : Logger Hd) (lvl : Z) : Logger Hd :=
  mkLogger (logger_id lg) (logger_name lg) lvl (handlers lg).

(** [Logger.addHandler(hdlr)]: a handler that is attached already is not
    attached again.  [ident] is the identity of a handler object. *)
Definition addHandler {Hd} (ident : Hd -> nat) (lg : Logger Hd) (hdlr : Hd)
  : Logger Hd :=
  if existsb (fun h => Nat.eqb (ident h) (ident hdlr)) (handlers lg)
  then lg
  else mkLogger (logger_id lg) (logger_name lg) (logger_level lg)
                (handlers lg ++ [hdlr]).

(** [StreamHandler()]: a new console handler, level [NOTSET]. *)
Definition StreamHandler_init : M (unit * World) StreamHandler :=
  (i <- new_id (H := unit) ;;
   ret (mkStreamHandler i 0 None))%monad.

(** The table of level names of the factories, and
    [levels_map.get(level, INFO)]. *)
Definition levels_map : list (pystr * Z) :=
  [ (py "DEBUG", DEBUG); (py "FATAL", FATAL); (py "ERROR", ERROR);
    (py "WARN", WARN); (py "INFO", INFO) ].

Definition is_empty {A} (l : list A) : bool :=
  match l with
  | [] => true
  | _ :: _ => false
  end.

End logging_handlers.

(* ================================================================== *)
(** * json_logger.py                                                    *)
(* ================================================================== *)

Module json_logger.
Import logging.

Record JsonLogEntry := mkJsonLogEntry {
  time : pystr;
  logger : pystr;
  level : pystr;
  file : pystr;
  thread : pystr;
  message : pystr;
  exc_type : option pystr;
  exc_message : option pystr;
  exc_traceback : option pystr
}.

(** The [try: ... except Exception: exc_traceback = None] of
    [from_record]: an exception that is not an [Exception] passes. *)
Definition traceback_or_None (r : result (list pystr))
  : result (option pystr) :=
  match r with
  | Ok lines => Ok (Some (concat lines))
  | Raise e => if is_Exception e then Ok None else Raise e
  end.

(** [JsonLogEntry.from_record(record)] *)
Definition from_record (record : LogRecord) : result JsonLogEntry :=
  (let time := formatTime record in
   match exc_info record with
   | Some (etype, evalue, etb) =>
       let exc_type := match etype with
                       | Some t => Some (cls_name t)
                       | None => None
                       end in
       exc_message <- match evalue with
                      | Some v => (s <- ev_str v ;; Ok (Some s))
                      | None => Ok None
                      end ;;
       exc_traceback <- traceback_or_None (format_exception etype evalue etb) ;;
       message <- getMessage record ;;
       Ok {| time := time; logger := name record; level := levelname record;
             file := filename record; thread := threadName record;
             message := message; exc_type := exc_type;
             exc_message := exc_message; exc_traceback := exc_traceback |}
   | None =>
       message <- getMessage record ;;
       Ok {| time := time; logger := name record; level := levelname record;
             file := filename record; thread := threadName record;
             message := message; exc_type := None;
             exc_message := None; exc_traceback := None |}
   end)%result.

Definition optional_str (o : option pystr) : pyval :=
  match o with
  | Some s => PStr s
  | None => PNone
  end.

(** [dataclasses.asdict(payload)]: the fields in declaration order. *)
Definition asdict (payload : JsonLogEntry) : pyval :=
  PDict [ (py "time", PStr (time payload));
          (py "logger", PStr (logger payload));
          (py "level", PStr (level payload));
          (py "file", PStr (file payload));
          (py "thread", PStr (thread payload));
          (py "message", PStr (message payload));
          (py "exc_type", optional_str (exc_type payload));
          (py "exc_message", optional_str (exc_message payload));
          (py "exc_traceback", optional_str (exc_traceback payload)) ].

(** [DailyJsonRotatingFileHandler._serialize_record(record)] *)
Definition _serialize_record {RT : PyRuntime} (record : LogRecord)
  : result pystr :=
  (payload <- from_record record ;;
   Ok (json_dumps (asdict payload)))%result.

(** ** The handler                                                     *)

Import logging_handlers.

Record DailyJsonRotatingFileHandler := mkHandler {
  base : FileHandler;
  log_dir : Path;
  _current_file : option Path
}.

Definition with_base (h : DailyJsonRotatingFileHandler) (b : FileHandler)
  : DailyJsonRotatingFileHandler :=
  {| base := b; log_dir := log_dir h; _current_file := _current_file h |}.

Definition set__current_file (h : DailyJsonRotatingFileHandler)
                             (p : option Path)
  : DailyJsonRotatingFileHandler :=
  {| base := base h; log_dir := log_dir h; _current_file := p |}.

(** The path of the log file of a date: [log_dir / f"{date}_logs.ndjson"]. *)
Definition log_file_of (directory : Path) (t : datetime) : Path :=
  joinpath directory (strftime_d_m_y t ++ py "_logs.ndjson").

Section Methods.
Context {RT : PyRuntime}.
Variable env : Env.

Let St : Type := (DailyJsonRotatingFileHandler * World)%type.

(** [self._get_current_log_file()] *)
Definition _get_current_log_file : M St Path :=
  gets (fun s => log_file_of (log_dir (fst s)) (now env)).

(** The body of the [try] of [emit]. *)
Definition emit_try (record : LogRecord) : M St unit :=
  (current_log_file <- _get_current_log_file ;;
   current <- gets (fun s => _current_file (fst s)) ;;
   (if path_ne_opt current_log_file current then
      st <- get base stream ;;
      match st with
      | Some s =>
          stream_close env s ;;;
          set base with_base (fun h => set_stream h None)
      | None => ret tt
      end ;;;
      modify (fun s => (set__current_file (fst s) (Some current_log_file),
                        snd s)) ;;;
      set base with_base (fun h => set_baseFilename h current_log_file) ;;;
      s <- _open base env ;;
      set base with_base (fun h => set_stream h (Some s))
    else ret tt) ;;;
   json_line <- lift (_serialize_record record) ;;
   st <- get base stream ;;
   stream <- match st with
             | Some s => ret s
             | None => _open base env
             end ;;
   stream_write env stream (json_line ++ [10%N]) ;;;
   stream_flush env stream)%monad.

(** [DailyJsonRotatingFileHandler.emit(record)] *)
Definition emit (record : LogRecord) : M St unit :=
  try_except_Exception (emit_try record) (handleError record).

(** [DailyJsonRotatingFileHandler(log_dir, encoding, mode)]: the base
    class opens the file of the day the handler is created on. *)
Definition __init__ (log_dir : Path) (encoding : pystr) (mode : FileMode)
  : M (unit * World) DailyJsonRotatingFileHandler :=
  (let filename := log_file_of log_dir (now env) in
   st <- open_ env filename mode ;;
   i <- new_id (H := unit) ;;
   ret {| base := {| id := i; level := 0; formatter := None;
                     baseFilename := filename; mode := mode;
                     encoding := encoding; stream := Some st;
                     _closed := false |};
          log_dir := log_dir;
          _current_file := None |})%monad.
End Methods.

(** ** The logger and its factory                                      *)

(** The handlers a [JsonAppLogger] carries. *)
Inductive Handler :=
| File (h : DailyJsonRotatingFileHandler)
| Console (h : StreamHandler).

Definition handler_id (h : Handler) : nat :=
  match h with
  | File f => id (base f)
  | Console c => console_id c
  end.

Definition handler_level (h : Handler) : Z :=
  match h with
  | File f => logging_handlers.level (base f)
  | Console c => console_level c
  end.

Definition JsonAppLogger := Logger Handler.

(** [get_json_app_logger(logger_name, level, to_console)] *)
Definition get_json_app_logger (env : Env) (logger_name : pystr)
                               (level : pystr) (to_console : bool)
  : M (unit * World) JsonAppLogger :=
  (let current_level := dict_get levels_map level INFO in
   let log_dir : Path := py "logs" in
   let current_dir := joinpath log_dir logger_name in
   mkdir_exist_ok env log_dir ;;;
   mkdir_exist_ok env current_dir ;;;
   logger <- Logger_init logger_name INFO ;;
   let logger := Logger_setLevel logger current_level in
   if is_empty (handlers logger) then
     file_handler <- __init__ env current_dir "utf-8" mode_a ;;
     let file_handler :=
       with_base file_handler (setLevel (base file_handler) current_level) in
     let logger := addHandler handler_id logger (File file_handler) in
     if to_console then
       stream_handler <- StreamHandler_init ;;
       let stream_handler :=
         mkStreamHandler (console_id stream_handler) current_level
                         (Some log_format) in
       ret (addHandler handler_id logger (Console stream_handler))
     else ret logger
   else ret logger)%monad.

End json_logger.

(* ================================================================== *)
(** * json_reader.py                                                    *)
(* ================================================================== *)

(** The lines a text file yields when it is iterated, each with its
    terminator: the file is opened with universal newlines, so [\n], [\r]
    and [\r\n] all end a line and are read as [\n]. *)
Fixpoint readlines_from (content : pystr) (line : pystr) : list pystr :=
  match content with
  | [] => match line with [] => [] | _ => [rev line] end
  | c :: rest =>
      if (c =? 10)%N then rev (10%N :: line) :: readlines_from rest []
      else if (c =? 13)%N then
        match rest with
        | c' :: rest' =>
            if (c' =? 10)%N then rev (10%N :: line) :: readlines_from rest' []
            else rev (10%N :: line) :: readlines_from rest []
        | [] => [rev (10%N :: line)]
        end
      else readlines_from rest (c :: line)
  end.

Definition readlines (content : pystr) : list pystr := readlines_from content [].

(** What a generator does when it is run to its end: the values it yields,
    in order, and how it stops, by returning ([None]) or by raising. *)
Record trace (A : Type) := mkTrace {
  yielded : list A;
  raised : option exn
}.
Arguments mkTrace {A} yielded raised.

Definition yield_then {A} (a : A) (t : trace A) : trace A :=
  mkTrace (a :: yielded t) (raised t).

(** [list(generator)] *)
Definition list_of_trace {A} (t : trace A) : result (list A) :=
  match raised t with
  | None => Ok (yielded t)
  | Some e => Raise e
  end.

Module json_reader.

Record JsonLogRecord := mkJsonLogRecord {
  time : pystr;
  logger : pystr;
  level : pystr;
  file : pystr;
  thread : pystr;
  message : pystr;
  exc_type : option pystr;
  exc_message : option pystr;
  exc_traceback : option pystr
}.

Definition is_not_None (v : pyval) : bool :=
  match v with
  | PNone => false
  | _ => true
  end.

Section FromDict.
Context {RT : PyRuntime}.

(** [str(raw[key]) if raw.get(key) is not None else None] *)
Definition optional_field (raw : list (pystr * pyval)) (key : pystr)
  : result (option pystr) :=
  (if is_not_None (dict_get raw key PNone)
   then (v <- dict_getitem raw key ;; s <- py_str v ;; Ok (Some s))
   else Ok None)%result.

(** [JsonLogRecord.from_dict(raw)].  A value that is not a [dict] has no
    [get]. *)
Definition from_dict (raw : pyval) : result JsonLogRecord :=
  match raw with
  | PDict d =>
      (time <- py_str (dict_get d "time" (PStr "")) ;;
       logger <- py_str (dict_get d "logger" (PStr "")) ;;
       level <- py_str (dict_get d "level" (PStr "")) ;;
       file <- py_str (dict_get d "file" (PStr "")) ;;
       thread <- py_str (dict_get d "thread" (PStr "")) ;;
       message <- py_str (dict_get d "message" (PStr "")) ;;
       exc_type <- optional_field d "exc_type" ;;
       exc_message <- optional_field d "exc_message" ;;
       exc_traceback <- optional_field d "exc_traceback" ;;
       Ok {| time := time; logger := logger; level := level; file := file;
             thread := thread; message := message; exc_type := exc_type;
             exc_message := exc_message; exc_traceback := exc_traceback |})%result
  | _ => Raise (AttributeError "get")
  end.
End FromDict.

Record JsonLogReader := mkJsonLogReader { _path : Path }.

(** The loop of [iter_dicts] over the lines of the open file. *)
Fixpoint iter_lines {RT : PyRuntime} (lines : list pystr) : trace pyval :=
  match lines with
  | [] => mkTrace [] None
  | line :: rest =>
      let line := strip line in
      match line with
      | [] => iter_lines rest
      | _ :: _ =>
          match json_loads line with
          | Ok obj => yield_then obj (iter_lines rest)
          | Raise e => mkTrace [] (Some e)
          end
      end
  end.

(** [JsonLogReader.iter_dicts()] *)
Definition iter_dicts {RT : PyRuntime} (self : JsonLogReader) (fs : Files)
  : trace pyval :=
  match dict_lookup fs (_path self) with
  | None => mkTrace [] (Some (FileNotFoundError (_path self)))
  | Some content => iter_lines (readlines content)
  end.

(** The loop [for raw in ...: yield JsonLogRecord.from_dict(raw)] over what
    the inner generator does. *)
Fixpoint records_of {RT : PyRuntime} (dicts : list pyval)
                    (stop : option exn) : trace JsonLogRecord :=
  match dicts with
  | [] => mkTrace [] stop
  | raw :: rest =>
      match from_dict raw with
      | Ok r => yield_then r (records_of rest stop)
      | Raise e => mkTrace [] (Some e)
      end
  end.

(** [JsonLogReader.iter_records()] *)
Definition iter_records {RT : PyRuntime} (self : JsonLogReader) (fs : Files)
  : trace JsonLogRecord :=
  let t := iter_dicts self fs in
  records_of (yielded t) (raised t).

(** [JsonLogReader.to_list()] *)
Definition to_list {RT : PyRuntime} (self : JsonLogReader) (fs : Files)
  : result (list pyval) :=
  list_of_trace (iter_dicts self fs).

(** [JsonLogReader.to_records()] *)
Definition to_records {RT : PyRuntime} (self : JsonLogReader) (fs : Files)
  : result (list JsonLogRecord) :=
  list_of_trace (iter_records self fs).

End json_reader.

(* ================================================================== *)
(** * app_logger.py                                                     *)
(* ================================================================== *)

Module app_logger.
Import logging.
Import logging_handlers.

Record DailyRotatingFileHandler := mkHandler {
  base : FileHandler;
  log_dir : Path;
  _current_date : option pystr;
  _current_file : option Path
}.

Definition with_base (h : DailyRotatingFileHandler) (b : FileHandler)
  : DailyRotatingFileHandler :=
  {| base := b; log_dir := log_dir h; _current_date := _current_date h;
     _current_file := _current_file h |}.

Definition set__current_file (h : DailyRotatingFileHandler) (p : option Path)
  : DailyRotatingFileHandler :=
  {| base := base h; log_dir := log_dir h; _current_date := _current_date h;
     _current_file := p |}.

(** The path of the log file of a date: [log_dir / f"{date}_logs.log"]. *)
Definition log_file_of (directory : Path) (t : datetime) : Path :=
  joinpath directory (strftime_d_m_y t ++ py "_logs.log").

Section Methods.
Variable env : Env.

Let St : Type := (DailyRotatingFileHandler * World)%type.

(** [self._get_current_log_file()] *)
Definition _get_current_log_file : M St Path :=
  gets (fun s => log_file_of (log_dir (fst s)) (now env)).

(** The body of the [try] of [emit]. *)
Definition emit_try (record : LogRecord) : M St unit :=
  (current_log_file <- _get_current_log_file ;;
   current <- gets (fun s => _current_file (fst s)) ;;
   (if path_ne_opt current_log_file current then
      st <- get base stream ;;
      match st with
      | Some s =>
          stream_close env s ;;;
          set base with_base (fun h => set_stream h None)
      | None => ret tt
      end ;;;
      modify (fun s => (set__current_file (fst s) (Some current_log_file),
                        snd s)) ;;;
      set base with_base (fun h => set_baseFilename h current_log_file) ;;;
      s <- _open base env ;;
      set base with_base (fun h => set_stream h (Some s))
    else ret tt) ;;;
   FileHandler_emit base with_base env record ;;;
   st <- get base stream ;;
   match st with
   | Some _ => flush base env
   | None => ret tt
   end)%monad.

(** [DailyRotatingFileHandler.emit(record)] *)
Definition emit (record : LogRecord) : M St unit :=
  try_except_Exception (emit_try record) (handleError record).

(** [DailyRotatingFileHandler(log_dir, encoding, mode)]: the base class
    opens the file of the day the handler is created on. *)
Definition __init__ (log_dir : Path) (encoding : pystr) (mode : FileMode)
  : M (unit * World) DailyRotatingFileHandler :=
  (let filename := log_file_of log_dir (now env) in
   st <- open_ env filename mode ;;
   i <- new_id (H := unit) ;;
   ret {| base := {| id := i; level := 0; formatter := None;
                     baseFilename := filename; mode := mode;
                     encoding := encoding; stream := Some st;
                     _closed := false |};
          log_dir := log_dir;
          _current_date := None;
          _current_file := None |})%monad.
End Methods.

(** The handlers an [AppLogger] carries. *)
Inductive Handler :=
| File (h : DailyRotatingFileHandler)
| Console (h : StreamHandler).

Definition handler_id (h : Handler) : nat :=
  match h with
  | File f => id (base f)
  | Console c => console_id c
  end.

Definition handler_level (h : Handler) : Z :=
  match h with
  | File f => logging_handlers.level (base f)
  | Console c => console_level c
  end.

Definition AppLogger := Logger Handler.

(** [get_app_logger(logger_name, level, to_console)] *)
Definition get_app_logger (env : Env) (logger_name : pystr) (level : pystr)
                          (to_console : bool)
  : M (unit * World) AppLogger :=
  (let current_level := dict_get levels_map level INFO in
   let log_dir : Path := py "logs" in
   let current_dir := joinpath log_dir logger_name in
   mkdir_exist_ok env log_dir ;;;
   mkdir_exist_ok env current_dir ;;;
   logger <- Logger_init logger_name INFO ;;
   let logger := Logger_setLevel logger current_level in
   if is_empty (handlers logger) then
     file_handler <- __init__ env current_dir "utf-8" mode_a ;;
     let file_handler :=
       with_base file_handler (setLevel (base file_handler) current_level) in
     let file_handler :=
       with_base file_handler (setFormatter (base file_handler) log_format) in
     let logger := addHandler handler_id logger (File file_handler) in
     if to_console then
       stream_handler <- StreamHandler_init ;;
       let stream_handler :=
         mkStreamHandler (console_id stream_handler) current_level
                         (Some log_format) in
       ret (addHandler handler_id logger (Console stream_handler))
     else ret logger
   else ret logger)%monad.

End app_logger.

(* ================================================================== *)
(** * Logging calls: [Logger.debug] ... [Logger.critical]               *)
(* ================================================================== *)

(** The methods of [logging.Logger] that the program calls on the loggers
    of the factories, and what they call in turn.  Such a logger was
    constructed directly: it has no parent and no filter, it is not
    disabled, and [manager.disable] is [0]. *)
Module logging_calls.
Import logging logging_handlers.

(** [logging.getLevelName(level)] for a number, with the names the module
    registers. *)
Definition getLevelName (lvl : Z) : pystr :=
  (if lvl =? 50 then py "CRITICAL"
   else if lvl =? 40 then py "ERROR"
   else if lvl =? 30 then py "WARNING"
   else if lvl =? 20 then py "INFO"
   else if lvl =? 10 then py "DEBUG"
   else if lvl =? 0 then py "NOTSET"
   else py "Level " ++ str_of_Z lvl)%Z.

(** What the interpreter supplies when a record is built: the base name of
    the file of the calling frame, the name of the current thread, the
    clock, and [sys.exc_info()]. *)
Record Caller := mkCaller {
  caller_filename : pystr;
  caller_threadName : pystr;
  caller_time : datetime;
  sys_exc_info : ExcInfo
}.

(** The keyword argument [exc_info] of a logging call: left out (or
    false), an exception object [err], or [True]. *)
Inductive ExcArg :=
| exc_absent
| exc_instance (etype : ExcType) (err : ExcValue) (etb : option Traceback)
| exc_True.

(** What [Logger._log] makes of the argument: the triple of the exception
    object, or [sys.exc_info()]. *)
Definition exc_info_of (caller : Caller) (exc : ExcArg) : option ExcInfo :=
  match exc with
  | exc_absent => None
  | exc_instance etype err etb => Some (Some etype, Some err, etb)
  | exc_True => Some (sys_exc_info caller)
  end.

(** The five logging methods the program calls, and their levels. *)
Inductive Method := debug | info | warning | error | critical.

Definition method_level (m : Method) : Z :=
  match m with
  | debug => 10
  | info => 20
  | warning => 30
  | error => 40
  | critical => 50
  end.

(** [sys.stderr], the text stream of that name, and a console handler seen
    as the stream handler that writes to it.  What is written to a stream
    is kept under the name of the stream, for the console as for a file. *)
Definition sys_stderr : Stream := mkStream (py "<stderr>").

Definition console_base (c : StreamHandler) : FileHandler :=
  {| id := console_id c; level := console_level c;
     formatter := console_formatter c; baseFilename := st_name sys_stderr;
     mode := mode_a; encoding := py "utf-8"; stream := Some sys_stderr;
     _closed := false |}.

(** [StreamHandler.emit(record)] of a console handler. *)
Definition Console_emit (env : Env) (record : LogRecord)
  : M (StreamHandler * World) unit :=
  StreamHandler_emit console_base env record.

(** [logging.lastResort]: the handler of a logger that has none, at level
    [WARNING]. *)
Definition lastResort : StreamHandler := mkStreamHandler 0 30 None.

Section LoggerMethods.
(** The class of the handlers of the logger, with [hdlr.level] and
    [hdlr.emit(record)]. *)
Variable Hd : Type.
Variable level_of : Hd -> Z.
Variable emit_of : Env -> LogRecord -> M (Hd * World) unit.
Variable env : Env.

(** [Logger.getEffectiveLevel()]: without a parent the level is the
    logger's own, also when that is [NOTSET]. *)
Definition getEffectiveLevel (lg : Logger Hd) : Z := logger_level lg.

(** [Logger.isEnabledFor(level)].  The answer is what the method caches:
    the program sets the level once, in the factory, before the first
    call. *)
Definition isEnabledFor (lg : Logger Hd) (lvl : Z) : bool :=
  if (lvl <=? 0)%Z then false else (getEffectiveLevel lg <=? lvl)%Z.

(** [Logger.makeRecord]: the message is a string and there are no
    arguments to merge into it. *)
Definition makeRecord (lg : Logger Hd) (lvl : Z) (caller : Caller)
                      (msg : pystr) (exc : option ExcInfo) : LogRecord :=
  {| name := logger_name lg; levelno := lvl; levelname := getLevelName lvl;
     filename := caller_filename caller; threadName := caller_threadName caller;
     created := caller_time caller; getMessage := Ok msg; exc_info := exc |}.

(** The loop of [Logger.callHandlers] over the handlers of the logger;
    [Handler.handle] calls [emit], no filter being installed.  [done] are
    the handlers passed already, in the state the call left them in. *)
Fixpoint callHandlers_loop (record : LogRecord) (done todo : list Hd) (w : World)
  : result unit * (list Hd * World) :=
  match todo with
  | [] => (Ok tt, (done, w))
  | hdlr :: rest =>
      if (level_of hdlr <=? levelno record)%Z then
        match emit_of env record (hdlr, w) with
        | (Ok _, (hdlr', w')) => callHandlers_loop record (done ++ [hdlr']) rest w'
        | (Raise e, (hdlr', w')) => (Raise e, (done ++ hdlr' :: rest, w'))
        end
      else callHandlers_loop record (done ++ [hdlr]) rest w
  end.

(** [Logger.callHandlers(record)] *)
Definition callHandlers (record : LogRecord) : M (Logger Hd * World) unit :=
  fun s =>
    let lg := fst s in
    match handlers lg with
    | [] =>
        if (console_level lastResort <=? levelno record)%Z then
          let '(r, (_, w')) := Console_emit env record (lastResort, snd s) in
          (r, (lg, w'))
        else (Ok tt, s)
    | hs =>
        let '(r, (hs', w')) := callHandlers_loop record [] hs (snd s) in
        (r, (mkLogger (logger_id lg) (logger_name lg) (logger_level lg) hs', w'))
    end.

(** [Logger._log(level, msg, args, exc_info=exc_info)] *)
Definition _log (lvl : Z) (caller : Caller) (msg : pystr) (exc : ExcArg)
  : M (Logger Hd * World) unit :=
  fun s =>
    callHandlers (makeRecord (fst s) lvl caller msg (exc_info_of caller exc)) s.

(** [logger.debug(msg, exc_info=exc)] and the other four. *)
Definition log (m : Method) (caller : Caller) (msg : pystr) (exc : ExcArg)
  : M (Logger Hd * World) unit :=
  fun s =>
    if isEnabledFor (fst s) (method_level m)
    then _log (method_level m) caller msg exc s
    else (Ok tt, s).
End LoggerMethods.

End logging_calls.

(** [hdlr.emit(record)] for the handlers of the two loggers. *)
Definition json_handler_emit {RT : PyRuntime} (env : Env)
                             (record : logging.LogRecord)
  : M (json_logger.Handler * World) unit :=
  fun s =>
    match fst s with
    | json_logger.File f =>
        let '(r, (f', w')) := json_logger.emit env record (f, snd s) in
        (r, (json_logger.File f', w'))
    | json_logger.Console c =>
        let '(r, (c', w')) := logging_calls.Console_emit env record (c, snd s) in
        (r, (json_logger.Console c', w'))
    end.

Definition text_handler_emit (env : Env) (record : logging.LogRecord)
  : M (app_logger.Handler * World) unit :=
  fun s =>
    match fst s with
    | app_logger.File f =>
        let '(r, (f', w')) := app_logger.emit env record (f, snd s) in
        (r, (app_logger.File f', w'))
    | app_logger.Console c =>
        let '(r, (c', w')) := logging_calls.Console_emit env record (c, snd s) in
        (r, (app_logger.Console c', w'))
    end.

(** A logging call on a [JsonAppLogger] and on an [AppLogger]. *)
Definition json_log {RT : PyRuntime} (env : Env)
  := logging_calls.log json_logger.handler_level json_handler_emit env.

Definition text_log (env : Env)
  := logging_calls.log app_logger.handler_level text_handler_emit env.

(* ================================================================== *)
(** * Vocabulary of the properties                                      *)
(* ================================================================== *)

(** The second step of [_serialize_record]: the JSON line of an entry. *)
Definition serialize {RT : PyRuntime} (payload : json_logger.JsonLogEntry)
  : pystr :=
  json_dumps (json_logger.asdict payload).

(** What the reader does with one line: [from_dict(json_loads(line))]. *)
Definition deserialize {RT : PyRuntime} (line : pystr)
  : result json_reader.JsonLogRecord :=
  (raw <- json_loads line ;; json_reader.from_dict raw)%result.

(** Field-for-field equality of a written entry and a read record. *)
Definition same_fields (e : json_logger.JsonLogEntry)
                       (r : json_reader.JsonLogRecord) : Prop :=
  json_reader.time r = json_logger.time e
  /\ json_reader.logger r = json_logger.logger e
  /\ json_reader.level r = json_logger.level e
  /\ json_reader.file r = json_logger.file e
  /\ json_reader.thread r = json_logger.thread e
  /\ json_reader.message r = json_logger.message e
  /\ json_reader.exc_type r = json_logger.exc_type e
  /\ json_reader.exc_message r = json_logger.exc_message e
  /\ json_reader.exc_traceback r = json_logger.exc_traceback e.

(** A value of a flat record: a string or [None]. *)
Definition str_or_None (v : pyval) : Prop :=
  v = PNone \/ exists s, v = PStr s.

(** The nine keys of a record line, and the fields they are read into. *)
Definition string_fields : list (pystr * (json_reader.JsonLogRecord -> pystr)) :=
  [ (py "time", json_reader.time); (py "logger", json_reader.logger);
    (py "level", json_reader.level); (py "file", json_reader.file);
    (py "thread", json_reader.thread); (py "message", json_reader.message) ].

Definition exception_fields
  : list (pystr * (json_reader.JsonLogRecord -> option pystr)) :=
  [ (py "exc_type", json_reader.exc_type);
    (py "exc_message", json_reader.exc_message);
    (py "exc_traceback", json_reader.exc_traceback) ].

Definition field_names : list pystr :=
  List.map fst string_fields ++ List.map fst exception_fields.

(** The string form of a value that is there and is not [None]. *)
Definition str_unless_None {RT : PyRuntime} (o : option pyval)
  : result (option pystr) :=
  match o with
  | None | Some PNone => Ok None
  | Some v => (s <- py_str v ;; Ok (Some s))%result
  end.

(** An [int] of at most [max_str_digits] decimal digits. *)
Definition within_digits (z : Z) : bool :=
  (Z.abs z <? 10 ^ Z.of_N max_str_digits)%Z.

(** The values whose every [int] has at most [max_str_digits] digits. *)
Fixpoint printable (v : pyval) : bool :=
  match v with
  | PInt z => within_digits z
  | PList xs => forallb printable xs
  | PDict items => forallb (fun kv => printable (snd kv)) items
  | _ => true
  end.



(** The lines of a file that are not blank, in file order. *)
Definition is_blank (line : pystr) : bool :=
  match strip line with
  | [] => true
  | _ :: _ => false
  end.

Definition nonblank_lines (content : pystr) : list pystr :=
  filter (fun line => negb (is_blank line)) (readlines content).

(** ** Sample data                                                       *)

(** A runtime for the samples, which hold no float and no string inside a
    list: it prints a float as its literal and a string between single
    quotes, and lets the decoder nest 991 containers. *)
Definition sample_runtime : PyRuntime :=
  {| float_repr := fun literal => literal;
     float_json := fun literal => literal;
     str_repr := fun s => 39%N :: s ++ [39%N];
     json_nesting := 990 |}.

Definition sample_time : datetime :=
  {| year := 2025; month := 3; day := 9; hour := 23; minute := 59; second := 58 |}.

(** A record logged with [logger.info("started")]. *)
Definition sample_record : logging.LogRecord :=
  {| logging.name := "app"; logging.levelno := logging.INFO;
     logging.levelname := "INFO"; logging.filename := "main.py";
     logging.threadName := "MainThread"; logging.created := sample_time;
     logging.getMessage := Ok (py "started"); logging.exc_info := None |}.

(** A record logged with [logger.error("failed", exc_info=err)] for
    [err = NegativeNumberError(-42)]. *)
Definition sample_exception : logging.ExcValue :=
  {| logging.ev_str := Ok (py "negative number: -42");
     logging.ev_format :=
       Ok [ py "Traceback (most recent call last):" ++ [10%N];
            py "  File main.py, line 7, in main" ++ [10%N];
            py "NegativeNumberError: negative number: -42" ++ [10%N] ] |}.

Definition sample_error_record : logging.LogRecord :=
  {| logging.name := "app"; logging.levelno := logging.ERROR;
     logging.levelname := "ERROR"; logging.filename := "main.py";
     logging.threadName := "MainThread"; logging.created := sample_time;
     logging.getMessage := Ok (py "failed");
     logging.exc_info :=
       Some (Some (logging.mkExcType "NegativeNumberError"),
             Some sample_exception,
             Some [py "  File main.py, line 7, in main" ++ [10%N]]) |}.

(** A record logged with [logger.error("message 2", exc_info=True)] while
    no exception is being handled, as the repository's
    [test_json_log_reader_reads_records] does: [sys.exc_info()] is then
    [(None, None, None)]. *)
Definition record_exc_info_True : logging.LogRecord :=
  {| logging.name := "app.tests.scenarios"; logging.levelno := logging.ERROR;
     logging.levelname := "ERROR"; logging.filename := "test_json_logs.py";
     logging.threadName := "MainThread"; logging.created := sample_time;
     logging.getMessage := Ok (py "message 2");
     logging.exc_info := Some (None, None, None) |}.

(** Log files: one whose first line is not JSON, one whose third line is
    the same text, one with blank lines among its records, and one whose
    first line is JSON but no object. *)
Definition good_line_1 : pystr :=
  py "{" ++ 34%N :: py "time" ++ 34%N :: py ": " ++ 34%N :: py "t1" ++ 34%N
  :: py ", " ++ 34%N :: py "message" ++ 34%N :: py ": " ++ 34%N :: py "one"
  ++ 34%N :: py "}".

Definition good_line_2 : pystr :=
  py "{" ++ 34%N :: py "time" ++ 34%N :: py ": " ++ 34%N :: py "t2" ++ 34%N
  :: py ", " ++ 34%N :: py "exc_type" ++ 34%N :: py ": null}".

Definition bad_line : pystr := py "{not json}".

(** A line whose values are no strings. *)
Definition typed_line : pystr :=
  py "{" ++ 34%N :: py "time" ++ 34%N :: py ": 12, " ++ 34%N :: py "message"
  ++ 34%N :: py ": [1, null], " ++ 34%N :: py "exc_type" ++ 34%N
  :: py ": false}".

Definition path_a : Path := "logs/a/09_03_25_logs.ndjson".
Definition path_b : Path := "logs/b/10_03_25_logs.ndjson".
Definition path_c : Path := "logs/c/11_03_25_logs.ndjson".
Definition path_d : Path := "logs/d/12_03_25_logs.ndjson".

Definition sample_files : Files :=
  [ (path_a, bad_line ++ [10%N] ++ good_line_1 ++ [10%N]);
    (path_b, good_line_1 ++ [10%N] ++ good_line_2 ++ [10%N] ++ bad_line ++ [10%N]);
    (path_c, [10%N] ++ good_line_1 ++ [10%N; 32%N; 9%N; 10%N; 13%N; 10%N]
             ++ good_line_2 ++ [10%N; 10%N]);
    (path_d, py "42" ++ [10%N] ++ bad_line ++ [10%N]) ].

(** An environment in which no system call fails. *)
Definition calm (t : datetime) : Env :=
  {| now := t; mkdir_error := None; open_error := None; close_error := None;
     write_error := None; flush_error := None |}.

Definition no_io_failure (env : Env) : Prop :=
  open_error env = None /\ close_error env = None
  /\ write_error env = None /\ flush_error env = None.




(** The open stream and the file name of the base class agree with the
    last-opened path, once there is one. *)
Definition json_handler_consistent
           (h : json_logger.DailyJsonRotatingFileHandler) : Prop :=
  forall p,
    json_logger._current_file h = Some p ->
    logging_handlers.baseFilename (json_logger.base h) = p
    /\ forall st, logging_handlers.stream (json_logger.base h) = Some st ->
                  st_name st = p.

Definition text_handler_consistent
           (h : app_logger.DailyRotatingFileHandler) : Prop :=
  forall p,
    app_logger._current_file h = Some p ->
    logging_handlers.baseFilename (app_logger.base h) = p
    /\ forall st, logging_handlers.stream (app_logger.base h) = Some st ->
                  st_name st = p.

(** The events of closing the stream that is open, if one is. *)
Definition closing (st : option Stream) : list Event :=
  match st with
  | Some s => [Closed (st_name s)]
  | None => []
  end.

(** The level a level name stands for, in the words of the factories'
    documentation: the five names, and [INFO] for every other string. *)
Definition level_of_name (level : pystr) : Z :=
  if str_eqb level "DEBUG" then 10
  else if str_eqb level "FATAL" then 50
  else if str_eqb level "ERROR" then 40
  else if str_eqb level "WARN" then 30
  else if str_eqb level "INFO" then 20
  else 20.

Definition empty_world : World :=
  {| files := []; dirs := []; events := []; stderr := []; next_id := 0 |}.

(** Two instants on either side of midnight. *)
Definition before_midnight : datetime :=
  {| year := 2025; month := 3; day := 9; hour := 23; minute := 59; second := 59 |}.

Definition after_midnight : datetime :=
  {| year := 2025; month := 3; day := 10; hour := 0; minute := 0; second := 1 |}.




Definition level_names : list pystr :=
  [py "DEBUG"; py "FATAL"; py "ERROR"; py "WARN"; py "INFO"].

(** The states a handler of the factories goes through: it is created in
    append mode, its level and formatter are set, and it emits records,
    whatever fails meanwhile. *)
Inductive json_reachable {RT : PyRuntime}
  : json_logger.DailyJsonRotatingFileHandler -> Prop :=
| json_created env dir enc w h s' :
    json_logger.__init__ env dir enc mode_a (tt, w) = (Ok h, s') ->
    json_reachable h
| json_level_set h lvl :
    json_reachable h ->
    json_reachable
      (json_logger.with_base h (logging_handlers.setLevel (json_logger.base h) lvl))
| json_emitted env record h w r h' w' :
    json_reachable h ->
    json_logger.emit env record (h, w) = (r, (h', w')) ->
    json_reachable h'.

Inductive text_reachable : app_logger.DailyRotatingFileHandler -> Prop :=
| text_created env dir enc w h s' :
    app_logger.__init__ env dir enc mode_a (tt, w) = (Ok h, s') ->
    text_reachable h
| text_level_set h lvl :
    text_reachable h ->
    text_reachable
      (app_logger.with_base h (logging_handlers.setLevel (app_logger.base h) lvl))
| text_formatter_set h f :
    text_reachable h ->
    text_reachable
      (app_logger.with_base h (logging_handlers.setFormatter (app_logger.base h) f))
| text_emitted env record h w r h' w' :
    text_reachable h ->
    app_logger.emit env record (h, w) = (r, (h', w')) ->
    text_reachable h'.

(** The states a handler goes through while every write and every flush
    of its stream succeeds: the stream then holds no text that is still to
    be written to its file. *)
Inductive json_flushed {RT : PyRuntime}
  : json_logger.DailyJsonRotatingFileHandler -> Prop :=
| json_flushed_created env dir enc w h s' :
    json_logger.__init__ env dir enc mode_a (tt, w) = (Ok h, s') ->
    json_flushed h
| json_flushed_level_set h lvl :
    json_flushed h ->
    json_flushed
      (json_logger.with_base h (logging_handlers.setLevel (json_logger.base h) lvl))
| json_flushed_emitted env record h w r h' w' :
    json_flushed h ->
    write_error env = None ->
    flush_error env = None ->
    json_logger.emit env record (h, w) = (r, (h', w')) ->
    json_flushed h'.

Inductive text_flushed : app_logger.DailyRotatingFileHandler -> Prop :=
| text_flushed_created env dir enc w h s' :
    app_logger.__init__ env dir enc mode_a (tt, w) = (Ok h, s') ->
    text_flushed h
| text_flushed_level_set h lvl :
    text_flushed h ->
    text_flushed
      (app_logger.with_base h (logging_handlers.setLevel (app_logger.base h) lvl))
| text_flushed_formatter_set h f :
    text_flushed h ->
    text_flushed
      (app_logger.with_base h (logging_handlers.setFormatter (app_logger.base h) f))
| text_flushed_emitted env record h w r h' w' :
    text_flushed h ->
    write_error env = None ->
    flush_error env = None ->
    app_logger.emit env record (h, w) = (r, (h', w')) ->
    text_flushed h'.

(** The handlers as [__init__] leaves them when they are created before
    midnight in an empty world. *)
Definition new_json_handler : json_logger.DailyJsonRotatingFileHandler :=
  {| json_logger.base :=
       {| logging_handlers.id := 0; logging_handlers.level := 0;
          logging_handlers.formatter := None;
          logging_handlers.baseFilename := py "logs/app/09_03_25_logs.ndjson";
          logging_handlers.mode := mode_a;
          logging_handlers.encoding := py "utf-8";
          logging_handlers.stream :=
            Some (mkStream (py "logs/app/09_03_25_logs.ndjson"));
          logging_handlers._closed := false |};
     json_logger.log_dir := py "logs/app";
     json_logger._current_file := None |}.

Definition new_text_handler : app_logger.DailyRotatingFileHandler :=
  {| app_logger.base :=
       {| logging_handlers.id := 0; logging_handlers.level := 0;
          logging_handlers.formatter := None;
          logging_handlers.baseFilename := py "logs/app/09_03_25_logs.log";
          logging_handlers.mode := mode_a;
          logging_handlers.encoding := py "utf-8";
          logging_handlers.stream :=
            Some (mkStream (py "logs/app/09_03_25_logs.log"));
          logging_handlers._closed := false |};
     app_logger.log_dir := py "logs/app";
     app_logger._current_date := None;
     app_logger._current_file := None |}.

(** ** Log files as texts                                                *)

(** The characters that end a line of a text file. *)
Definition is_line_break (c : char) : bool := ((c =? 10) || (c =? 13))%N.

Definition no_line_break (s : pystr) : Prop :=
  Forall (fun c => is_line_break c = false) s.

(** The text of a log file that holds the lines of the entries, each
    followed by a newline, as [emit] writes them. *)
Definition ndjson {RT : PyRuntime} (entries : list json_logger.JsonLogEntry)
  : pystr :=
  concat (List.map (fun e => serialize e ++ [10%N]) entries).

(** The record with the fields of an entry. *)
Definition record_of_entry (e : json_logger.JsonLogEntry)
  : json_reader.JsonLogRecord :=
  {| json_reader.time := json_logger.time e;
     json_reader.logger := json_logger.logger e;
     json_reader.level := json_logger.level e;
     json_reader.file := json_logger.file e;
     json_reader.thread := json_logger.thread e;
     json_reader.message := json_logger.message e;
     json_reader.exc_type := json_logger.exc_type e;
     json_reader.exc_message := json_logger.exc_message e;
     json_reader.exc_traceback := json_logger.exc_traceback e |}.

(** The entry of a record that carries no exception. *)
Definition plain_entry (record : logging.LogRecord) (message : pystr)
  : json_logger.JsonLogEntry :=
  {| json_logger.time := logging.formatTime record;
     json_logger.logger := logging.name record;
     json_logger.level := logging.levelname record;
     json_logger.file := logging.filename record;
     json_logger.thread := logging.threadName record;
     json_logger.message := message;
     json_logger.exc_type := None;
     json_logger.exc_message := None;
     json_logger.exc_traceback := None |}.

(** The line of the text log for a record without exception:
    [[time] [file] [thread] [level] - message]. *)
Definition text_line (record : logging.LogRecord) (message : pystr) : pystr :=
  py "[" ++ logging.formatTime record ++ py "] [" ++ logging.filename record
  ++ py "] [" ++ logging.threadName record ++ py "] [" ++ logging.levelname record
  ++ py "] - " ++ message.

(** [isinstance(v, dict)] *)
Definition is_dict (v : pyval) : bool :=
  match v with
  | PDict _ => true
  | _ => false
  end.

(** What one [emit] may do to the files when every write goes to [cand]:
    it appends to [cand] and leaves the content of the others. *)
Definition appended_only_to (cand : Path) (before after : Files) : Prop :=
  forall p, exists suffix,
    dict_get after p [] = dict_get before p [] ++ suffix
    /\ (p <> cand -> suffix = []).

(** ** Dates and file names                                              *)

(** A date of the calendar. *)
Definition calendar_date (t : datetime) : Prop :=
  (1 <= day t <= 31 /\ 1 <= month t <= 12)%N.

(** Two instants of the same day and month, in years that end in the same
    two digits. *)
Definition same_date_key (t1 t2 : datetime) : Prop :=
  day t1 = day t2 /\ month t1 = month t2
  /\ (year t1 mod 100 = year t2 mod 100)%N.

(** [a < b] on [str]: the order of the code points, a proper prefix
    first. *)
Fixpoint str_ltb (a b : pystr) : bool :=
  match a, b with
  | _, [] => false
  | [], _ :: _ => true
  | x :: a', y :: b' =>
      if (x <? y)%N then true
      else if (y <? x)%N then false
      else str_ltb a' b'
  end.

(** The order of two dates by the day, then the month, then the two digits
    of the year. *)
Definition date_key_lt (t1 t2 : datetime) : Prop :=
  (day t1 < day t2
   \/ (day t1 = day t2
       /\ (month t1 < month t2
           \/ (month t1 = month t2 /\ year t1 mod 100 < year t2 mod 100))))%N.

(** ** The factories and the calls                                       *)

(** [path.is_dir()] *)
Definition is_dir (w : World) (path : Path) : bool :=
  existsb (path_eqb path) (dirs w).

(** A logger name that is one component of a path. *)
Definition path_component (name : pystr) : Prop :=
  name <> [] /\ ~ In 47%N name /\ name <> py "." /\ name <> py "..".

(** A factory has no error handling of its own: what [mkdir] and [open]
    raise, it raises, and a regular file in the place of a directory is a
    [FileExistsError]; no file is changed. *)
Definition raises_what_mkdir_and_open_raise
           (A : Type) (factory : M (unit * World) A)
           (env : Env) (name : pystr) (w : World) : Prop :=
  (forall e, mkdir_error env = Some e ->
     exists w',
       factory (tt, w) = (Raise e, (tt, w'))
       /\ files w' = files w /\ events w' = events w /\ stderr w' = stderr w)
  /\ (forall c, mkdir_error env = None ->
        dict_lookup (files w) (py "logs") = Some c ->
        factory (tt, w) = (Raise (FileExistsError (py "logs")), (tt, w)))
  /\ (forall c, mkdir_error env = None ->
        dict_lookup (files w) (py "logs") = None ->
        dict_lookup (files w) (joinpath (py "logs") name) = Some c ->
        exists w',
          factory (tt, w)
          = (Raise (FileExistsError (joinpath (py "logs") name)), (tt, w'))
          /\ files w' = files w /\ events w' = events w /\ stderr w' = stderr w)
  /\ (forall e, mkdir_error env = None ->
        dict_lookup (files w) (py "logs") = None ->
        dict_lookup (files w) (joinpath (py "logs") name) = None ->
        open_error env = Some e ->
        exists w',
          factory (tt, w) = (Raise e, (tt, w'))
          /\ files w' = files w /\ events w' = events w /\ stderr w' = stderr w).

(** The record a logging call builds. *)
Definition record_of_call (Hd : Type) (lg : logging_handlers.Logger Hd)
           (m : logging_calls.Method) (caller : logging_calls.Caller)
           (msg : pystr) (exc : logging_calls.ExcArg) : logging.LogRecord :=
  logging_calls.makeRecord lg (logging_calls.method_level m) caller msg
                           (logging_calls.exc_info_of caller exc).

(** ** More sample data                                                  *)

(** The entries of [sample_record] and of [sample_error_record]. *)
Definition sample_entry : json_logger.JsonLogEntry :=
  plain_entry sample_record (py "started").

Definition sample_error_entry : json_logger.JsonLogEntry :=
  {| json_logger.time := py "2025-03-09 23:59:58";
     json_logger.logger := py "app";
     json_logger.level := py "ERROR";
     json_logger.file := py "main.py";
     json_logger.thread := py "MainThread";
     json_logger.message := py "failed";
     json_logger.exc_type := Some (py "NegativeNumberError");
     json_logger.exc_message := Some (py "negative number: -42");
     json_logger.exc_traceback :=
       Some (py "Traceback (most recent call last):" ++ [10%N]
             ++ py "  File main.py, line 7, in main" ++ [10%N]
             ++ py "NegativeNumberError: negative number: -42" ++ [10%N]) |}.


(** The same day a century later, and two days of which the later one
    has the smaller day of the month. *)
Definition a_century_later : datetime :=
  {| year := 2125; month := 3; day := 9; hour := 0; minute := 0; second := 1 |}.

Definition the_31st_of_January : datetime :=
  {| year := 2025; month := 1; day := 31; hour := 12; minute := 0; second := 0 |}.

Definition the_1st_of_February : datetime :=
  {| year := 2025; month := 2; day := 1; hour := 12; minute := 0; second := 0 |}.


Definition open_refused (t : datetime) : Env :=
  {| now := t; mkdir_error := None;
     open_error := Some (OSError "Permission denied"); close_error := None;
     write_error := None; flush_error := None |}.

(** A call from [main.py], and loggers as the factories make them for the
    name [app] at level [DEBUG]. *)
Definition sample_caller : logging_calls.Caller :=
  {| logging_calls.caller_filename := py "main.py";
     logging_calls.caller_threadName := py "MainThread";
     logging_calls.caller_time := sample_time;
     logging_calls.sys_exc_info := (None, None, None) |}.

Definition sample_console : logging_handlers.StreamHandler :=
  logging_handlers.mkStreamHandler 2 10 (Some logging_handlers.log_format).


Definition sample_json_logger_with_console : json_logger.JsonAppLogger :=
  logging_handlers.mkLogger 7 (py "app") 10
    [json_logger.File new_json_handler; json_logger.Console sample_console].

Definition sample_text_logger : app_logger.AppLogger :=
  logging_handlers.mkLogger 7 (py "app") 10
    [app_logger.File
       (app_logger.with_base new_text_handler
          (logging_handlers.setFormatter (app_logger.base new_text_handler)
                                         logging_handlers.log_format))].

(** ** Auxiliary definitions of the proofs                               *)

(** The text of a dictionary after a value: the items left, then the
    closing brace and what follows. *)
Fixpoint items_tail {RT : PyRuntime} (items : list (pystr * pyval))
                    (tl : pystr) : pystr :=
  match items with
  | [] => 125%N :: tl
  | (k, v) :: rest =>
      44%N :: 32%N :: encode_basestring k ++ 58%N :: 32%N :: json_encode v
      ++ items_tail rest tl
  end.

(** The text of one item of a dictionary. *)
Definition encode_item {RT : PyRuntime} (kv : pystr * pyval) : pystr :=
  encode_basestring (fst kv) ++ py ": " ++ json_encode (snd kv).

(** Case analysis on an innermost scrutinee of a hypothesis. *)
Ltac split_atom H :=
  match type of H with
  | context [match ?x with _ => _ end] =>
      lazymatch x with
      | context [match _ with _ => _ end] => fail
      | _ => destruct x eqn:?; cbv beta iota in H; try discriminate
      end
  end.

(** Unfolding of the monadic operations. *)
Ltac run_monad :=
  unfold try_except_Exception, try_except_reraising_RecursionError,
    logging_handlers._open, logging_handlers.flush,
    logging_handlers.get, logging_handlers.set,
    open_, stream_close, stream_write, stream_flush, handleError,
    on_world, system_call, bindM, gets, modify, ret, raise, lift in *.

Ltac unfold_monad_in H :=
  cbv [try_except_Exception try_except_reraising_RecursionError
       logging_handlers._open logging_handlers.flush
       logging_handlers.get logging_handlers.set
       logging_handlers.FileHandler_emit logging_handlers.StreamHandler_emit
       logging_handlers.Logger_init logging_handlers.StreamHandler_init
       open_ stream_close stream_write stream_flush handleError mkdir_exist_ok
       new_id on_world system_call bindM gets modify ret raise lift fst snd] in H.

Ltac exists_pre pre := eexists _, _, pre.



(* ================================================================== *)
(** * Strings                                                           *)
(* ================================================================== *)

Lemma str_eqb_refl (a : pystr) : str_eqb a a = true.
Proof. induction a as [|x a IH]; simpl; [reflexivity|]. now rewrite N.eqb_refl, IH. Qed.

Lemma str_eqb_eq (a b : pystr) : str_eqb a b = true <-> a = b.
Proof.
  split.
  - revert b. induction a as [|x a IH]; destruct b as [|y b]; simpl; try discriminate; auto.
    intros H. apply andb_true_iff in H. destruct H as [H1 H2].
    apply N.eqb_eq in H1. apply IH in H2. now subst.
  - intros <-. apply str_eqb_refl.
Qed.

Lemma str_eqb_neq (a b : pystr) : str_eqb a b = false <-> a <> b.
Proof.
  split.
  - intros H E. apply str_eqb_eq in E. congruence.
  - intros H. destruct (str_eqb a b) eqn:E; [|reflexivity]. apply str_eqb_eq in E. contradiction.
Qed.

(** The control characters, by enumeration. *)
Lemma control_char_cases (c : N) :
  (c < 32)%N -> In c (List.map N.of_nat (seq 0 32)).
Proof.
  intros H. apply in_map_iff. exists (N.to_nat c). split; [lia|].
  apply in_seq. lia.
Qed.

(* ================================================================== *)
(** * The round trip of the JSON codec on flat records                  *)
(* ================================================================== *)

(** Decoding undoes the escape of one character. *)
Lemma scanstring_escape_char (c x : char) (t : pystr) (pos begin : nat) (acc : pystr) :
  scanstring (escape_char c ++ x :: t) pos begin acc
  = scanstring (x :: t) (length (escape_char c) + pos) begin (c :: acc).
Proof.
  destruct (N.ltb_spec c 32) as [Hlt|Hge].
  - apply control_char_cases in Hlt. cbv [List.map seq N.of_nat] in Hlt.
    simpl in Hlt.
    repeat (destruct Hlt as [<-|Hlt]; [reflexivity|]). contradiction.
  - unfold escape_char.
    destruct (N.eqb_spec c 34) as [->|H34]; [reflexivity|].
    destruct (N.eqb_spec c 92) as [->|H92]; [reflexivity|].
    repeat match goal with
           | |- context [(c =? ?k)%N] =>
               destruct (N.eqb_spec c k); [lia|]
           end.
    destruct (N.ltb_spec c 32); [lia|].
    cbn [app length Nat.add]. 
    simpl scanstring at 1.
    apply N.eqb_neq in H34, H92. rewrite H34, H92.
    destruct (N.ltb_spec c 32); [lia|]. reflexivity.
Qed.

Lemma scanstring_escape_body (s rest : pystr) :
  forall (pos begin : nat) (acc : pystr),
    exists p, scanstring (escape_body s ++ 34%N :: rest) pos begin acc
              = Scanned (rev acc ++ s) rest p.
Proof.
  induction s as [|c s IH]; intros pos begin acc.
  - exists (S pos). simpl. now rewrite app_nil_r.
  - unfold escape_body in *. simpl flat_map. rewrite <- app_assoc.
    destruct (flat_map escape_char s ++ 34%N :: rest) as [|x t] eqn:E.
    { destruct (flat_map escape_char s); discriminate. }
    rewrite scanstring_escape_char.
    destruct (IH (length (escape_char c) + pos) begin (c :: acc)) as [p Hp].
    exists p. rewrite Hp. simpl. now rewrite <- app_assoc.
Qed.

(** The loop of [JSONObject], one step unfolded. *)
Lemma JSONObject_loop_step (fuel depth : nat) (s : pystr) (pos : nat)
                           (pairs : list (pystr * pyval)) :
  JSONObject_loop (S fuel) depth s pos pairs
  = match scanstring s pos (pos - 1) [] with
    | Failed msg p => Failed msg p
    | Raised e => Raised e
    | OutOfFuel => OutOfFuel
    | Scanned key s1 p1 =>
        let (s2, p2) := skip_ws s1 p1 in
        match s2 with
        | colon :: s3 =>
            if (colon =? 58)%N then
              let (s4, p4) := skip_ws s3 (S p2) in
              match scan_once fuel depth s4 p4 with
              | Failed msg p => Failed msg p
              | Raised e => Raised e
              | OutOfFuel => OutOfFuel
              | Scanned value s5 p5 =>
                  let pairs' := (key, value) :: pairs in
                  let (s6, p6) := skip_ws s5 p5 in
                  match s6 with
                  | nextchar :: s7 =>
                      if (nextchar =? 125)%N then
                        Scanned (PDict (dict_of_pairs (rev pairs'))) s7 (S p6)
                      else if (nextchar =? 44)%N then
                        let (s8, p8) := skip_ws s7 (S p6) in
                        match s8 with
                        | q :: s9 =>
                            if (q =? 34)%N
                            then JSONObject_loop fuel depth s9 (S p8) pairs'
                            else Failed
                              "Expecting property name enclosed in double quotes"
                              p8
                        | [] => Failed
                              "Expecting property name enclosed in double quotes"
                              p8
                        end
                      else Failed "Expecting ',' delimiter" p6
                  | [] => Failed "Expecting ',' delimiter" p6
                  end
              end
            else Failed "Expecting ':' delimiter" p2
        | [] => Failed "Expecting ':' delimiter" p2
        end
    end.
Proof. reflexivity. Qed.

Section Roundtrip.
Context {RT : PyRuntime}.

Lemma join_cons2 (sep x y : pystr) (l : list pystr) :
  join sep (x :: y :: l) = x ++ sep ++ join sep (y :: l).
Proof. reflexivity. Qed.

Lemma join_items_tail (rest : list (pystr * pyval)) (tl : pystr) :
  forall kv,
    join (py ", ") (List.map encode_item (kv :: rest)) ++ 125%N :: tl
    = encode_item kv ++ items_tail rest tl.
Proof.
  induction rest as [|kv' rest IH]; intros kv.
  - reflexivity.
  - change (List.map encode_item (kv :: kv' :: rest))
      with (encode_item kv :: List.map encode_item (kv' :: rest)).
    cbn [List.map]. rewrite join_cons2. rewrite <- !app_assoc.
    cbn [List.map] in IH. rewrite IH.
    destruct kv' as [k' v']. cbn [items_tail]. unfold encode_item at 2.
    cbn [fst snd]. change (py ", ") with [44%N; 32%N].
    change (py ": ") with [58%N; 32%N]. rewrite <- !app_assoc. reflexivity.
Qed.

Lemma json_encode_dict (k : pystr) (v : pyval) (rest : list (pystr * pyval)) (tl : pystr) :
  json_encode (PDict ((k, v) :: rest)) ++ tl
  = 123%N :: encode_basestring k ++ 58%N :: 32%N :: json_encode v ++ items_tail rest tl.
Proof.
  cbn [json_encode]. fold encode_item.
  change (py "{") with [123%N]. change (py "}") with [125%N].
  rewrite <- !app_assoc. cbn [app]. rewrite join_items_tail.
  unfold encode_item. cbn [fst snd]. change (py ": ") with [58%N; 32%N].
  rewrite <- !app_assoc. reflexivity.
Qed.

Lemma scan_once_str_or_None (v : pyval) (fuel depth : nat) (c : char) (tl : pystr)
                            (pos : nat) :
  str_or_None v ->
  exists p, scan_once (S fuel) depth (json_encode v ++ c :: tl) pos
            = Scanned v (c :: tl) p.
Proof.
  intros [->|[s ->]].
  - eexists. reflexivity.
  - cbn [json_encode]. unfold encode_basestring. cbn [app].
    rewrite <- app_assoc. cbn [app].
    destruct (scanstring_escape_body s (c :: tl) (S pos) pos []) as [p Hp].
    exists p. simpl scan_once. rewrite Hp. reflexivity.
Qed.

Lemma json_encode_head (v : pyval) :
  str_or_None v -> exists c t, json_encode v = c :: t /\ is_ws c = false.
Proof.
  intros [->|[s ->]].
  - eexists _, _. split; reflexivity.
  - eexists _, _. split; reflexivity.
Qed.

Lemma items_tail_head (items : list (pystr * pyval)) (tl : pystr) :
  exists c t, items_tail items tl = c :: t /\ is_ws c = false.
Proof.
  destruct items as [|[k v] rest]; eexists _, _; split; reflexivity.
Qed.

Lemma skip_ws_stop (c : char) (t : pystr) (pos : nat) :
  is_ws c = false -> skip_ws (c :: t) pos = (c :: t, pos).
Proof. intros H. simpl. now rewrite H. Qed.

Lemma JSONObject_loop_flat (rest : list (pystr * pyval)) :
  forall (fuel depth : nat) (k : pystr) (v : pyval) (tl : pystr) (pos : nat)
         (pairs : list (pystr * pyval)),
    str_or_None v ->
    Forall (fun kv => str_or_None (snd kv)) rest ->
    length rest + 2 <= fuel ->
    exists p,
      JSONObject_loop fuel depth
        (escape_body k ++ 34%N :: 58%N :: 32%N :: json_encode v ++ items_tail rest tl)
        pos pairs
      = Scanned (PDict (dict_of_pairs (rev pairs ++ (k, v) :: rest))) tl p.
Proof.
  induction rest as [|[k' v'] rest IH]; intros fuel depth k v tl pos pairs Hv Hrest Hfuel.
  - destruct fuel as [|[|fuel]]; [simpl in Hfuel; lia..|].
    rewrite JSONObject_loop_step.
    destruct (scanstring_escape_body k (58%N :: 32%N :: json_encode v ++ items_tail [] tl)
                (pos) (pos - 1) []) as [p1 Hp1].
    rewrite Hp1. cbn [rev app].
    rewrite skip_ws_stop by reflexivity. rewrite N.eqb_refl.
    destruct (json_encode_head Hv) as (c & t & Hc & Hws).
    cbn [skip_ws]. change (is_ws 32) with true. cbv iota.
    cbn [items_tail].
    destruct (scan_once_str_or_None fuel depth 125%N tl (S (S p1)) Hv) as [p2 Hp2].
    rewrite Hc in *. cbn [app] in *. rewrite skip_ws_stop by exact Hws.
    rewrite Hp2. rewrite skip_ws_stop by reflexivity.
    rewrite N.eqb_refl. eexists. cbn [rev]. reflexivity.
  - destruct fuel as [|[|fuel]]; [simpl in Hfuel; lia..|].
    rewrite JSONObject_loop_step.
    destruct (scanstring_escape_body k
                (58%N :: 32%N :: json_encode v ++ items_tail ((k', v') :: rest) tl)
                (pos) (pos - 1) []) as [p1 Hp1].
    rewrite Hp1. cbn [rev app].
    rewrite skip_ws_stop by reflexivity. rewrite N.eqb_refl.
    destruct (json_encode_head Hv) as (c & t & Hc & Hws).
    cbn [skip_ws]. change (is_ws 32) with true. cbv iota.
    cbn [items_tail].
    destruct (scan_once_str_or_None fuel depth 44%N
                (32%N :: encode_basestring k' ++ 58%N :: 32%N :: json_encode v'
                 ++ items_tail rest tl) (S (S p1)) Hv) as [p2 Hp2].
    rewrite Hc in *. cbn [app] in *. rewrite skip_ws_stop by exact Hws.
    rewrite Hp2. rewrite skip_ws_stop by reflexivity.
    change ((44 =? 125)%N) with false. cbv iota. rewrite N.eqb_refl.
    cbn [skip_ws]. change (is_ws 32) with true. cbv iota.
    unfold encode_basestring. cbn [app]. rewrite skip_ws_stop by reflexivity.
    rewrite N.eqb_refl. rewrite <- app_assoc. cbn [app].
    inversion Hrest as [|? ? Hv' Hrest']; subst. cbn [snd] in Hv'.
    destruct (IH (S fuel) depth k' v' tl (S (S (S p2))) ((k, v) :: pairs) Hv' Hrest')
      as [p3 Hp3].
    { simpl in Hfuel |- *. lia. }
    exists p3. rewrite Hp3. cbn [rev]. rewrite <- app_assoc. reflexivity.
Qed.
End Roundtrip.

Section Roundtrip2.
Context {RT : PyRuntime}.

Lemma items_tail_length (items : list (pystr * pyval)) (tl : pystr) :
  length items < length (items_tail items tl).
Proof.
  induction items as [|[k v] rest IH]; cbn [items_tail length].
  - lia.
  - rewrite !length_app. cbn [length]. rewrite !length_app. lia.
Qed.

Lemma json_encode_dict_length (items : list (pystr * pyval)) :
  length items < length (json_encode (PDict items)).
Proof.
  destruct items as [|[k v] rest].
  - simpl. lia.
  - rewrite <- (app_nil_r (json_encode _)). rewrite json_encode_dict.
    cbn [length]. rewrite !length_app. cbn [length]. rewrite !length_app.
    pose proof (items_tail_length rest []). lia.
Qed.

Lemma scan_once_flat_dict (items : list (pystr * pyval)) (fuel depth pos : nat) :
  Forall (fun kv => str_or_None (snd kv)) items ->
  length items + 2 <= fuel ->
  exists p, scan_once fuel (S depth) (json_encode (PDict items)) pos
            = Scanned (PDict (dict_of_pairs items)) [] p.
Proof.
  intros Hitems Hfuel.
  destruct fuel as [|fuel]; [lia|].
  destruct items as [|[k v] rest].
  - eexists. reflexivity.
  - rewrite <- (app_nil_r (json_encode _)). rewrite json_encode_dict.
    unfold encode_basestring. cbn [app]. rewrite <- app_assoc. cbn [app].
    inversion Hitems as [|? ? Hv Hrest]; subst. cbn [snd] in Hv.
    destruct (@JSONObject_loop_flat RT rest fuel depth k v [] (S (S pos)) [] Hv Hrest)
      as [p Hp].
    { simpl in Hfuel. lia. }
    exists p. simpl scan_once. exact Hp.
Qed.

Lemma json_loads_dumps_flat (items : list (pystr * pyval)) :
  Forall (fun kv => str_or_None (snd kv)) items ->
  json_loads (json_dumps (PDict items)) = Ok (PDict (dict_of_pairs items)).
Proof.
  intros Hitems. unfold json_dumps, json_loads.
  pose proof (json_encode_dict_length items) as Hlen.
  destruct (@scan_once_flat_dict items (2 * length (json_encode (PDict items)) + 2)
              json_nesting 0 Hitems)
    as [p Hp]; [lia|].
  remember (2 * length (json_encode (PDict items)) + 2) as fuel.
  assert (Hhead : exists t, json_encode (PDict items) = 123%N :: t).
  { destruct items as [|[k v] rest].
    - eexists. reflexivity.
    - rewrite <- (app_nil_r (json_encode _)). rewrite json_encode_dict. eexists. reflexivity. }
  destruct Hhead as [t Ht]. rewrite Ht in *.
  rewrite skip_ws_stop by reflexivity. rewrite Hp. reflexivity.
Qed.
End Roundtrip2.

Lemma optional_str_ok (o : option pystr) : str_or_None (json_logger.optional_str o).
Proof. destruct o as [s|]; [right; now exists s | now left]. Qed.

(** C2. Round trip: for every entry [e] of the record model, whose six
    mandatory fields are strings and whose three exception fields are
    strings or null, in any combination and so also when all three are null
    and when all three are populated, deserializing the JSON line of [e]
    returns a record, and the record has the same nine fields as [e]. *)
Theorem serialize_deserialize_roundtrip {RT : PyRuntime}
                                        (e : json_logger.JsonLogEntry) :
  exists r, deserialize (serialize e) = Ok r /\ same_fields e r.
Proof.
  unfold deserialize, serialize, json_logger.asdict.
  rewrite json_loads_dumps_flat.
  2:{ repeat (apply Forall_cons; [cbn [snd]; first
             [ apply optional_str_ok | right; eexists; reflexivity ] |]).
      apply Forall_nil. }
  destruct e as [t lg lv f th m [ety|] [emsg|] [etb|]];
    eexists; (split; [reflexivity | repeat split]).
Qed.

(* ================================================================== *)
(** * The decoder consumes its input and never runs out of fuel         *)
(* ================================================================== *)








Lemma strip_prefix_length (prefix s rest : pystr) :
  strip_prefix prefix s = Some rest -> length s = length prefix + length rest.
Proof.
  revert s. induction prefix as [|p prefix IH]; intros s H; simpl in H.
  - inversion H; subst. reflexivity.
  - destruct s as [|c s']; [discriminate|].
    destruct (p =? c)%N; [|discriminate]. apply IH in H. simpl. lia.
Qed.

Lemma keyword_scanned (kw : string) (v : pyval) (s : pystr) (pos : nat)
                      (res : scan pyval) :
  kw <> EmptyString ->
  keyword kw v s pos = Some res ->
  exists rest p, res = Scanned v rest p /\ length rest < length s.
Proof.
  intros Hkw. unfold keyword.
  destruct (strip_prefix kw s) as [rest|] eqn:E; [|discriminate].
  intros H. inversion H; subst. eexists _, _. split; [reflexivity|].
  apply strip_prefix_length in E.
  destruct kw; [contradiction|]. simpl in E. lia.
Qed.


(** One step of [scan_once] and of the loop of [JSONArray]. *)
Lemma scan_once_step (fuel depth : nat) (c : char) (r : pystr) (pos : nat) :
  scan_once (S fuel) depth (c :: r) pos
  = if (c =? 34)%N then
      match scanstring r (S pos) pos [] with
      | Scanned str rest e => Scanned (PStr str) rest e
      | Failed msg p => Failed msg p
      | Raised e => Raised e
      | OutOfFuel => OutOfFuel
      end
    else if (c =? 123)%N then
      match depth with
      | O => Raised RecursionError
      | S depth' =>
          let (s1, p1) := skip_ws r (S pos) in
          match s1 with
          | c1 :: r1 =>
              if (c1 =? 125)%N then Scanned (PDict []) r1 (S p1)
              else if (c1 =? 34)%N then JSONObject_loop fuel depth' r1 (S p1) []
              else Failed "Expecting property name enclosed in double quotes" p1
          | [] => Failed "Expecting property name enclosed in double quotes" p1
          end
      end
    else if (c =? 91)%N then
      match depth with
      | O => Raised RecursionError
      | S depth' =>
          let (s1, p1) := skip_ws r (S pos) in
          match s1 with
          | c1 :: r1 =>
              if (c1 =? 93)%N then Scanned (PList []) r1 (S p1)
              else JSONArray_loop fuel depth' s1 p1 []
          | [] => JSONArray_loop fuel depth' s1 p1 []
          end
      end
    else
      match keyword "null" PNone (c :: r) pos with
      | Some res => res
      | None =>
      match keyword "true" (PBool true) (c :: r) pos with
      | Some res => res
      | None =>
      match keyword "false" (PBool false) (c :: r) pos with
      | Some res => res
      | None =>
      match match_number (c :: r) with
      | Some (integer, [], rest) =>
          match parse_int integer with
          | Ok z => Scanned (PInt z) rest (length integer + pos)
          | Raise e => Raised e
          end
      | Some (integer, frac_exp, rest) =>
          Scanned (PFloat (integer ++ frac_exp)) rest
                  (length (integer ++ frac_exp) + pos)
      | None =>
      match keyword "NaN" (PFloat "NaN") (c :: r) pos with
      | Some res => res
      | None =>
      match keyword "Infinity" (PFloat "Infinity") (c :: r) pos with
      | Some res => res
      | None =>
      match keyword "-Infinity" (PFloat "-Infinity") (c :: r) pos with
      | Some res => res
      | None => Failed "Expecting value" pos
      end end end end end end end.
Proof. reflexivity. Qed.

Lemma JSONArray_loop_step (fuel depth : nat) (s : pystr) (pos : nat)
                          (values : list pyval) :
  JSONArray_loop (S fuel) depth s pos values
  = match scan_once fuel depth s pos with
    | Failed msg p => Failed msg p
    | Raised e => Raised e
    | OutOfFuel => OutOfFuel
    | Scanned value s1 p1 =>
        let values' := value :: values in
        let (s2, p2) := skip_ws s1 p1 in
        match s2 with
        | nextchar :: s3 =>
            if (nextchar =? 93)%N then Scanned (PList (rev values')) s3 (S p2)
            else if (nextchar =? 44)%N then
              let (s4, p4) := skip_ws s3 (S p2) in
              JSONArray_loop fuel depth s4 p4 values'
            else Failed "Expecting ',' delimiter" p2
        | [] => Failed "Expecting ',' delimiter" p2
        end
    end.
Proof. reflexivity. Qed.





(** ** What the decoder raises besides its decode error                  *)








(** ** The integers the decoder builds                                   *)

Lemma span_digits_digits (s : pystr) :
  Forall (fun c => is_digit c = true) (fst (span_digits s)).
Proof.
  induction s as [|c r IH]; simpl; [constructor|].
  destruct (is_digit c) eqn:Ec; simpl; [|constructor].
  destruct (span_digits r); simpl in *. now constructor.
Qed.

(** The integer part of a number is a run of digits, after a minus sign or
    without one. *)
Lemma match_number_digits (s integer frac_exp rest : pystr) :
  match_number s = Some (integer, frac_exp, rest) ->
  exists ds, Forall (fun c => is_digit c = true) ds
             /\ (integer = ds \/ integer = 45%N :: ds).
Proof.
  unfold match_number. intros H.
  set (sign_s1 := match s with
                  | c :: r => if (c =? 45)%N then ([c], r) else ([], s)
                  | [] => ([], s)
                  end) in H.
  assert (Hsign : fst sign_s1 = [] \/ fst sign_s1 = [45%N]).
  { subst sign_s1. destruct s as [|c r]; simpl; [now left|].
    destruct (N.eqb_spec c 45) as [->|]; simpl; [now right | now left]. }
  destruct sign_s1 as [sign s1]. cbn [fst] in Hsign.
  destruct s1 as [|c r]; [discriminate|].
  set (int_part := if (c =? 48)%N then Some ([c], r)
                   else if is_digit c
                        then let (d, r') := span_digits r in Some (c :: d, r')
                        else None) in H.
  assert (Hint : forall ds r1, int_part = Some (ds, r1) ->
                               Forall (fun c => is_digit c = true) ds).
  { subst int_part. intros ds r1 E. destruct (N.eqb_spec c 48) as [->|].
    - inversion E; subst. repeat constructor.
    - destruct (is_digit c) eqn:Ec; [|discriminate].
      pose proof (span_digits_digits r) as Hd.
      destruct (span_digits r) as [d r']. inversion E; subst.
      now constructor. }
  destruct int_part as [[ds r1]|]; [|discriminate].
  specialize (Hint ds r1 eq_refl).
  match type of H with
  | context [let (_, _) := ?X in _] => destruct X as [frac r2]
  end.
  match type of H with
  | context [let (_, _) := ?X in _] => destruct X as [exp r3]
  end.
  inversion H; subst. exists ds. split; [exact Hint|].
  destruct Hsign as [-> | ->]; [now left | now right].
Qed.

Lemma N_of_digits_bound (ds : pystr) :
  Forall (fun c => is_digit c = true) ds ->
  forall acc,
    (fold_left (fun acc c => acc * 10 + (c - 48)) ds acc + 1
     <= (acc + 1) * 10 ^ N.of_nat (length ds))%N.
Proof.
  induction 1 as [|c ds Hc _ IH]; intros acc.
  - cbn [fold_left length N.of_nat]. rewrite N.pow_0_r. lia.
  - cbn [fold_left length]. specialize (IH (acc * 10 + (c - 48))%N).
    rewrite Nat2N.inj_succ, N.pow_succ_r'.
    unfold is_digit in Hc. apply andb_true_iff in Hc. destruct Hc as [H1 H2].
    apply N.leb_le in H1, H2.
    generalize dependent (10 ^ N.of_nat (length ds))%N. intros P IH.
    assert (Hstep : ((acc * 10 + (c - 48) + 1) * P <= (acc + 1) * 10 * P)%N)
      by (apply N.mul_le_mono_r; lia).
    lia.
Qed.

Lemma N_of_digits_within (ds : pystr) (m : N) :
  Forall (fun c => is_digit c = true) ds ->
  (N.of_nat (length ds) <= m)%N ->
  (Z.of_N (N_of_digits ds) < 10 ^ Z.of_N m)%Z.
Proof.
  intros Hd Hlen. pose proof (N_of_digits_bound Hd 0) as Hb.
  fold (N_of_digits ds) in Hb.
  assert (Hpow : (10 ^ N.of_nat (length ds) <= 10 ^ m)%N)
    by (apply N.pow_le_mono_r; [discriminate | exact Hlen]).
  change 10%Z with (Z.of_N 10). rewrite <- N2Z.inj_pow. lia.
Qed.

Lemma parse_int_within (integer : pystr) (z : Z) :
  (exists ds, Forall (fun c => is_digit c = true) ds
              /\ (integer = ds \/ integer = 45%N :: ds)) ->
  parse_int integer = Ok z -> within_digits z = true.
Proof.
  unfold parse_int, within_digits. generalize max_str_digits. intros m.
  intros (ds & Hd & [-> | ->]).
  - destruct ds as [|c t].
    + destruct (m <? N.of_nat (length (@nil char)))%N; [discriminate|].
      intros H. inversion H. apply Z.ltb_lt. cbn [Z.abs]. apply Z.pow_pos_nonneg; lia.
    + assert (Hc : (c =? 45)%N = false).
      { inversion Hd as [|? ? Hc _]; subst. unfold is_digit in Hc.
        apply andb_true_iff in Hc. destruct Hc as [H1 _]. apply N.leb_le in H1.
        apply N.eqb_neq. lia. }
      rewrite Hc.
      destruct (m <? N.of_nat (length (c :: t)))%N eqn:E; [discriminate|].
      apply N.ltb_ge in E. intros H. inversion H. apply Z.ltb_lt.
      pose proof (N_of_digits_within Hd E). lia.
  - rewrite N.eqb_refl.
    destruct (m <? N.of_nat (length ds))%N eqn:E; [discriminate|].
    apply N.ltb_ge in E. intros H. inversion H. apply Z.ltb_lt.
    pose proof (N_of_digits_within Hd E). lia.
Qed.

Lemma forallb_rev_true (A : Type) (f : A -> bool) (l : list A) :
  forallb f l = true -> forallb f (rev l) = true.
Proof.
  rewrite !forallb_forall. intros H x Hx. apply H. now apply in_rev.
Qed.

Lemma printable_setitem (d : list (pystr * pyval)) (k : pystr) (v : pyval) :
  forallb (fun kv => printable (snd kv)) d = true ->
  printable v = true ->
  forallb (fun kv => printable (snd kv)) (dict_setitem d k v) = true.
Proof.
  induction d as [|[k' v'] d IH]; cbn [dict_setitem forallb snd]; intros Hd Hv.
  - now rewrite Hv.
  - apply andb_true_iff in Hd. destruct Hd as [H1 H2].
    destruct (str_eqb k' k); cbn [forallb snd].
    + now rewrite Hv, H2.
    + now rewrite H1, IH.
Qed.

Lemma printable_dict_of_pairs (pairs : list (pystr * pyval)) :
  forallb (fun kv => printable (snd kv)) pairs = true ->
  forallb (fun kv => printable (snd kv)) (dict_of_pairs pairs) = true.
Proof.
  unfold dict_of_pairs.
  assert (G : forall acc,
             forallb (fun kv => printable (snd kv)) acc = true ->
             forallb (fun kv => printable (snd kv)) pairs = true ->
             forallb (fun kv => printable (snd kv))
               (fold_left (fun d kv => dict_setitem d (fst kv) (snd kv)) pairs acc)
             = true).
  { induction pairs as [|[k v] pairs IH]; cbn [fold_left forallb fst snd];
      intros acc Hacc Hp; [exact Hacc|].
    apply andb_true_iff in Hp. destruct Hp as [Hv Hp].
    apply IH; [now apply printable_setitem | exact Hp]. }
  intros H. now apply G.
Qed.

Ltac keyword_case_value H kw :=
  let res := fresh "res" in
  let E := fresh "E" in
  destruct (keyword kw _ _ _) as [res|] eqn:E in H;
  [ apply keyword_scanned in E; [|discriminate];
    destruct E as (? & ? & -> & ?); inversion H; subst; reflexivity
  | ].

(** Every [int] of a value the decoder builds has at most [max_str_digits]
    digits. *)
Lemma scan_printable (fuel : nat) :
  (forall depth s pos v rest p,
      scan_once fuel depth s pos = Scanned v rest p -> printable v = true)
  /\ (forall depth s pos pairs v rest p,
         forallb (fun kv => printable (snd kv)) pairs = true ->
         JSONObject_loop fuel depth s pos pairs = Scanned v rest p ->
         printable v = true)
  /\ (forall depth s pos vals v rest p,
         forallb printable vals = true ->
         JSONArray_loop fuel depth s pos vals = Scanned v rest p ->
         printable v = true).
Proof.
  induction fuel as [|fuel (IHs & IHo & IHa)].
  { repeat split; intros; discriminate. }
  split; [|split].
  - intros depth s pos v rest p H.
    destruct s as [|c r]; [discriminate|].
    rewrite scan_once_step in H.
    destruct (c =? 34)%N.
    { destruct (scanstring r (S pos) pos []) as [str rest' e| | |];
        try discriminate.
      inversion H; subst. reflexivity. }
    destruct (c =? 123)%N.
    { destruct depth as [|depth']; [discriminate|].
      destruct (skip_ws r (S pos)) as [s1 p1].
      destruct s1 as [|c1 r1]; [discriminate|].
      destruct (c1 =? 125)%N; [inversion H; subst; reflexivity|].
      destruct (c1 =? 34)%N; [|discriminate].
      apply IHo in H; [exact H | reflexivity]. }
    destruct (c =? 91)%N.
    { destruct depth as [|depth']; [discriminate|].
      destruct (skip_ws r (S pos)) as [s1 p1].
      destruct s1 as [|c1 r1]; [apply IHa in H; [exact H | reflexivity]|].
      destruct (c1 =? 93)%N; [inversion H; subst; reflexivity|].
      apply IHa in H; [exact H | reflexivity]. }
    keyword_case_value H "null". keyword_case_value H "true".
    keyword_case_value H "false".
    destruct (match_number (c :: r)) as [[[integer frac_exp] rest']|] eqn:Enum.
    { apply match_number_digits in Enum.
      destruct frac_exp; [|inversion H; subst; reflexivity].
      destruct (parse_int integer) as [z|e] eqn:Ez; [|discriminate].
      inversion H; subst. cbn [printable]. eapply parse_int_within; eauto. }
    keyword_case_value H "NaN". keyword_case_value H "Infinity".
    keyword_case_value H "-Infinity". discriminate.
  - intros depth s pos pairs v rest p Hpairs H.
    rewrite JSONObject_loop_step in H.
    destruct (scanstring s pos (pos - 1) []) as [key s1 p1| | |];
      try discriminate.
    destruct (skip_ws s1 p1) as [s2 p2].
    destruct s2 as [|colon s3]; [discriminate|].
    destruct (colon =? 58)%N; [|discriminate].
    destruct (skip_ws s3 (S p2)) as [s4 p4].
    destruct (scan_once fuel depth s4 p4) as [value s5 p5| | |] eqn:Eval;
      try discriminate.
    apply IHs in Eval.
    assert (Hpairs' : forallb (fun kv => printable (snd kv)) ((key, value) :: pairs)
                      = true)
      by (cbn [forallb snd]; now rewrite Eval, Hpairs).
    destruct (skip_ws s5 p5) as [s6 p6].
    destruct s6 as [|nextchar s7]; [discriminate|].
    destruct (nextchar =? 125)%N.
    { inversion H; subst. cbn [printable].
      apply printable_dict_of_pairs.
      change (rev pairs ++ [(key, value)]) with (rev ((key, value) :: pairs)).
      now apply forallb_rev_true. }
    destruct (nextchar =? 44)%N; [|discriminate].
    destruct (skip_ws s7 (S p6)) as [s8 p8].
    destruct s8 as [|q s9]; [discriminate|].
    destruct (q =? 34)%N; [|discriminate].
    apply IHo in H; [exact H | exact Hpairs'].
  - intros depth s pos vals v rest p Hvals H.
    rewrite JSONArray_loop_step in H.
    destruct (scan_once fuel depth s pos) as [value s1 p1| | |] eqn:Eval;
      try discriminate.
    apply IHs in Eval.
    assert (Hvals' : forallb printable (value :: vals) = true)
      by (cbn [forallb]; now rewrite Eval, Hvals).
    destruct (skip_ws s1 p1) as [s2 p2].
    destruct s2 as [|nextchar s3]; [discriminate|].
    destruct (nextchar =? 93)%N.
    { inversion H; subst. cbn [printable].
      change (rev vals ++ [value]) with (rev (value :: vals)).
      now apply forallb_rev_true. }
    destruct (nextchar =? 44)%N; [|discriminate].
    destruct (skip_ws s3 (S p2)) as [s4 p4].
    apply IHa in H; [exact H | exact Hvals'].
Qed.

Section Decoder.
Context {RT : PyRuntime}.

(** [json.loads] on a document that does not start with a byte order
    mark. *)
Lemma json_loads_unfold (s : pystr) :
  (exists e, json_loads s = Raise (JSONDecodeError e) /\ de_doc e = s)
  \/ json_loads s
     = (let (s1, p1) := skip_ws s 0 in
        match scan_once (2 * length s + 2) (S json_nesting) s1 p1 with
        | Failed msg p => Raise (JSONDecodeError (make_decode_error msg s p))
        | Raised e => Raise e
        | OutOfFuel => Raise RecursionError
        | Scanned obj s2 p2 =>
            let (s3, p3) := skip_ws s2 p2 in
            match s3 with
            | [] => Ok obj
            | _ :: _ => Raise (JSONDecodeError (make_decode_error "Extra data" s p3))
            end
        end).
Proof.
  unfold json_loads.
  destruct s as [|c r]; [now right|].
  destruct c as [|p]; [now right|].
  destruct (Pos.eq_dec p 65279) as [->|Hne].
  - left. eexists. split; reflexivity.
  - right.
    assert (E : forall (A : Type) (a b : A),
               match (N.pos p :: r) with
               | 65279%N :: _ => a
               | _ => b
               end = b).
    { intros A a b.
      repeat (destruct p as [p|p|]; try reflexivity). congruence. }
    now rewrite E.
Qed.


(** What [json.loads] returns, [str] prints. *)
Lemma json_loads_printable (s : pystr) (v : pyval) :
  json_loads s = Ok v -> printable v = true.
Proof.
  destruct (json_loads_unfold s) as [(e & He & _) | ->]; [congruence|].
  destruct (skip_ws s 0) as [s1 p1].
  destruct (scan_printable (2 * length s + 2)) as (Hp & _ & _).
  specialize (Hp (S json_nesting) s1 p1).
  destruct (scan_once (2 * length s + 2) (S json_nesting) s1 p1)
    as [obj s2 p2|msg p|e|]; try discriminate.
  destruct (skip_ws s2 p2) as [s3 p3]. destruct s3; [|discriminate].
  intros H. inversion H; subst. eapply Hp. reflexivity.
Qed.
End Decoder.

(* ================================================================== *)
(** * The record reader [from_dict]                                     *)
(* ================================================================== *)


Section DictFacts.
Variable V : Type.

Lemma dict_lookup_setitem_same (d : list (pystr * V)) (k : pystr) (v : V) :
  dict_lookup (dict_setitem d k v) k = Some v.
Proof.
  induction d as [|[k' v'] d IH]; simpl.
  - now rewrite str_eqb_refl.
  - destruct (str_eqb k' k) eqn:E; simpl; rewrite E; auto.
Qed.

Lemma dict_lookup_setitem_other (d : list (pystr * V)) (k k' : pystr) (v : V) :
  k <> k' -> dict_lookup (dict_setitem d k v) k' = dict_lookup d k'.
Proof.
  intros Hne. induction d as [|[k0 v0] d IH]; simpl.
  - apply str_eqb_neq in Hne. now rewrite Hne.
  - destruct (str_eqb k0 k) eqn:E; simpl.
    + apply str_eqb_eq in E. subst k0. apply str_eqb_neq in Hne. now rewrite Hne.
    + now rewrite IH.
Qed.
End DictFacts.


(** Induction on a value, with the property at hand for the items of a
    list and for the values of a dictionary. *)
Lemma pyval_nested_ind (P : pyval -> Prop) :
  P PNone -> (forall b, P (PBool b)) -> (forall z, P (PInt z)) ->
  (forall l, P (PFloat l)) -> (forall s, P (PStr s)) ->
  (forall xs, Forall P xs -> P (PList xs)) ->
  (forall items, Forall (fun kv => P (snd kv)) items -> P (PDict items)) ->
  forall v, P v.
Proof.
  intros HN HB HI HF HS HL HD.
  fix IH 1.
  intros [|b|z|l|s|xs|items];
    [apply HN | apply HB | apply HI | apply HF | apply HS | |].
  - apply HL. induction xs as [|x xs IHxs]; constructor; [apply IH | exact IHxs].
  - apply HD. induction items as [|[k x] items IHi]; constructor;
      [apply IH | exact IHi].
Qed.

Section FromDictFacts.
Context {RT : PyRuntime}.
Import json_reader.

Lemma str_of_int_within (z : Z) :
  within_digits z = true -> str_of_int z = Ok (str_of_Z z).
Proof.
  unfold within_digits, str_of_int. generalize max_str_digits. intros m H.
  apply Z.ltb_lt in H.
  destruct (Z.leb_spec (10 ^ Z.of_N m) (Z.abs z)); [lia | reflexivity].
Qed.

Lemma str_of_int_beyond (z : Z) :
  within_digits z = false -> str_of_int z = Raise ValueError.
Proof.
  unfold within_digits, str_of_int. generalize max_str_digits. intros m H.
  apply Z.ltb_ge in H.
  destruct (Z.leb_spec (10 ^ Z.of_N m) (Z.abs z)); [reflexivity | lia].
Qed.

(** [repr] prints every value whose integers are within the limit. *)
Lemma py_repr_printable (v : pyval) :
  printable v = true -> exists s, py_repr v = Ok s.
Proof.
  induction v as [|b|z|l|s|xs IH|items IH] using pyval_nested_ind;
    cbn [printable py_repr]; intros Hp.
  - eauto.
  - destruct b; eauto.
  - rewrite str_of_int_within by exact Hp. eauto.
  - eauto.
  - eauto.
  - match goal with
    | |- context [bind (?F xs) _] =>
        assert (Hparts : exists parts, F xs = Ok parts)
    end.
    { induction IH as [|x xs Hx _ IHxs]; [now exists []|].
      cbn [forallb] in Hp. apply andb_true_iff in Hp. destruct Hp as [Hpx Hpxs].
      destruct (Hx Hpx) as [sx Hsx]. destruct (IHxs Hpxs) as [parts Hparts].
      rewrite Hsx. cbn [bind]. rewrite Hparts. cbn [bind]. eauto. }
    destruct Hparts as [parts ->]. cbn [bind]. eauto.
  - match goal with
    | |- context [bind (?F items) _] =>
        assert (Hparts : exists parts, F items = Ok parts)
    end.
    { induction IH as [|[k x] items Hx _ IHi]; [now exists []|].
      cbn [forallb snd] in Hp. apply andb_true_iff in Hp. destruct Hp as [Hpx Hpi].
      cbn [snd] in Hx.
      destruct (Hx Hpx) as [sx Hsx]. destruct (IHi Hpi) as [parts Hparts].
      cbn [snd fst]. rewrite Hsx. cbn [bind]. rewrite Hparts. cbn [bind]. eauto. }
    destruct Hparts as [parts ->]. cbn [bind]. eauto.
Qed.

Lemma py_str_printable (v : pyval) :
  printable v = true -> exists s, py_str v = Ok s.
Proof.
  intros H. destruct v; try (now apply py_repr_printable).
  cbn [py_str]. eauto.
Qed.

Lemma dict_lookup_printable (d : list (pystr * pyval)) (key : pystr) (v : pyval) :
  forallb (fun kv => printable (snd kv)) d = true ->
  dict_lookup d key = Some v -> printable v = true.
Proof.
  induction d as [|[k x] d IH]; cbn [dict_lookup forallb snd]; [discriminate|].
  intros H. apply andb_true_iff in H. destruct H as [Hx Hd].
  destruct (str_eqb k key); [|now apply IH].
  intros E. inversion E; subst. exact Hx.
Qed.

Lemma dict_get_printable (d : list (pystr * pyval)) (key : pystr) (default : pyval) :
  forallb (fun kv => printable (snd kv)) d = true ->
  printable default = true ->
  printable (dict_get d key default) = true.
Proof.
  intros Hd Hdef. unfold dict_get.
  destruct (dict_lookup d key) as [v|] eqn:E; [|exact Hdef].
  eapply dict_lookup_printable; eauto.
Qed.

Lemma optional_field_total (d : list (pystr * pyval)) (key : pystr) :
  optional_field d key = str_unless_None (dict_lookup d key).
Proof.
  unfold optional_field, dict_get, dict_getitem, str_unless_None.
  destruct (dict_lookup d key) as [[]|]; reflexivity.
Qed.

Lemma str_unless_None_printable (d : list (pystr * pyval)) (key : pystr) :
  forallb (fun kv => printable (snd kv)) d = true ->
  exists o, str_unless_None (dict_lookup d key) = Ok o.
Proof.
  intros Hd. unfold str_unless_None.
  destruct (dict_lookup d key) as [v|] eqn:E; [|eauto].
  apply (@dict_lookup_printable d key v Hd) in E.
  destruct (@py_str_printable v E) as [s Hs]. rewrite Hs.
  destruct v; cbn [bind]; eauto.
Qed.

(** When [from_dict] returns a record: each string field is [str] of the
    value under its key, or of the empty string, and each exception field
    is [str] of a value that is there and is not [None]. *)
Lemma from_dict_returns (d : list (pystr * pyval)) (r : JsonLogRecord) :
  from_dict (PDict d) = Ok r <->
  py_str (dict_get d "time" (PStr "")) = Ok (time r)
  /\ py_str (dict_get d "logger" (PStr "")) = Ok (logger r)
  /\ py_str (dict_get d "level" (PStr "")) = Ok (level r)
  /\ py_str (dict_get d "file" (PStr "")) = Ok (file r)
  /\ py_str (dict_get d "thread" (PStr "")) = Ok (thread r)
  /\ py_str (dict_get d "message" (PStr "")) = Ok (message r)
  /\ str_unless_None (dict_lookup d "exc_type") = Ok (exc_type r)
  /\ str_unless_None (dict_lookup d "exc_message") = Ok (exc_message r)
  /\ str_unless_None (dict_lookup d "exc_traceback") = Ok (exc_traceback r).
Proof.
  unfold from_dict. split.
  - intros H.
    repeat match type of H with
           | context [bind (py_str ?v) _] =>
               destruct (py_str v); cbn [bind] in H; [|discriminate]
           end.
    rewrite !optional_field_total in H.
    destruct (str_unless_None (dict_lookup d "exc_type"));
      cbn [bind] in H; [|discriminate].
    destruct (str_unless_None (dict_lookup d "exc_message"));
      cbn [bind] in H; [|discriminate].
    destruct (str_unless_None (dict_lookup d "exc_traceback"));
      cbn [bind] in H; [|discriminate].
    inversion H; subst. repeat split.
  - intros (H1 & H2 & H3 & H4 & H5 & H6 & H7 & H8 & H9).
    rewrite H1. cbn [bind]. rewrite H2. cbn [bind]. rewrite H3. cbn [bind].
    rewrite H4. cbn [bind]. rewrite H5. cbn [bind]. rewrite H6. cbn [bind].
    rewrite !optional_field_total, H7. cbn [bind].
    rewrite H8. cbn [bind]. rewrite H9. cbn [bind].
    destruct r; reflexivity.
Qed.

(** [from_dict] returns a record for every dictionary whose values [str]
    prints. *)
Lemma from_dict_printable (d : list (pystr * pyval)) :
  printable (PDict d) = true -> exists r, from_dict (PDict d) = Ok r.
Proof.
  cbn [printable]. intros Hd.
  assert (Hs : forall key, exists s, py_str (dict_get d key (PStr "")) = Ok s).
  { intros key. apply py_str_printable. now apply dict_get_printable. }
  destruct (Hs (py "time")) as [s1 H1]. destruct (Hs (py "logger")) as [s2 H2].
  destruct (Hs (py "level")) as [s3 H3]. destruct (Hs (py "file")) as [s4 H4].
  destruct (Hs (py "thread")) as [s5 H5]. destruct (Hs (py "message")) as [s6 H6].
  destruct (@str_unless_None_printable d (py "exc_type") Hd) as [o1 H7].
  destruct (@str_unless_None_printable d (py "exc_message") Hd) as [o2 H8].
  destruct (@str_unless_None_printable d (py "exc_traceback") Hd) as [o3 H9].
  exists {| time := s1; logger := s2; level := s3; file := s4; thread := s5;
            message := s6; exc_type := o1; exc_message := o2;
            exc_traceback := o3 |}.
  apply from_dict_returns. cbn [time logger level file thread message exc_type
                                exc_message exc_traceback].
  repeat split; assumption.
Qed.

Lemma from_dict_is_dict (v : pyval) :
  (is_dict v = true -> printable v = true -> exists r, from_dict v = Ok r)
  /\ (is_dict v = false -> from_dict v = Raise (AttributeError "get")).
Proof.
  split.
  - destruct v; try discriminate. intros _. apply from_dict_printable.
  - destruct v; try discriminate; reflexivity.
Qed.

(** C10, amended.  [from_dict] returns a record, and raises nothing, for
    every dictionary that [json.loads] returns, whatever the JSON types of
    its values.  Each of the six mandatory fields is the string form
    [str(v)] of the value under its key (of the empty string when the key is
    absent), so a string is kept and every other value is coerced; each
    exception field is the string form of its value when the value is there
    and is not [None], and is [None] when the value is [None] or absent. *)
Theorem from_dict_returns_for_decoded_dictionaries
        (line : pystr) (d : list (pystr * pyval)) :
  json_loads line = Ok (PDict d) ->
  exists r,
    from_dict (PDict d) = Ok r
    /\ (forall key get, In (key, get) string_fields ->
          py_str (dict_get d key (PStr [])) = Ok (get r))
    /\ (forall key get, In (key, get) exception_fields ->
          match dict_lookup d key with
          | None | Some PNone => get r = None
          | Some v => exists text, py_str v = Ok text /\ get r = Some text
          end).
Proof.
  intros Hline. apply json_loads_printable in Hline.
  destruct (@from_dict_printable d Hline) as [r Hr].
  exists r. split; [exact Hr|].
  apply from_dict_returns in Hr.
  destruct Hr as (H1 & H2 & H3 & H4 & H5 & H6 & H7 & H8 & H9).
  split.
  - intros key get Hin. simpl in Hin.
    repeat (destruct Hin as [Heq|Hin]; [inversion Heq; subst; assumption|]).
    contradiction.
  - assert (G : forall key o,
               str_unless_None (dict_lookup d key) = Ok o ->
               match dict_lookup d key with
               | None | Some PNone => o = None
               | Some v => exists text, py_str v = Ok text /\ o = Some text
               end).
    { intros key o. unfold str_unless_None.
      destruct (dict_lookup d key) as [v|].
      2:{ intros H. inversion H. reflexivity. }
      destruct v; [intros H; inversion H; reflexivity | ..];
        (match goal with
         | |- context [py_str ?x] => destruct (py_str x) as [text|]
         end; cbn [bind]; intros H; inversion H; subst; eauto). }
    intros key get Hin. simpl in Hin.
    repeat (destruct Hin as [Heq|Hin]; [inversion Heq; subst; now apply G|]).
    contradiction.
Qed.

(** C8. For every dictionary for which [from_dict] returns a record: each
    of the six string fields whose key is absent is the empty string; each
    of the three exception fields whose key is absent or holds [None] is
    [None]; and setting a key outside the nine field names, to any value,
    leaves the record unchanged. *)
Theorem from_dict_absent_null_extra (d : list (pystr * pyval))
                                    (r : JsonLogRecord) :
  from_dict (PDict d) = Ok r ->
  (forall key get, In (key, get) string_fields ->
     dict_lookup d key = None -> get r = [])
  /\ (forall key get, In (key, get) exception_fields ->
        dict_lookup d key = None \/ dict_lookup d key = Some PNone ->
        get r = None)
  /\ (forall key v, ~ In key field_names ->
        from_dict (PDict (dict_setitem d key v)) = Ok r).
Proof.
  intros Hr. pose proof Hr as Hf. apply from_dict_returns in Hf.
  destruct Hf as (H1 & H2 & H3 & H4 & H5 & H6 & H7 & H8 & H9).
  split; [|split].
  - assert (G : forall key s, py_str (dict_get d key (PStr "")) = Ok s ->
                              dict_lookup d key = None -> s = []).
    { intros key s Hs Habs. unfold dict_get in Hs. rewrite Habs in Hs.
      now inversion Hs. }
    intros key get Hin Habs. simpl in Hin.
    repeat (destruct Hin as [Heq|Hin]; [inversion Heq; subst; eapply G; eassumption|]).
    contradiction.
  - assert (G : forall key o, str_unless_None (dict_lookup d key) = Ok o ->
                              dict_lookup d key = None
                              \/ dict_lookup d key = Some PNone -> o = None).
    { intros key o Ho [Habs|Habs]; rewrite Habs in Ho; now inversion Ho. }
    intros key get Hin Habs. simpl in Hin.
    repeat (destruct Hin as [Heq|Hin]; [inversion Heq; subst; eapply G; eassumption|]).
    contradiction.
  - intros key v Hnot. apply from_dict_returns. unfold dict_get.
    assert (Hother : forall k, In k field_names ->
                      dict_lookup (dict_setitem d key v) k = dict_lookup d k).
    { intros k Hk. apply dict_lookup_setitem_other. intros ->. contradiction. }
    rewrite !Hother by (cbv; tauto).
    repeat split; assumption.
Qed.
End FromDictFacts.

(** A line whose values are a number, a list and a boolean. *)
Lemma from_dict_returns_for_decoded_dictionaries_witness :
  exists r,
    @json_reader.from_dict sample_runtime
      (PDict [ (py "time", PInt 12); (py "message", PList [PInt 1; PNone]);
               (py "exc_type", PBool false) ]) = Ok r
    /\ json_reader.time r = py "12"
    /\ json_reader.message r = py "[1, None]"
    /\ json_reader.exc_type r = Some (py "False").
Proof.
  destruct (@from_dict_returns_for_decoded_dictionaries sample_runtime typed_line
              [ (py "time", PInt 12); (py "message", PList [PInt 1; PNone]);
                (py "exc_type", PBool false) ])
    as (r & Hr & _).
  - vm_compute. reflexivity.
  - exists r. split; [exact Hr|].
    assert (E : @json_reader.from_dict sample_runtime
                  (PDict [ (py "time", PInt 12);
                           (py "message", PList [PInt 1; PNone]);
                           (py "exc_type", PBool false) ])
                = Ok {| json_reader.time := py "12"; json_reader.logger := [];
                        json_reader.level := []; json_reader.file := [];
                        json_reader.thread := [];
                        json_reader.message := py "[1, None]";
                        json_reader.exc_type := Some (py "False");
                        json_reader.exc_message := None;
                        json_reader.exc_traceback := None |})
      by (vm_compute; reflexivity).
    rewrite E in Hr. inversion Hr. repeat split.
Defined.

(** C10 as stated fails: [str] raises [ValueError] for an [int] of more
    than 4300 digits, and [from_dict] with it. *)
Lemma from_dict_raises_for_long_int :
  @json_reader.from_dict sample_runtime (PDict [(py "time", PInt (10 ^ 4300))])
  = Raise ValueError.
Proof. vm_compute. reflexivity. Qed.

(** A dictionary without a message, with a null exception type and with a
    key of its own. *)
Lemma from_dict_absent_null_extra_witness :
  exists r,
    @json_reader.from_dict sample_runtime
      (PDict [(py "time", PStr (py "t1")); (py "exc_type", PNone)]) = Ok r
    /\ json_reader.message r = []
    /\ json_reader.exc_type r = None
    /\ json_reader.exc_message r = None
    /\ @json_reader.from_dict sample_runtime
         (PDict [(py "time", PStr (py "t1")); (py "exc_type", PNone);
                 (py "host", PInt 7)]) = Ok r.
Proof.
  eexists. split; [vm_compute; reflexivity|].
  destruct (@from_dict_absent_null_extra sample_runtime
              [(py "time", PStr (py "t1")); (py "exc_type", PNone)] _
              eq_refl) as (Hs & He & Hx).
  split.
  { apply (Hs (py "message") json_reader.message); [|reflexivity].
    cbv. tauto. }
  split.
  { apply (He (py "exc_type") json_reader.exc_type); [cbv; tauto|].
    right. reflexivity. }
  split.
  { apply (He (py "exc_message") json_reader.exc_message); [cbv; tauto|].
    left. reflexivity. }
  apply (Hx (py "host") (PInt 7)).
  cbv. intros H. repeat (destruct H as [H|H]; [discriminate|]). exact H.
Defined.


(* ================================================================== *)
(** * The record model [from_record]                                    *)
(* ================================================================== *)


Section FromRecordFacts.
Import logging json_logger.

Lemma traceback_or_None_spec (r : result (list pystr)) (o : option pystr) :
  traceback_or_None r = Ok o ->
  (o = None <-> exists err, r = Raise err).
Proof.
  unfold traceback_or_None. destruct r as [lines|err].
  - intros H. inversion H; subst. split; [discriminate | intros [e He]; discriminate].
  - destruct (is_Exception err); [|discriminate].
    intros H. inversion H; subst. split; [eauto | reflexivity].
Qed.

(** C3, amended.  For every record that [from_record] turns into an
    entry: without exception information the three exception fields are
    null together.  With exception information [(etype, evalue, etb)],
    [exc_type] is null exactly when [etype] is [None], [exc_message] is null
    exactly when [evalue] is [None], and [exc_traceback] is null exactly
    when formatting the traceback raises; so the three are non-null together
    when the type and the value are there and the traceback formats. *)
Theorem from_record_exception_fields (record : LogRecord) (e : JsonLogEntry) :
  from_record record = Ok e ->
  match exc_info record with
  | None =>
      exc_type e = None /\ exc_message e = None /\ exc_traceback e = None
  | Some (etype, evalue, etb) =>
      (exc_type e = None <-> etype = None)
      /\ (exc_message e = None <-> evalue = None)
      /\ (exc_traceback e = None
          <-> exists err, format_exception etype evalue etb = Raise err)
  end.
Proof.
  unfold from_record. destruct (exc_info record) as [[[etype evalue] etb]|].
  - destruct evalue as [v|].
    + destruct (ev_str v) as [s|err]; cbn [bind]; [|discriminate].
      destruct (traceback_or_None (format_exception etype (Some v) etb)) as [o|err] eqn:Etb;
        cbn [bind]; [|discriminate].
      destruct (getMessage record) as [m|err]; cbn [bind]; [|discriminate].
      intros H. inversion H; subst; clear H. cbn.
      split; [|split].
      * destruct etype; split; congruence.
      * split; discriminate.
      * now apply traceback_or_None_spec.
    + cbn [bind].
      destruct (traceback_or_None (format_exception etype None etb)) as [o|err] eqn:Etb;
        cbn [bind]; [|discriminate].
      destruct (getMessage record) as [m|err]; cbn [bind]; [|discriminate].
      intros H. inversion H; subst; clear H. cbn.
      split; [|split].
      * destruct etype; split; congruence.
      * split; reflexivity.
      * now apply traceback_or_None_spec.
  - destruct (getMessage record) as [m|err]; cbn [bind]; [|discriminate].
    intros H. inversion H; subst. cbn. auto.
Qed.

(** A record logged with an exception: its three fields are populated. *)
Lemma from_record_exception_fields_witness :
  exists e,
    from_record sample_error_record = Ok e
    /\ exc_type e <> None /\ exc_message e <> None /\ exc_traceback e <> None.
Proof.
  eexists. split; [reflexivity|].
  pose proof (@from_record_exception_fields sample_error_record _ eq_refl) as H.
  cbn [exc_info sample_error_record] in H.
  destruct H as (H1 & H2 & H3). repeat split.
  - intros E. apply H1 in E. discriminate.
  - intros E. apply H2 in E. discriminate.
  - intros E. apply H3 in E. destruct E as [err E]. discriminate.
Defined.

(** C3 as stated fails: a record logged with [exc_info=True] while no
    exception is being handled carries the triple [(None, None, None)]; its
    entry has a traceback, the line [NoneType: None], and neither a type nor
    a message. *)
Lemma exc_info_True_gives_traceback_only :
  exists e,
    from_record record_exc_info_True = Ok e
    /\ exc_type e = None
    /\ exc_message e = None
    /\ exc_traceback e = Some (py "NoneType: None" ++ [10%N]).
Proof. eexists. repeat split. Qed.
End FromRecordFacts.

(* ================================================================== *)
(** * The reader: blank lines and file order                            *)
(* ================================================================== *)


Section ReaderFacts.
Context {RT : PyRuntime}.
Import json_reader.

Lemma is_blank_true (line : pystr) : is_blank line = true <-> strip line = [].
Proof. unfold is_blank. destruct (strip line); split; congruence. Qed.

(** Blank lines leave no mark on what the loop yields. *)
Lemma iter_lines_nonblank (lines : list pystr) :
  iter_lines lines = iter_lines (filter (fun l => negb (is_blank l)) lines).
Proof.
  induction lines as [|line rest IH]; [reflexivity|].
  cbn [filter]. unfold is_blank at 1.
  cbn [iter_lines]. destruct (strip line) as [|c t] eqn:E.
  - cbn [negb]. exact IH.
  - cbn [negb iter_lines]. rewrite E.
    destruct (json_loads (c :: t)); [|reflexivity]. now rewrite IH.
Qed.

(** A file of valid lines: every one is yielded, none is lost. *)
Lemma iter_lines_all_valid (lines : list pystr) :
  Forall (fun line => is_blank line = false
                      /\ exists v, json_loads (strip line) = Ok v) lines ->
  exists vs,
    iter_lines lines = mkTrace vs None
    /\ Forall2 (fun line v => json_loads (strip line) = Ok v) lines vs.
Proof.
  induction 1 as [|line rest [Hnb [v Hv]] _ IH].
  - exists []. split; [reflexivity | constructor].
  - destruct IH as [vs [Hvs Hall]].
    exists (v :: vs). split.
    + cbn [iter_lines]. unfold is_blank in Hnb.
      destruct (strip line) as [|c t] eqn:E; [discriminate|].
      rewrite Hv, Hvs. reflexivity.
    + constructor; assumption.
Qed.



Lemma Forall2_json_loads_printable (lines : list pystr) (vs : list pyval) :
  Forall2 (fun line v => json_loads (strip line) = Ok v) lines vs ->
  forallb printable vs = true.
Proof.
  induction 1 as [|line v lines vs Hv _ IH]; [reflexivity|].
  cbn [forallb]. apply json_loads_printable in Hv. now rewrite Hv, IH.
Qed.

Lemma records_of_dicts (vs : list pyval) (stop : option exn) :
  forallb printable vs = true ->
  forallb is_dict vs = true ->
  exists rs, records_of vs stop = mkTrace rs stop
             /\ Forall2 (fun v r => from_dict v = Ok r) vs rs.
Proof.
  induction vs as [|v vs IH]; intros Hp H.
  - exists []. split; [reflexivity | constructor].
  - cbn [forallb] in H, Hp. apply andb_true_iff in H. destruct H as [Hv Hvs].
    apply andb_true_iff in Hp. destruct Hp as [Hpv Hpvs].
    destruct (IH Hpvs Hvs) as (rs & Hrs & Hall).
    destruct (proj1 (from_dict_is_dict v) Hv Hpv) as [r Hr].
    exists (r :: rs). cbn [records_of]. rewrite Hr, Hrs. split; [reflexivity|].
    now constructor.
Qed.


Lemma to_list_trace (self : JsonLogReader) (fs : Files) (vs : list pyval) :
  to_list self fs = Ok vs <-> iter_dicts self fs = mkTrace vs None.
Proof.
  unfold to_list, list_of_trace.
  destruct (iter_dicts self fs) as [ys [e|]]; cbn [raised yielded]; split;
    intros H; try discriminate; inversion H; reflexivity.
Qed.

(** C6. For every file whose non-blank lines are all JSON objects, the
    eager readers [to_list] and [to_records] return one value and one
    record for each non-blank line, in the order of the lines: as many as
    the file has non-blank lines, the i-th being what the i-th non-blank
    line decodes to.  The result does not depend on the blank lines: every
    file with the same non-blank lines, wherever its blank lines stand and
    however many they are, is read to the same lists. *)
Theorem to_list_skips_blank_lines (self : JsonLogReader) (fs : Files)
                                  (content : pystr) :
  dict_lookup fs (_path self) = Some content ->
  (forall line, In line (nonblank_lines content) ->
                exists d, json_loads (strip line) = Ok (PDict d)) ->
  exists dicts records,
    to_list self fs = Ok dicts
    /\ to_records self fs = Ok records
    /\ length dicts = length (nonblank_lines content)
    /\ length records = length (nonblank_lines content)
    /\ Forall2 (fun line v => json_loads (strip line) = Ok v)
               (nonblank_lines content) dicts
    /\ Forall2 (fun v r => from_dict v = Ok r) dicts records
    /\ (forall self' fs' content',
          dict_lookup fs' (_path self') = Some content' ->
          nonblank_lines content' = nonblank_lines content ->
          to_list self' fs' = Ok dicts /\ to_records self' fs' = Ok records).
Proof.
  intros Hfile Hvalid.
  assert (Hall : Forall (fun line => is_blank line = false
                                     /\ exists v, json_loads (strip line) = Ok v)
                        (nonblank_lines content)).
  { apply Forall_forall. intros line Hin. split.
    - unfold nonblank_lines in Hin. apply filter_In in Hin.
      destruct Hin as [_ Hnb]. now destruct (is_blank line).
    - destruct (Hvalid line Hin) as [d Hd]. eauto. }
  destruct (iter_lines_all_valid Hall) as [dicts [Hdicts Hpar]].
  assert (Hds : forallb is_dict dicts = true).
  { clear - Hpar Hvalid. induction Hpar as [|line v ls vs Hv _ IH]; [reflexivity|].
    cbn [forallb]. rewrite IH by (intros l Hl; apply Hvalid; now right).
    destruct (Hvalid line (or_introl eq_refl)) as [d Hd].
    rewrite Hd in Hv. inversion Hv. reflexivity. }
  destruct (@records_of_dicts dicts None (Forall2_json_loads_printable Hpar) Hds)
    as [records [Hrecs Hconv]].
  assert (Hread : forall self' fs' content',
             dict_lookup fs' (_path self') = Some content' ->
             nonblank_lines content' = nonblank_lines content ->
             to_list self' fs' = Ok dicts /\ to_records self' fs' = Ok records).
  { intros self' fs' content' Hf' Hsame.
    unfold to_list, to_records, iter_records, iter_dicts. rewrite Hf'.
    rewrite iter_lines_nonblank. fold (nonblank_lines content').
    rewrite Hsame, Hdicts. cbn [yielded raised]. rewrite Hrecs. split; reflexivity. }
  destruct (Hread self fs content Hfile eq_refl) as [Hl Hr].
  pose proof (Forall2_length Hpar) as Hn1.
  pose proof (Forall2_length Hconv) as Hn2.
  exists dicts, records.
  split; [exact Hl|]. split; [exact Hr|].
  split; [now symmetry|]. split; [congruence|].
  split; [exact Hpar|]. split; [exact Hconv | exact Hread].
Qed.
End ReaderFacts.

(** A file of two records among five blank lines. *)
Lemma to_list_skips_blank_lines_witness :
  exists dicts records,
    @json_reader.to_list sample_runtime (json_reader.mkJsonLogReader path_c)
      sample_files = Ok dicts
    /\ @json_reader.to_records sample_runtime (json_reader.mkJsonLogReader path_c)
         sample_files = Ok records
    /\ length dicts = 2 /\ length records = 2.
Proof.
  destruct (@to_list_skips_blank_lines sample_runtime
              (json_reader.mkJsonLogReader path_c) sample_files
              ([10%N] ++ good_line_1 ++ [10%N; 32%N; 9%N; 10%N; 13%N; 10%N]
               ++ good_line_2 ++ [10%N; 10%N]))
    as (dicts & records & Hl & Hr & Hnl & Hnr & _).
  - reflexivity.
  - intros line Hin. vm_compute in Hin.
    destruct Hin as [<-|[<-|[]]]; eexists; vm_compute; reflexivity.
  - exists dicts, records. repeat split; assumption.
Defined.

(* ================================================================== *)
(** * The reader: a line that is not JSON                               *)
(* ================================================================== *)

Section ReaderAborts.
Context {RT : PyRuntime}.
Import json_reader.



End ReaderAborts.



(* ================================================================== *)
(** * The writers: rotation                                             *)
(* ================================================================== *)


Lemma files_after_write_same (fs : Files) (p : pystr) (text : pystr) :
  dict_lookup (files_after_write fs p text) p = Some (dict_get fs p [] ++ text).
Proof. apply dict_lookup_setitem_same. Qed.

Lemma files_after_write_other (fs : Files) (p q : pystr) (text : pystr) :
  q <> p -> dict_lookup (files_after_write fs p text) q = dict_lookup fs q.
Proof. intros H. apply dict_lookup_setitem_other. congruence. Qed.

Lemma files_after_open_a (fs : Files) (p q : pystr) :
  dict_get (files_after_open fs p mode_a) q [] = dict_get fs q [].
Proof.
  unfold files_after_open, dict_get.
  destruct (dict_lookup fs p) eqn:E; [reflexivity|].
  destruct (str_eqb p q) eqn:Epq.
  - apply str_eqb_eq in Epq. subst q. rewrite dict_lookup_setitem_same, E. reflexivity.
  - apply str_eqb_neq in Epq. rewrite dict_lookup_setitem_other by exact Epq. reflexivity.
Qed.

Lemma files_after_open_other (fs : Files) (p q : pystr) (m : FileMode) :
  q <> p -> dict_lookup (files_after_open fs p m) q = dict_lookup fs q.
Proof.
  intros H. unfold files_after_open.
  destruct m, (dict_lookup fs p); try reflexivity;
    apply dict_lookup_setitem_other; congruence.
Qed.

Lemma path_ne_opt_false (p : pystr) (q : option pystr) :
  path_ne_opt p q = false <-> q = Some p.
Proof.
  unfold path_ne_opt, path_eqb. destruct q as [q|]; split; try discriminate.
  - intros H. apply negb_false_iff in H. apply str_eqb_eq in H. now subst.
  - intros H. inversion H; subst. now rewrite str_eqb_refl.
Qed.

Section JsonEmit.
Context {RT : PyRuntime}.
Import logging_handlers json_logger.

Lemma json_emit_appends (env : Env) (h : DailyJsonRotatingFileHandler)
                        (w : World) (record : logging.LogRecord) (line : pystr) :
  json_handler_consistent h ->
  mode (base h) = mode_a ->
  no_io_failure env ->
  _serialize_record record = Ok line ->
  exists h' w' pre,
    emit env record (h, w) = (Ok tt, (h', w'))
    /\ _current_file h' = Some (log_file_of (log_dir h) (now env))
    /\ json_handler_consistent h'
    /\ events w'
       = Flushed (log_file_of (log_dir h) (now env))
         :: Wrote (log_file_of (log_dir h) (now env)) (line ++ [10%N])
         :: pre ++ events w
    /\ (path_ne_opt (log_file_of (log_dir h) (now env)) (_current_file h) = true ->
        pre = Opened (log_file_of (log_dir h) (now env)) mode_a
              :: closing (stream (base h)))
    /\ (path_ne_opt (log_file_of (log_dir h) (now env)) (_current_file h) = false ->
        pre = match stream (base h) with
              | Some _ => []
              | None => [Opened (log_file_of (log_dir h) (now env)) mode_a]
              end)
    /\ dict_lookup (files w') (log_file_of (log_dir h) (now env))
       = Some (dict_get (files w) (log_file_of (log_dir h) (now env)) []
               ++ line ++ [10%N])
    /\ (forall p, p <> log_file_of (log_dir h) (now env) ->
                  dict_lookup (files w') p = dict_lookup (files w) p).
Proof.
  intros Hwf Hmode (Hopen & Hclose & Hwrite & Hflush) Hser.
  destruct h as [[hid hlevel hfmt hbase hmode henc hst hclosed] hdir hcur].
  unfold json_handler_consistent in *.
  cbn [base log_dir _current_file mode stream baseFilename] in *. subst hmode.
  remember (log_file_of hdir (now env)) as cand eqn:Hcand.
  unfold emit, emit_try, _get_current_log_file. run_monad.
  cbn [fst snd base log_dir _current_file mode stream baseFilename
       with_base set_stream set_baseFilename set__current_file].
  rewrite <- Hcand. rewrite Hser.
  destruct (path_ne_opt cand hcur) eqn:Hne.
  - (* the date changed, or nothing was opened yet *)
    rewrite Hclose, Hopen, Hwrite, Hflush.
    destruct hst as [st|];
      cbn [fst snd base log_dir _current_file mode stream baseFilename
           with_base set_stream set_baseFilename set__current_file st_name];
      [ exists_pre (Opened cand mode_a :: closing (Some st))
      | exists_pre (Opened cand mode_a :: closing None) ];
      (split; [reflexivity|];
       cbn [base log_dir _current_file mode stream baseFilename events files
            log_event with_files closing app with_base set_stream
            set_baseFilename set__current_file];
       split; [reflexivity|];
       split; [intros p Hp; injection Hp as <-; split;
               [reflexivity | intros st' Hst'; injection Hst' as <-; reflexivity]|];
       split; [reflexivity|];
       split; [reflexivity|];
       split; [discriminate|];
       split; [rewrite files_after_write_same, files_after_open_a; reflexivity|];
       intros p Hp;
       rewrite files_after_write_other, files_after_open_other by exact Hp;
       reflexivity).
  - (* the file of today is the last-opened one *)
    apply path_ne_opt_false in Hne.
    destruct (Hwf _ Hne) as [Hbase Hst]. subst hbase.
    rewrite Hopen, Hwrite, Hflush.
    destruct hst as [[stn]|].
    + specialize (Hst _ eq_refl). cbn [st_name] in Hst. subst stn.
      cbn [fst snd base log_dir _current_file mode stream baseFilename
           with_base set_stream set_baseFilename set__current_file st_name].
      eexists _, _, []; split; [reflexivity|].
      cbn [base log_dir _current_file mode stream baseFilename events files
           log_event with_files closing app with_base set_stream
           set_baseFilename set__current_file].
      split; [exact Hne|].
      split; [exact Hwf|].
      split; [reflexivity|].
      split; [intros; discriminate|].
      split; [reflexivity|].
      split; [rewrite files_after_write_same; reflexivity|].
      intros p Hp. rewrite files_after_write_other by exact Hp. reflexivity.
    + cbn [fst snd base log_dir _current_file mode stream baseFilename
           with_base set_stream set_baseFilename set__current_file st_name].
      exists_pre [Opened cand mode_a]. split; [reflexivity|].
      cbn [base log_dir _current_file mode stream baseFilename events files
           log_event with_files closing app with_base set_stream
           set_baseFilename set__current_file].
      split; [exact Hne|].
      split; [exact Hwf|].
      split; [reflexivity|].
      split; [intros; discriminate|].
      split; [reflexivity|].
      split; [rewrite files_after_write_same, files_after_open_a; reflexivity|].
      intros p Hp.
      rewrite files_after_write_other, files_after_open_other by exact Hp.
      reflexivity.
Qed.
End JsonEmit.

Section TextEmit.
Import logging_handlers app_logger.

Lemma text_emit_appends (env : Env) (h : DailyRotatingFileHandler)
                        (w : World) (record : logging.LogRecord) (msg : pystr) :
  text_handler_consistent h ->
  mode (base h) = mode_a ->
  no_io_failure env ->
  format (formatter (base h)) record = Ok msg ->
  exists h' w' pre,
    emit env record (h, w) = (Ok tt, (h', w'))
    /\ _current_file h' = Some (log_file_of (log_dir h) (now env))
    /\ text_handler_consistent h'
    /\ events w'
       = Flushed (log_file_of (log_dir h) (now env))
         :: Flushed (log_file_of (log_dir h) (now env))
         :: Wrote (log_file_of (log_dir h) (now env)) (msg ++ [10%N])
         :: pre ++ events w
    /\ (path_ne_opt (log_file_of (log_dir h) (now env)) (_current_file h) = true ->
        pre = Opened (log_file_of (log_dir h) (now env)) mode_a
              :: closing (stream (base h)))
    /\ (path_ne_opt (log_file_of (log_dir h) (now env)) (_current_file h) = false ->
        pre = match stream (base h) with
              | Some _ => []
              | None => [Opened (log_file_of (log_dir h) (now env)) mode_a]
              end)
    /\ dict_lookup (files w') (log_file_of (log_dir h) (now env))
       = Some (dict_get (files w) (log_file_of (log_dir h) (now env)) []
               ++ msg ++ [10%N])
    /\ (forall p, p <> log_file_of (log_dir h) (now env) ->
                  dict_lookup (files w') p = dict_lookup (files w) p).
Proof.
  intros Hwf Hmode (Hopen & Hclose & Hwrite & Hflush) Hfmt.
  destruct h as [[hid hlevel hfmt hbase hmode henc hst hclosed] hdir hdate hcur].
  unfold text_handler_consistent in *.
  cbn [base log_dir _current_file mode stream baseFilename formatter] in *.
  subst hmode.
  remember (log_file_of hdir (now env)) as cand eqn:Hcand.
  unfold emit, emit_try, _get_current_log_file, FileHandler_emit,
    StreamHandler_emit. run_monad.
  cbn [fst snd base log_dir _current_file mode stream baseFilename formatter
       with_base set_stream set_baseFilename set__current_file].
  rewrite <- Hcand.
  destruct (path_ne_opt cand hcur) eqn:Hne.
  - rewrite Hclose, Hopen.
    destruct hst as [st|];
      cbn [fst snd base log_dir _current_file mode stream baseFilename formatter
           with_base set_stream set_baseFilename set__current_file st_name];
      rewrite Hfmt, Hwrite, Hflush;
      cbn [fst snd base log_dir _current_file mode stream baseFilename formatter
           with_base set_stream set_baseFilename set__current_file st_name];
      rewrite ?Hflush;
      [ exists_pre (Opened cand mode_a :: closing (Some st))
      | exists_pre (Opened cand mode_a :: closing None) ];
      (split; [reflexivity|];
       cbn [base log_dir _current_file mode stream baseFilename events files
            log_event with_files closing app with_base set_stream
            set_baseFilename set__current_file];
       split; [reflexivity|];
       split; [intros p Hp; injection Hp as <-; split;
               [reflexivity | intros st' Hst'; injection Hst' as <-; reflexivity]|];
       split; [reflexivity|];
       split; [reflexivity|];
       split; [discriminate|];
       split; [rewrite files_after_write_same, files_after_open_a; reflexivity|];
       intros p Hp;
       rewrite files_after_write_other, files_after_open_other by exact Hp;
       reflexivity).
  - apply path_ne_opt_false in Hne.
    destruct (Hwf _ Hne) as [Hbase Hst]. subst hbase.
    destruct hst as [[stn]|].
    + specialize (Hst _ eq_refl). cbn [st_name] in Hst. subst stn.
      cbn [fst snd base log_dir _current_file mode stream baseFilename formatter
           with_base set_stream set_baseFilename set__current_file st_name].
      rewrite Hfmt, Hwrite, Hflush.
      cbn [fst snd base log_dir _current_file mode stream baseFilename formatter
           with_base set_stream set_baseFilename set__current_file st_name].
      rewrite ?Hflush.
      exists_pre (@nil Event). split; [reflexivity|].
      cbn [base log_dir _current_file mode stream baseFilename events files
           log_event with_files closing app with_base set_stream
           set_baseFilename set__current_file].
      split; [exact Hne|].
      split; [exact Hwf|].
      split; [reflexivity|].
      split; [intros; discriminate|].
      split; [reflexivity|].
      split; [rewrite files_after_write_same; reflexivity|].
      intros p Hp. rewrite files_after_write_other by exact Hp. reflexivity.
    + cbn [fst snd base log_dir _current_file mode stream baseFilename formatter
           with_base set_stream set_baseFilename set__current_file st_name
           orb negb].
      rewrite Hopen.
      cbn [fst snd base log_dir _current_file mode stream baseFilename formatter
           with_base set_stream set_baseFilename set__current_file st_name].
      rewrite Hfmt, Hwrite, Hflush.
      cbn [fst snd base log_dir _current_file mode stream baseFilename formatter
           with_base set_stream set_baseFilename set__current_file st_name].
      rewrite ?Hflush.
      exists_pre [Opened cand mode_a]. split; [reflexivity|].
      cbn [base log_dir _current_file mode stream baseFilename events files
           log_event with_files closing app with_base set_stream
           set_baseFilename set__current_file].
      split; [exact Hne|].
      split; [intros p Hp; rewrite Hne in Hp; injection Hp as <-; split;
               [reflexivity | intros st' Hst'; injection Hst' as <-; reflexivity]|].
      split; [reflexivity|].
      split; [intros; discriminate|].
      split; [reflexivity|].
      split; [rewrite files_after_write_same, files_after_open_a; reflexivity|].
      intros p Hp.
      rewrite files_after_write_other, files_after_open_other by exact Hp.
      reflexivity.
Qed.
End TextEmit.

(* ================================================================== *)
(** * The writers: failures                                             *)
(* ================================================================== *)


Lemma OSError_is_Exception (e : exn) : is_OSError e = true -> is_Exception e = true.
Proof. destruct e; simpl; congruence. Qed.


Section Rendering.
Context {RT : PyRuntime}.
Import logging.



End Rendering.

Section JsonNeverRaises.
Context {RT : PyRuntime}.
Import logging_handlers json_logger.

End JsonNeverRaises.

Section TextNeverRaises.
Import logging_handlers app_logger.

End TextNeverRaises.


(* ================================================================== *)
(** * The writers: the states a handler goes through                    *)
(* ================================================================== *)


Section JsonInvariant.
Context {RT : PyRuntime}.
Import logging_handlers json_logger.

Lemma json_init_consistent env dir enc m w h s' :
  __init__ env dir enc m (tt, w) = (Ok h, s') ->
  json_handler_consistent h /\ mode (base h) = m.
Proof.
  intros H. cbv [__init__] in H. unfold_monad_in H.
  repeat split_atom H. injection H as <- _.
  split; [intros p Hp; discriminate | reflexivity].
Qed.

Lemma json_emit_keeps_consistent env record h w r h' w' :
  emit env record (h, w) = (r, (h', w')) ->
  json_handler_consistent h ->
  json_handler_consistent h' /\ mode (base h') = mode (base h).
Proof.
  intros H Hwf.
  destruct h as [[hid hlevel hfmt hbase hmode henc hst hclosed] hdir hcur].
  unfold json_handler_consistent in *.
  cbn [base log_dir _current_file mode stream baseFilename] in *.
  cbv [emit emit_try _get_current_log_file
       base log_dir _current_file mode stream baseFilename
       with_base set_stream set_baseFilename set__current_file] in H.
  unfold_monad_in H.
  remember (log_file_of hdir (now env)) as cand eqn:Hcand.
  destruct (path_ne_opt cand hcur) eqn:Hne.
  - repeat split_atom H; injection H as _ <- _;
      cbn [base log_dir _current_file mode stream baseFilename];
      (split; [|reflexivity]);
      first [ exact Hwf
            | intros p Hp; injection Hp as <-; split;
              [reflexivity | intros st' Hst'; first [discriminate Hst' | injection Hst' as <-; reflexivity]] ].
  - repeat split_atom H; injection H as _ <- _;
      cbn [base log_dir _current_file mode stream baseFilename];
      (split; [|reflexivity]); exact Hwf.
Qed.

Lemma json_reachable_consistent h :
  json_reachable h -> json_handler_consistent h /\ mode (base h) = mode_a.
Proof.
  induction 1 as [env dir enc w h s' Hinit | h lvl _ [IH1 IH2]
                 | env record h w r h' w' _ [IH1 IH2] Hemit].
  - now apply json_init_consistent in Hinit.
  - split; [exact IH1 | exact IH2].
  - apply json_emit_keeps_consistent in Hemit; [|exact IH1].
    destruct Hemit as [H1 H2]. split; [exact H1 | congruence].
Qed.
End JsonInvariant.

Section TextInvariant.
Import logging_handlers app_logger.

Lemma text_init_consistent env dir enc m w h s' :
  __init__ env dir enc m (tt, w) = (Ok h, s') ->
  text_handler_consistent h /\ mode (base h) = m.
Proof.
  intros H. cbv [__init__] in H. unfold_monad_in H.
  repeat split_atom H. injection H as <- _.
  split; [intros p Hp; discriminate | reflexivity].
Qed.

Lemma text_emit_keeps_consistent env record h w r h' w' :
  emit env record (h, w) = (r, (h', w')) ->
  text_handler_consistent h ->
  text_handler_consistent h' /\ mode (base h') = mode (base h).
Proof.
  intros H Hwf.
  destruct h as [[hid hlevel hfmt hbase hmode henc hst hclosed] hdir hdate hcur].
  unfold text_handler_consistent in *.
  cbn [base log_dir _current_file mode stream baseFilename] in *.
  cbv [emit emit_try _get_current_log_file
       base log_dir _current_file mode stream baseFilename formatter _closed
       with_base set_stream set_baseFilename set__current_file] in H.
  unfold_monad_in H.
  cbv [base log_dir _current_file mode stream baseFilename formatter _closed
       with_base set_stream set_baseFilename set__current_file] in H.
  remember (log_file_of hdir (now env)) as cand eqn:Hcand.
  destruct (path_ne_opt cand hcur) eqn:Hne.
  - repeat split_atom H; injection H as _ <- _;
      cbn [base log_dir _current_file mode stream baseFilename];
      (split; [|reflexivity]);
      first [ exact Hwf
            | intros p Hp; injection Hp as <-; split;
              [reflexivity | intros st' Hst'; first [discriminate Hst' | injection Hst' as <-; reflexivity]] ].
  - apply path_ne_opt_false in Hne.
    destruct (Hwf _ Hne) as [Hbase Hst].
    repeat split_atom H; injection H as _ <- _;
      cbn [base log_dir _current_file mode stream baseFilename];
      (split; [|reflexivity]);
      first [ exact Hwf
            | intros p Hp; rewrite Hne in Hp; injection Hp as <-; split;
              [exact Hbase | intros st' Hst'; injection Hst' as <-; cbn [st_name]; exact Hbase] ].
Qed.

Lemma text_reachable_consistent h :
  text_reachable h -> text_handler_consistent h /\ mode (base h) = mode_a.
Proof.
  induction 1 as [env dir enc w h s' Hinit | h lvl _ [IH1 IH2]
                 | h f _ [IH1 IH2]
                 | env record h w r h' w' _ [IH1 IH2] Hemit].
  - now apply text_init_consistent in Hinit.
  - split; [exact IH1 | exact IH2].
  - split; [exact IH1 | exact IH2].
  - apply text_emit_keeps_consistent in Hemit; [|exact IH1].
    destruct Hemit as [H1 H2]. split; [exact H1 | congruence].
Qed.
End TextInvariant.

(** C1. Every call of [emit], of the JSON handler and of the text handler,
    computes the path of the log file from the wall clock of that call:
    [log_file_of (log_dir h) (now env)], the directory, the date of [now] as
    DD_MM_YY and the suffix.  For a handler in any state it can reach, when
    no file operation fails and the record renders, the call ends with that
    path as the last-opened path, and its events, latest first, are: the line
    flushed, the line written to that path, and before them, when the path
    differs from the last-opened one (also when nothing was opened yet), the
    path opened in append mode after the open stream was closed.  The line
    and its newline are appended to the file of that path, and no other file
    changes. *)
Theorem emit_appends_to_file_of_current_date {RT : PyRuntime} :
  (forall env h w record line,
      json_reachable h ->
      no_io_failure env ->
      json_logger._serialize_record record = Ok line ->
      exists h' w' pre,
        json_logger.emit env record (h, w) = (Ok tt, (h', w'))
        /\ json_logger._current_file h'
           = Some (json_logger.log_file_of (json_logger.log_dir h) (now env))
        /\ json_reachable h'
        /\ events w'
           = Flushed (json_logger.log_file_of (json_logger.log_dir h) (now env))
             :: Wrote (json_logger.log_file_of (json_logger.log_dir h) (now env))
                      (line ++ [10%N])
             :: pre ++ events w
        /\ (path_ne_opt (json_logger.log_file_of (json_logger.log_dir h) (now env))
                        (json_logger._current_file h) = true ->
            pre = Opened (json_logger.log_file_of (json_logger.log_dir h) (now env))
                         mode_a
                  :: closing (logging_handlers.stream (json_logger.base h)))
        /\ (path_ne_opt (json_logger.log_file_of (json_logger.log_dir h) (now env))
                        (json_logger._current_file h) = false ->
            pre = match logging_handlers.stream (json_logger.base h) with
                  | Some _ => []
                  | None =>
                      [Opened (json_logger.log_file_of (json_logger.log_dir h)
                                                       (now env)) mode_a]
                  end)
        /\ dict_lookup (files w')
                       (json_logger.log_file_of (json_logger.log_dir h) (now env))
           = Some (dict_get (files w)
                            (json_logger.log_file_of (json_logger.log_dir h) (now env))
                            []
                   ++ line ++ [10%N])
        /\ (forall p,
               p <> json_logger.log_file_of (json_logger.log_dir h) (now env) ->
               dict_lookup (files w') p = dict_lookup (files w) p))
  /\ (forall env h w record msg,
      text_reachable h ->
      no_io_failure env ->
      logging_handlers.format (logging_handlers.formatter (app_logger.base h)) record
      = Ok msg ->
      exists h' w' pre,
        app_logger.emit env record (h, w) = (Ok tt, (h', w'))
        /\ app_logger._current_file h'
           = Some (app_logger.log_file_of (app_logger.log_dir h) (now env))
        /\ text_reachable h'
        /\ events w'
           = Flushed (app_logger.log_file_of (app_logger.log_dir h) (now env))
             :: Flushed (app_logger.log_file_of (app_logger.log_dir h) (now env))
             :: Wrote (app_logger.log_file_of (app_logger.log_dir h) (now env))
                      (msg ++ [10%N])
             :: pre ++ events w
        /\ (path_ne_opt (app_logger.log_file_of (app_logger.log_dir h) (now env))
                        (app_logger._current_file h) = true ->
            pre = Opened (app_logger.log_file_of (app_logger.log_dir h) (now env))
                         mode_a
                  :: closing (logging_handlers.stream (app_logger.base h)))
        /\ (path_ne_opt (app_logger.log_file_of (app_logger.log_dir h) (now env))
                        (app_logger._current_file h) = false ->
            pre = match logging_handlers.stream (app_logger.base h) with
                  | Some _ => []
                  | None =>
                      [Opened (app_logger.log_file_of (app_logger.log_dir h)
                                                      (now env)) mode_a]
                  end)
        /\ dict_lookup (files w')
                       (app_logger.log_file_of (app_logger.log_dir h) (now env))
           = Some (dict_get (files w)
                            (app_logger.log_file_of (app_logger.log_dir h) (now env))
                            []
                   ++ msg ++ [10%N])
        /\ (forall p,
               p <> app_logger.log_file_of (app_logger.log_dir h) (now env) ->
               dict_lookup (files w') p = dict_lookup (files w) p)).
Proof.
  split.
  - intros env h w record line Hreach Hio Hser.
    destruct (json_reachable_consistent Hreach) as [Hwf Hmode].
    destruct (@json_emit_appends RT env h w record line Hwf Hmode Hio Hser)
      as (h' & w' & pre & He & H1 & _ & H3 & H4 & H5 & H6 & H7).
    exists h', w', pre. split; [exact He|]. split; [exact H1|].
    split; [eapply json_emitted; [exact Hreach | exact He]|].
    repeat (split; [assumption|]). assumption.
  - intros env h w record msg Hreach Hio Hfmt.
    destruct (text_reachable_consistent Hreach) as [Hwf Hmode].
    destruct (@text_emit_appends env h w record msg Hwf Hmode Hio Hfmt)
      as (h' & w' & pre & He & H1 & _ & H3 & H4 & H5 & H6 & H7).
    exists h', w', pre. split; [exact He|]. split; [exact H1|].
    split; [eapply text_emitted; [exact Hreach | exact He]|].
    repeat (split; [assumption|]). assumption.
Qed.

(** A handler created before midnight emits after midnight: the file of
    the old day is closed and the file of the new day is opened and written. *)
Lemma emit_appends_to_file_of_current_date_witness :
  (exists h' w',
      @json_logger.emit sample_runtime (calm after_midnight) sample_record
        (new_json_handler, empty_world) = (Ok tt, (h', w'))
      /\ json_logger._current_file h' = Some (py "logs/app/10_03_25_logs.ndjson")
      /\ exists line,
           events w'
           = [ Flushed (py "logs/app/10_03_25_logs.ndjson");
               Wrote (py "logs/app/10_03_25_logs.ndjson") (line ++ [10%N]);
               Opened (py "logs/app/10_03_25_logs.ndjson") mode_a;
               Closed (py "logs/app/09_03_25_logs.ndjson") ])
  /\ (exists h' w',
      app_logger.emit (calm after_midnight) sample_record
        (new_text_handler, empty_world) = (Ok tt, (h', w'))
      /\ app_logger._current_file h' = Some (py "logs/app/10_03_25_logs.log")
      /\ exists msg,
           events w'
           = [ Flushed (py "logs/app/10_03_25_logs.log");
               Flushed (py "logs/app/10_03_25_logs.log");
               Wrote (py "logs/app/10_03_25_logs.log") (msg ++ [10%N]);
               Opened (py "logs/app/10_03_25_logs.log") mode_a;
               Closed (py "logs/app/09_03_25_logs.log") ]).
Proof.
  destruct (@emit_appends_to_file_of_current_date sample_runtime) as [Hjson Htext].
  split.
  - destruct (Hjson (calm after_midnight) new_json_handler empty_world sample_record
                (@json_dumps sample_runtime
                   (json_logger.asdict
                      {| json_logger.time := py "2025-03-09 23:59:58";
                         json_logger.logger := py "app";
                         json_logger.level := py "INFO";
                         json_logger.file := py "main.py";
                         json_logger.thread := py "MainThread";
                         json_logger.message := py "started";
                         json_logger.exc_type := None;
                         json_logger.exc_message := None;
                         json_logger.exc_traceback := None |})))
      as (h' & w' & pre & He & Hcur & _ & Hev & Hpre & _).
    + apply (@json_created sample_runtime (calm before_midnight) (py "logs/app")
               (py "utf-8") empty_world new_json_handler
               (tt, with_next_id
                      (log_event
                         (with_files empty_world
                            [(py "logs/app/09_03_25_logs.ndjson", [])])
                         (Opened (py "logs/app/09_03_25_logs.ndjson") mode_a)) 1)).
      vm_compute. reflexivity.
    + repeat split; reflexivity.
    + vm_compute. reflexivity.
    + exists h', w'. split; [exact He|]. split; [exact Hcur|].
      eexists. rewrite Hev, (Hpre eq_refl). reflexivity.
  - destruct (Htext (calm after_midnight) new_text_handler empty_world sample_record
                (py "started"))
      as (h' & w' & pre & He & Hcur & _ & Hev & Hpre & _).
    + apply (@text_created (calm before_midnight) (py "logs/app")
               (py "utf-8") empty_world new_text_handler
               (tt, with_next_id
                      (log_event
                         (with_files empty_world
                            [(py "logs/app/09_03_25_logs.log", [])])
                         (Opened (py "logs/app/09_03_25_logs.log") mode_a)) 1)).
      vm_compute. reflexivity.
    + repeat split; reflexivity.
    + vm_compute. reflexivity.
    + exists h', w'. split; [exact He|]. split; [exact Hcur|].
      eexists. rewrite Hev, (Hpre eq_refl). reflexivity.
Defined.


(* ================================================================== *)
(** * The factories                                                     *)
(* ================================================================== *)


Lemma str_eqb_sym (a b : pystr) : str_eqb a b = str_eqb b a.
Proof.
  destruct (str_eqb a b) eqn:E.
  - apply str_eqb_eq in E. subst. now rewrite str_eqb_refl.
  - symmetry. apply str_eqb_neq. apply str_eqb_neq in E. congruence.
Qed.

Lemma levels_map_get (level : pystr) :
  dict_get logging_handlers.levels_map level logging.INFO = level_of_name level.
Proof.
  unfold dict_get, logging_handlers.levels_map, level_of_name. cbn [dict_lookup].
  rewrite !(str_eqb_sym level).
  repeat match goal with
         | |- context [str_eqb ?a level] => destruct (str_eqb a level)
         end; reflexivity.
Qed.

Lemma level_of_name_other (level : pystr) :
  ~ In level level_names -> level_of_name level = logging.INFO.
Proof.
  intros H. unfold level_of_name.
  repeat match goal with
         | |- context [str_eqb level ?a] =>
             destruct (str_eqb level a) eqn:?;
             [exfalso; apply H;
              match goal with E : str_eqb _ _ = true |- _ =>
                apply str_eqb_eq in E; subst; cbv; tauto end|]
         end.
  reflexivity.
Qed.

Lemma bindM_Ok_inv (St A B : Type) (m : M St A) (k : A -> M St B)
                   (s s2 : St) (b : B) :
  bindM m k s = (Ok b, s2) ->
  exists a s1, m s = (Ok a, s1) /\ k a s1 = (Ok b, s2).
Proof.
  unfold bindM. destruct (m s) as [[a|e] s1]; [eauto | discriminate].
Qed.

Lemma next_id_with_next_id (w : World) (n : nat) : next_id (with_next_id w n) = n.
Proof. reflexivity. Qed.

Lemma eqb_succ_false (n : nat) : Nat.eqb n (S n) = false.
Proof. apply Nat.eqb_neq. lia. Qed.

Section Factories.
Import logging_handlers.

Lemma mkdir_exist_ok_inv env path (w : World) (s' : unit * World) :
  mkdir_exist_ok env path (tt, w) = (Ok tt, s') ->
  exists w', s' = (tt, w') /\ next_id w' = next_id w /\ files w' = files w
             /\ events w' = events w /\ stderr w' = stderr w.
Proof.
  unfold mkdir_exist_ok, system_call, on_world, bindM, gets, modify, ret, raise.
  destruct (mkdir_error env); [discriminate|].
  cbv beta iota delta [fst snd].
  destruct (dict_lookup (files w) path); [discriminate|].
  intros H. injection H as <-.
  eexists. split; [reflexivity|].
  destruct (existsb (path_eqb path) (dirs w)); repeat split; reflexivity.
Qed.

Lemma Logger_init_inv (Hd : Type) name lvl (w : World) (lg : Logger Hd) s' :
  Logger_init name lvl (tt, w) = (Ok lg, s') ->
  lg = mkLogger (next_id w) name lvl [] /\ s' = (tt, with_next_id w (S (next_id w))).
Proof.
  unfold Logger_init, new_id, on_world, bindM, gets, modify, ret. cbn [fst snd].
  intros H. injection H as <- <-. split; reflexivity.
Qed.

Lemma StreamHandler_init_inv (w : World) (h : StreamHandler) s' :
  StreamHandler_init (tt, w) = (Ok h, s') ->
  h = mkStreamHandler (next_id w) 0 None /\ s' = (tt, with_next_id w (S (next_id w))).
Proof.
  unfold StreamHandler_init, new_id, on_world, bindM, gets, modify, ret. cbn [fst snd].
  intros H. injection H as <- <-. split; reflexivity.
Qed.

Lemma json_init_inv env dir enc m (w : World) h s' :
  json_logger.__init__ env dir enc m (tt, w) = (Ok h, s') ->
  h = {| json_logger.base :=
           {| id := next_id w; level := 0; formatter := None;
              baseFilename := json_logger.log_file_of dir (now env);
              mode := m; encoding := enc;
              stream := Some (mkStream (json_logger.log_file_of dir (now env)));
              _closed := false |};
         json_logger.log_dir := dir;
         json_logger._current_file := None |}
  /\ exists w', s' = (tt, w') /\ next_id w' = S (next_id w)
                /\ events w'
                   = Opened (json_logger.log_file_of dir (now env)) m :: events w.
Proof.
  unfold json_logger.__init__, open_, new_id, system_call, on_world, bindM, gets,
    modify, ret, raise. cbn [fst snd].
  destruct (open_error env); [discriminate|].
  intros H. injection H as <- <-. split; [reflexivity|].
  eexists. repeat split; reflexivity.
Qed.

Lemma text_init_inv env dir enc m (w : World) h s' :
  app_logger.__init__ env dir enc m (tt, w) = (Ok h, s') ->
  h = {| app_logger.base :=
           {| id := next_id w; level := 0; formatter := None;
              baseFilename := app_logger.log_file_of dir (now env);
              mode := m; encoding := enc;
              stream := Some (mkStream (app_logger.log_file_of dir (now env)));
              _closed := false |};
         app_logger.log_dir := dir;
         app_logger._current_date := None;
         app_logger._current_file := None |}
  /\ exists w', s' = (tt, w') /\ next_id w' = S (next_id w)
                /\ events w'
                   = Opened (app_logger.log_file_of dir (now env)) m :: events w.
Proof.
  unfold app_logger.__init__, open_, new_id, system_call, on_world, bindM, gets,
    modify, ret, raise. cbn [fst snd].
  destruct (open_error env); [discriminate|].
  intros H. injection H as <- <-. split; [reflexivity|].
  eexists. repeat split; reflexivity.
Qed.

(** What a call of the JSON factory returns: a logger object that did not
    exist before, with a file handler that did not exist before. *)
Lemma get_json_app_logger_result env name level_name to_console w lg s' :
  json_logger.get_json_app_logger env name level_name to_console (tt, w)
  = (Ok lg, s') ->
  exists fh rest w',
    s' = (tt, w')
    /\ lg = mkLogger (next_id w) name (level_of_name level_name)
                     (json_logger.File fh :: rest)
    /\ id (json_logger.base fh) = S (next_id w)
    /\ level (json_logger.base fh) = level_of_name level_name
    /\ mode (json_logger.base fh) = mode_a
    /\ baseFilename (json_logger.base fh)
       = json_logger.log_file_of (joinpath (py "logs") name) (now env)
    /\ json_logger.log_dir fh = joinpath (py "logs") name
    /\ json_logger._current_file fh = None
    /\ rest = (if to_console
               then [json_logger.Console
                       (mkStreamHandler (S (S (next_id w)))
                                        (level_of_name level_name)
                                        (Some log_format))]
               else [])
    /\ next_id w' = (if to_console then 3 else 2) + next_id w.
Proof.
  intros H. unfold json_logger.get_json_app_logger in H.
  rewrite levels_map_get in H.
  apply bindM_Ok_inv in H. destruct H as ([] & s1 & Hm1 & H).
  apply mkdir_exist_ok_inv in Hm1. destruct Hm1 as (w1 & -> & Hn1 & _).
  apply bindM_Ok_inv in H. destruct H as ([] & s2 & Hm2 & H).
  apply mkdir_exist_ok_inv in Hm2. destruct Hm2 as (w2 & -> & Hn2 & _).
  apply bindM_Ok_inv in H. destruct H as (lg0 & s3 & Hl & H).
  apply Logger_init_inv in Hl. destruct Hl as [-> ->].
  cbv [Logger_setLevel is_empty handlers logger_id logger_name logger_level] in H.
  apply bindM_Ok_inv in H. destruct H as (fh & s4 & Hi & H).
  apply json_init_inv in Hi. destruct Hi as (-> & w4 & -> & Hn4 & _).
  rewrite next_id_with_next_id in Hn4.
  cbv [addHandler handlers existsb app logger_id logger_name logger_level
       json_logger.handler_id json_logger.base json_logger.with_base setLevel id
       console_id] in H.
  rewrite ?next_id_with_next_id in H.
  destruct to_console.
  - apply bindM_Ok_inv in H. destruct H as (sh & s5 & Hs & H).
    apply StreamHandler_init_inv in Hs. destruct Hs as [-> ->].
    cbv [addHandler handlers existsb app console_id ret] in H.
    rewrite ?next_id_with_next_id, ?Hn4 in H. cbn [Nat.eqb] in H.
    rewrite eqb_succ_false in H.
    cbn [orb app] in H. injection H as <- <-.
    eexists _, _, _. split; [reflexivity|].
    repeat split; rewrite ?next_id_with_next_id, ?Hn4, ?Hn2, ?Hn1; reflexivity.
  - unfold ret in H. injection H as <- <-.
    eexists _, _, _. split; [reflexivity|].
    repeat split; rewrite ?next_id_with_next_id, ?Hn4, ?Hn2, ?Hn1; reflexivity.
Qed.

Lemma get_app_logger_result env name level_name to_console w lg s' :
  app_logger.get_app_logger env name level_name to_console (tt, w)
  = (Ok lg, s') ->
  exists fh rest w',
    s' = (tt, w')
    /\ lg = mkLogger (next_id w) name (level_of_name level_name)
                     (app_logger.File fh :: rest)
    /\ id (app_logger.base fh) = S (next_id w)
    /\ level (app_logger.base fh) = level_of_name level_name
    /\ mode (app_logger.base fh) = mode_a
    /\ baseFilename (app_logger.base fh)
       = app_logger.log_file_of (joinpath (py "logs") name) (now env)
    /\ app_logger.log_dir fh = joinpath (py "logs") name
    /\ app_logger._current_file fh = None
    /\ rest = (if to_console
               then [app_logger.Console
                       (mkStreamHandler (S (S (next_id w)))
                                        (level_of_name level_name)
                                        (Some log_format))]
               else [])
    /\ next_id w' = (if to_console then 3 else 2) + next_id w.
Proof.
  intros H. unfold app_logger.get_app_logger in H.
  rewrite levels_map_get in H.
  apply bindM_Ok_inv in H. destruct H as ([] & s1 & Hm1 & H).
  apply mkdir_exist_ok_inv in Hm1. destruct Hm1 as (w1 & -> & Hn1 & _).
  apply bindM_Ok_inv in H. destruct H as ([] & s2 & Hm2 & H).
  apply mkdir_exist_ok_inv in Hm2. destruct Hm2 as (w2 & -> & Hn2 & _).
  apply bindM_Ok_inv in H. destruct H as (lg0 & s3 & Hl & H).
  apply Logger_init_inv in Hl. destruct Hl as [-> ->].
  cbv [Logger_setLevel is_empty handlers logger_id logger_name logger_level] in H.
  apply bindM_Ok_inv in H. destruct H as (fh & s4 & Hi & H).
  apply text_init_inv in Hi. destruct Hi as (-> & w4 & -> & Hn4 & _).
  rewrite next_id_with_next_id in Hn4.
  cbv [addHandler handlers existsb app logger_id logger_name logger_level
       app_logger.handler_id app_logger.base app_logger.with_base setLevel
       setFormatter id console_id] in H.
  rewrite ?next_id_with_next_id in H.
  destruct to_console.
  - apply bindM_Ok_inv in H. destruct H as (sh & s5 & Hs & H).
    apply StreamHandler_init_inv in Hs. destruct Hs as [-> ->].
    cbv [addHandler handlers existsb app console_id ret] in H.
    rewrite ?next_id_with_next_id, ?Hn4 in H. cbn [Nat.eqb] in H.
    rewrite eqb_succ_false in H.
    cbn [orb app] in H. injection H as <- <-.
    eexists _, _, _. split; [reflexivity|].
    repeat split; rewrite ?next_id_with_next_id, ?Hn4, ?Hn2, ?Hn1; reflexivity.
  - unfold ret in H. injection H as <- <-.
    eexists _, _, _. split; [reflexivity|].
    repeat split; rewrite ?next_id_with_next_id, ?Hn4, ?Hn2, ?Hn1; reflexivity.
Qed.
End Factories.

(** C9. The logger that [get_json_app_logger] or [get_app_logger] returns
    and all its handlers, the file handler first, are set to the level of
    the level name: 10 for [DEBUG], 50 for [FATAL], 40 for [ERROR], 30 for
    [WARN], 20 for [INFO], and [INFO] (20) for every other string. *)
Theorem factories_configure_level (env : Env) (name level_name : pystr)
                                  (to_console : bool) (w : World) :
  (forall lg s',
      json_logger.get_json_app_logger env name level_name to_console (tt, w)
      = (Ok lg, s') ->
      logging_handlers.logger_level lg = level_of_name level_name
      /\ (exists fh rest,
             logging_handlers.handlers lg = json_logger.File fh :: rest
             /\ logging_handlers.level (json_logger.base fh)
                = level_of_name level_name)
      /\ Forall (fun h => json_logger.handler_level h = level_of_name level_name)
                (logging_handlers.handlers lg))
  /\ (forall lg s',
      app_logger.get_app_logger env name level_name to_console (tt, w)
      = (Ok lg, s') ->
      logging_handlers.logger_level lg = level_of_name level_name
      /\ (exists fh rest,
             logging_handlers.handlers lg = app_logger.File fh :: rest
             /\ logging_handlers.level (app_logger.base fh)
                = level_of_name level_name)
      /\ Forall (fun h => app_logger.handler_level h = level_of_name level_name)
                (logging_handlers.handlers lg))
  /\ level_of_name "DEBUG" = logging.DEBUG
  /\ level_of_name "FATAL" = logging.FATAL
  /\ level_of_name "ERROR" = logging.ERROR
  /\ level_of_name "WARN" = logging.WARN
  /\ level_of_name "INFO" = logging.INFO
  /\ (~ In level_name level_names -> level_of_name level_name = logging.INFO).
Proof.
  split; [|split].
  - intros lg s' H.
    apply get_json_app_logger_result in H.
    destruct H as (fh & rest & w' & _ & -> & _ & Hlvl & _ & _ & _ & _ & -> & _).
    cbn [logging_handlers.logger_level logging_handlers.handlers].
    split; [reflexivity|]. split; [eauto|].
    constructor; [exact Hlvl|].
    destruct to_console; repeat constructor.
  - intros lg s' H.
    apply get_app_logger_result in H.
    destruct H as (fh & rest & w' & _ & -> & _ & Hlvl & _ & _ & _ & _ & -> & _).
    cbn [logging_handlers.logger_level logging_handlers.handlers].
    split; [reflexivity|]. split; [eauto|].
    constructor; [exact Hlvl|].
    destruct to_console; repeat constructor.
  - repeat (split; [reflexivity|]). apply level_of_name_other.
Qed.

(** The level [WARN] with a console, and a level name that is not known. *)
Lemma factories_configure_level_witness :
  (exists lg s',
      json_logger.get_json_app_logger (calm before_midnight) (py "app") (py "WARN")
        true (tt, empty_world) = (Ok lg, s')
      /\ logging_handlers.logger_level lg = 30%Z
      /\ List.map json_logger.handler_level (logging_handlers.handlers lg)
         = [30%Z; 30%Z])
  /\ (exists lg s',
      app_logger.get_app_logger (calm before_midnight) (py "app") (py "TRACE")
        false (tt, empty_world) = (Ok lg, s')
      /\ logging_handlers.logger_level lg = 20%Z
      /\ List.map app_logger.handler_level (logging_handlers.handlers lg)
         = [20%Z]).
Proof.
  split.
  - destruct (@factories_configure_level (calm before_midnight) (py "app")
                (py "WARN") true empty_world) as (Hjson & _).
    eexists _, _. split; [vm_compute; reflexivity|].
    split; [|vm_compute; reflexivity].
    refine (proj1 (Hjson _ _ _)). vm_compute. reflexivity.
  - destruct (@factories_configure_level (calm before_midnight) (py "app")
                (py "TRACE") false empty_world) as (_ & Htext & _).
    eexists _, _. split; [vm_compute; reflexivity|].
    split; [|vm_compute; reflexivity].
    refine (proj1 (Htext _ _ _)). vm_compute. reflexivity.
Defined.

(** C4. What the factories do when they are called twice for one name: the
    second call returns a new logger object (identity 2, where the first has
    0) that carries a file handler of its own (identity 3, where the first
    has 1) on the same file, which is opened a second time.  The logger is
    constructed at every call and starts without handlers, so the test
    [if not logger.handlers] always succeeds. *)
Theorem second_call_attaches_second_writer :
  (exists lg1 lg2 w1 w2 fh1 fh2,
      json_logger.get_json_app_logger (calm before_midnight) (py "app") (py "INFO")
        false (tt, empty_world) = (Ok lg1, (tt, w1))
      /\ json_logger.get_json_app_logger (calm before_midnight) (py "app")
           (py "INFO") false (tt, w1) = (Ok lg2, (tt, w2))
      /\ logging_handlers.handlers lg1 = [json_logger.File fh1]
      /\ logging_handlers.handlers lg2 = [json_logger.File fh2]
      /\ logging_handlers.logger_id lg1 = 0
      /\ logging_handlers.logger_id lg2 = 2
      /\ logging_handlers.id (json_logger.base fh1) = 1
      /\ logging_handlers.id (json_logger.base fh2) = 3
      /\ logging_handlers.baseFilename (json_logger.base fh1)
         = py "logs/app/09_03_25_logs.ndjson"
      /\ logging_handlers.baseFilename (json_logger.base fh2)
         = py "logs/app/09_03_25_logs.ndjson"
      /\ events w2 = [ Opened (py "logs/app/09_03_25_logs.ndjson") mode_a;
                       Opened (py "logs/app/09_03_25_logs.ndjson") mode_a ])
  /\ (exists lg1 lg2 w1 w2 fh1 fh2,
      app_logger.get_app_logger (calm before_midnight) (py "app") (py "INFO")
        false (tt, empty_world) = (Ok lg1, (tt, w1))
      /\ app_logger.get_app_logger (calm before_midnight) (py "app")
           (py "INFO") false (tt, w1) = (Ok lg2, (tt, w2))
      /\ logging_handlers.handlers lg1 = [app_logger.File fh1]
      /\ logging_handlers.handlers lg2 = [app_logger.File fh2]
      /\ logging_handlers.logger_id lg1 = 0
      /\ logging_handlers.logger_id lg2 = 2
      /\ logging_handlers.id (app_logger.base fh1) = 1
      /\ logging_handlers.id (app_logger.base fh2) = 3
      /\ logging_handlers.baseFilename (app_logger.base fh1)
         = py "logs/app/09_03_25_logs.log"
      /\ logging_handlers.baseFilename (app_logger.base fh2)
         = py "logs/app/09_03_25_logs.log"
      /\ events w2 = [ Opened (py "logs/app/09_03_25_logs.log") mode_a;
                       Opened (py "logs/app/09_03_25_logs.log") mode_a ]).
Proof.
  split; eexists _, _, _, _, _, _;
    (split; [vm_compute; reflexivity|]);
    (split; [vm_compute; reflexivity|]);
    repeat split; vm_compute; reflexivity.
Qed.

(* ================================================================== *)
(** * More on the writers: what an [emit] does to the files         *)
(* ================================================================== *)


Section TextTwice.
Import logging_handlers app_logger.

End TextTwice.

Section JsonFailures.
Context {RT : PyRuntime}.
Import logging_handlers json_logger.



End JsonFailures.

Section TextFailures.
Import logging_handlers app_logger.


End TextFailures.

Lemma dict_get_setitem_same (V : Type) (d : list (pystr * V)) (k : pystr) (v dflt : V) :
  dict_get (dict_setitem d k v) k dflt = v.
Proof. unfold dict_get. now rewrite dict_lookup_setitem_same. Qed.

Lemma dict_get_setitem_other (V : Type) (d : list (pystr * V)) (k k' : pystr) (v dflt : V) :
  k <> k' -> dict_get (dict_setitem d k v) k' dflt = dict_get d k' dflt.
Proof. intros H. unfold dict_get. now rewrite dict_lookup_setitem_other. Qed.

Lemma appended_refl (cand : pystr) (fs : Files) : appended_only_to cand fs fs.
Proof. intros p. exists []. split; [now rewrite app_nil_r | reflexivity]. Qed.

Lemma appended_open (cand : pystr) (fs : Files) :
  appended_only_to cand fs (files_after_open fs cand mode_a).
Proof.
  intros p. exists []. rewrite files_after_open_a.
  split; [now rewrite app_nil_r | reflexivity].
Qed.

Lemma appended_write (cand : pystr) (fs fs' : Files) (text : pystr) :
  appended_only_to cand fs fs' ->
  appended_only_to cand fs (files_after_write fs' cand text).
Proof.
  intros H p. destruct (H p) as (suffix & Hs & Hother).
  unfold files_after_write.
  destruct (str_eqb cand p) eqn:E.
  - apply str_eqb_eq in E. subst p. exists (suffix ++ text).
    rewrite dict_get_setitem_same, Hs, app_assoc. split; [reflexivity|].
    intros Hne. now contradiction Hne.
  - apply str_eqb_neq in E. exists suffix.
    rewrite dict_get_setitem_other by exact E. split; [exact Hs | exact Hother].
Qed.

Section JsonAppendOnly.
Context {RT : PyRuntime}.
Import logging_handlers json_logger.

Lemma json_emit_appends_only (env : Env) (record : logging.LogRecord)
      (h : DailyJsonRotatingFileHandler) (w : World)
      (r : result unit) (h' : DailyJsonRotatingFileHandler) (w' : World) :
  json_handler_consistent h ->
  mode (base h) = mode_a ->
  emit env record (h, w) = (r, (h', w')) ->
  appended_only_to (log_file_of (log_dir h) (now env)) (files w) (files w')
  /\ log_dir h' = log_dir h.
Proof.
  intros Hwf Hmode H.
  destruct h as [[hid hlevel hfmt hbase hmode henc hst hclosed] hdir hcur].
  unfold json_handler_consistent in *.
  cbn [base log_dir _current_file mode stream baseFilename] in *. subst hmode.
  cbv [emit emit_try _get_current_log_file
       base log_dir _current_file mode stream baseFilename
       with_base set_stream set_baseFilename set__current_file] in H.
  unfold_monad_in H.
  remember (log_file_of hdir (now env)) as cand eqn:Hcand.
  destruct (path_ne_opt cand hcur) eqn:Hne.
  - repeat split_atom H; injection H as _ <- <-;
      cbn [log_dir files report log_event with_files st_name];
      (split; [|reflexivity]);
      repeat first [ apply appended_refl | apply appended_open
                   | apply appended_write ].
  - apply path_ne_opt_false in Hne.
    destruct (Hwf _ Hne) as [Hbase Hst]. subst hbase.
    destruct hst as [[stn]|].
    + specialize (Hst _ eq_refl). cbn [st_name] in Hst. subst stn.
      repeat split_atom H; injection H as _ <- <-;
        cbn [log_dir files report log_event with_files st_name];
        (split; [|reflexivity]);
        repeat first [ apply appended_refl | apply appended_open
                     | apply appended_write ].
    + repeat split_atom H; injection H as _ <- <-;
        cbn [log_dir files report log_event with_files st_name];
        (split; [|reflexivity]);
        repeat first [ apply appended_refl | apply appended_open
                     | apply appended_write ].
Qed.
End JsonAppendOnly.

Section TextAppendOnly.
Import logging_handlers app_logger.

Lemma text_emit_appends_only (env : Env) (record : logging.LogRecord)
      (h : DailyRotatingFileHandler) (w : World)
      (r : result unit) (h' : DailyRotatingFileHandler) (w' : World) :
  text_handler_consistent h ->
  mode (base h) = mode_a ->
  emit env record (h, w) = (r, (h', w')) ->
  appended_only_to (log_file_of (log_dir h) (now env)) (files w) (files w')
  /\ log_dir h' = log_dir h.
Proof.
  intros Hwf Hmode H.
  destruct h as [[hid hlevel hfmt hbase hmode henc hst hclosed] hdir hdate hcur].
  unfold text_handler_consistent in *.
  cbn [base log_dir _current_file mode stream baseFilename] in *. subst hmode.
  cbv [emit emit_try _get_current_log_file
       base log_dir _current_file mode stream baseFilename formatter _closed
       with_base set_stream set_baseFilename set__current_file] in H.
  unfold_monad_in H.
  cbv [base log_dir _current_file mode stream baseFilename formatter _closed
       with_base set_stream set_baseFilename set__current_file] in H.
  remember (log_file_of hdir (now env)) as cand eqn:Hcand.
  destruct (path_ne_opt cand hcur) eqn:Hne.
  - repeat split_atom H; injection H as _ <- <-;
      cbn [log_dir files report log_event with_files st_name];
      (split; [|reflexivity]);
      repeat first [ apply appended_refl | apply appended_open
                   | apply appended_write ].
  - apply path_ne_opt_false in Hne.
    destruct (Hwf _ Hne) as [Hbase Hst]. subst hbase.
    destruct hst as [[stn]|].
    + specialize (Hst _ eq_refl). cbn [st_name] in Hst. subst stn.
      repeat split_atom H; injection H as _ <- <-;
        cbn [log_dir files report log_event with_files st_name];
        (split; [|reflexivity]);
        repeat first [ apply appended_refl | apply appended_open
                     | apply appended_write ].
    + repeat split_atom H; injection H as _ <- <-;
        cbn [log_dir files report log_event with_files st_name];
        (split; [|reflexivity]);
        repeat first [ apply appended_refl | apply appended_open
                     | apply appended_write ].
Qed.
End TextAppendOnly.

(* ================================================================== *)
(** * The lines of a log file are read back                         *)
(* ================================================================== *)

Lemma no_line_break_app (a b : pystr) :
  no_line_break a -> no_line_break b -> no_line_break (a ++ b).
Proof. intros Ha Hb. apply Forall_app. now split. Qed.

Lemma escape_char_no_line_break (c : N) : no_line_break (escape_char c).
Proof.
  unfold escape_char, no_line_break.
  repeat match goal with
         | |- context [if ?b then _ else _] => destruct b eqn:?
         end;
    repeat (apply Forall_cons; [try reflexivity|]); try apply Forall_nil.
  - generalize (c / 16)%N. intros n. unfold hex_digit, is_line_break.
    destruct (n <? 10)%N; apply orb_false_iff; split; apply N.eqb_neq; lia.
  - generalize (c mod 16)%N. intros n. unfold hex_digit, is_line_break.
    destruct (n <? 10)%N; apply orb_false_iff; split; apply N.eqb_neq; lia.
  - unfold is_line_break. apply orb_false_iff.
    split; assumption.
Qed.

Lemma encode_basestring_no_line_break (s : pystr) :
  no_line_break (encode_basestring s).
Proof.
  unfold encode_basestring. apply Forall_cons; [reflexivity|].
  apply no_line_break_app.
  - unfold escape_body. induction s as [|c s IH]; simpl; [apply Forall_nil|].
    apply no_line_break_app; [apply escape_char_no_line_break | exact IH].
  - apply Forall_cons; [reflexivity | apply Forall_nil].
Qed.

Section OneLine.
Context {RT : PyRuntime}.

Lemma json_encode_str_or_None_no_line_break (v : pyval) :
  str_or_None v -> no_line_break (json_encode v).
Proof.
  intros [->|[s ->]]; simpl.
  - repeat (apply Forall_cons; [reflexivity|]). apply Forall_nil.
  - apply encode_basestring_no_line_break.
Qed.

Lemma items_tail_no_line_break (items : list (pystr * pyval)) :
  Forall (fun kv => str_or_None (snd kv)) items ->
  no_line_break (items_tail items []).
Proof.
  induction 1 as [|[k v] rest Hv _ IH]; cbn [items_tail].
  - apply Forall_cons; [reflexivity | apply Forall_nil].
  - apply Forall_cons; [reflexivity|]. apply Forall_cons; [reflexivity|].
    apply no_line_break_app; [apply encode_basestring_no_line_break|].
    apply Forall_cons; [reflexivity|]. apply Forall_cons; [reflexivity|].
    apply no_line_break_app; [now apply json_encode_str_or_None_no_line_break | exact IH].
Qed.

Lemma asdict_flat (e : json_logger.JsonLogEntry) :
  exists items, json_logger.asdict e = PDict items
                /\ Forall (fun kv => str_or_None (snd kv)) items
                /\ dict_of_pairs items = items.
Proof.
  eexists. split; [reflexivity|]. split.
  - repeat (apply Forall_cons; [cbn [snd]; first
             [ apply optional_str_ok | right; eexists; reflexivity ] |]).
    apply Forall_nil.
  - reflexivity.
Qed.

Lemma serialize_shape (e : json_logger.JsonLogEntry) :
  exists body, serialize e = 123%N :: body ++ [125%N]
               /\ no_line_break (serialize e).
Proof.
  unfold serialize, json_dumps.
  destruct (asdict_flat e) as (items & -> & Hflat & _).
  destruct items as [|[k v] rest].
  - exists []. split; [reflexivity|].
    repeat (apply Forall_cons; [reflexivity|]). apply Forall_nil.
  - pose proof (json_encode_dict k v rest []) as H. rewrite app_nil_r in H.
    inversion Hflat as [|? ? Hv Hrest]; subst.
    assert (Htail : exists t, items_tail rest [] = t ++ [125%N]).
    { clear. induction rest as [|[k' v'] rest IH]; simpl.
      - now exists [].
      - destruct IH as [t ->].
        exists (44%N :: 32%N :: encode_basestring k' ++ 58%N :: 32%N :: json_encode v' ++ t).
        simpl. f_equal. f_equal. rewrite <- !app_assoc. simpl. f_equal. f_equal. f_equal.
        now rewrite <- app_assoc. }
    destruct Htail as [t Ht].
    exists (encode_basestring k ++ 58%N :: 32%N :: json_encode v ++ t). split.
    + rewrite H, Ht. simpl. f_equal. rewrite <- !app_assoc. simpl. f_equal.
      f_equal. f_equal. now rewrite <- app_assoc.
    + rewrite H. apply Forall_cons; [reflexivity|].
      apply no_line_break_app; [apply encode_basestring_no_line_break|].
      apply Forall_cons; [reflexivity|]. apply Forall_cons; [reflexivity|].
      apply no_line_break_app;
        [now apply json_encode_str_or_None_no_line_break
        | now apply items_tail_no_line_break].
Qed.

End OneLine.

Lemma readlines_from_line (s rest acc : pystr) :
  no_line_break s ->
  readlines_from (s ++ 10%N :: rest) acc
  = (rev acc ++ s ++ [10%N]) :: readlines_from rest [].
Proof.
  intros H. revert acc. induction H as [|c s Hc _ IH]; intros acc; simpl.
  - reflexivity.
  - unfold is_line_break in Hc. apply orb_false_iff in Hc. destruct Hc as [H10 H13].
    rewrite H10, H13. rewrite IH. simpl. now rewrite <- app_assoc.
Qed.

Lemma lstrip_stop (c : N) (s : pystr) :
  isspace c = false -> lstrip (c :: s) = c :: s.
Proof. intros H. simpl. now rewrite H. Qed.

Lemma strip_braces (body : pystr) :
  strip (123%N :: body ++ [125%N; 10%N]) = 123%N :: body ++ [125%N].
Proof.
  unfold strip, rstrip. rewrite lstrip_stop by reflexivity.
  change (123%N :: body ++ [125%N; 10%N]) with ((123%N :: body) ++ [125%N; 10%N]).
  rewrite rev_app_distr. simpl rev at 1.
  cbn [app]. simpl lstrip.
  change (125%N :: rev (123%N :: body)) with ([125%N] ++ rev (123%N :: body)).
  rewrite rev_app_distr, rev_involutive. reflexivity.
Qed.

Section ReadBack.
Context {RT : PyRuntime}.
Import json_reader.

Lemma json_loads_serialize (e : json_logger.JsonLogEntry) :
  json_loads (serialize e) = Ok (json_logger.asdict e).
Proof.
  unfold serialize.
  destruct (asdict_flat e) as (items & Hd & Hflat & Hsame).
  rewrite Hd, json_loads_dumps_flat by exact Hflat. now rewrite Hsame.
Qed.

Lemma from_dict_asdict (e : json_logger.JsonLogEntry) :
  from_dict (json_logger.asdict e) = Ok (record_of_entry e).
Proof. destruct e as [t lg lv f th m [ety|] [emsg|] [etb|]]; reflexivity. Qed.

Lemma same_fields_record_of_entry (e : json_logger.JsonLogEntry) :
  same_fields e (record_of_entry e).
Proof. repeat split. Qed.

Lemma strip_serialized_line (e : json_logger.JsonLogEntry) :
  strip (serialize e ++ [10%N]) = serialize e.
Proof.
  destruct (serialize_shape e) as (body & -> & _).
  cbn [app]. rewrite <- app_assoc. apply strip_braces.
Qed.

Lemma readlines_ndjson (es : list json_logger.JsonLogEntry) :
  readlines (ndjson es) = List.map (fun e => serialize e ++ [10%N]) es.
Proof.
  unfold readlines, ndjson. induction es as [|e es IH]; [reflexivity|].
  cbn [List.map concat]. rewrite <- app_assoc. cbn [app].
  destruct (serialize_shape e) as (_ & _ & Hnb).
  rewrite readlines_from_line by exact Hnb. now rewrite IH.
Qed.

Lemma iter_lines_ndjson (es : list json_logger.JsonLogEntry) :
  iter_lines (List.map (fun e => serialize e ++ [10%N]) es)
  = mkTrace (List.map json_logger.asdict es) None.
Proof.
  induction es as [|e es IH]; [reflexivity|].
  cbn [List.map iter_lines]. rewrite strip_serialized_line.
  destruct (serialize_shape e) as (body & Hs & _).
  rewrite json_loads_serialize, IH. rewrite Hs. reflexivity.
Qed.

Lemma records_of_asdict (es : list json_logger.JsonLogEntry) :
  records_of (List.map json_logger.asdict es) None
  = mkTrace (List.map record_of_entry es) None.
Proof.
  induction es as [|e es IH]; [reflexivity|].
  cbn [List.map records_of]. now rewrite from_dict_asdict, IH.
Qed.

(** X1. The JSON text of an entry holds no line break ([\n] or [\r]): a
    text file reads the text followed by a newline as exactly one line,
    whatever follows; [strip] of that line is the text of the entry, and
    the line is not blank. *)
Theorem serialized_entry_is_one_line (e : json_logger.JsonLogEntry) (rest : pystr) :
  Forall (fun c => is_line_break c = false) (serialize e)
  /\ readlines (serialize e ++ 10%N :: rest) = (serialize e ++ [10%N]) :: readlines rest
  /\ strip (serialize e ++ [10%N]) = serialize e
  /\ is_blank (serialize e ++ [10%N]) = false.
Proof.
  destruct (serialize_shape e) as (body & Hs & Hnb).
  split; [exact Hnb|]. split.
  - unfold readlines. now rewrite readlines_from_line.
  - split; [apply strip_serialized_line|].
    unfold is_blank. rewrite strip_serialized_line, Hs. reflexivity.
Qed.

(** X2. A file that holds the JSON texts of entries, each followed by a
    newline as [emit] writes them, is read back whole: [to_list] returns
    the dictionaries of the entries and [to_records] one record for each
    entry, with the nine fields of the entry, in the order of the lines. *)
Theorem written_lines_read_back (self : JsonLogReader) (fs : Files)
                                (es : list json_logger.JsonLogEntry) :
  dict_lookup fs (_path self) = Some (ndjson es) ->
  to_list self fs = Ok (List.map json_logger.asdict es)
  /\ to_records self fs = Ok (List.map record_of_entry es)
  /\ Forall2 same_fields es (List.map record_of_entry es).
Proof.
  intros Hf. unfold to_list, to_records, iter_records, iter_dicts.
  rewrite Hf, readlines_ndjson, iter_lines_ndjson. cbn [yielded raised].
  rewrite records_of_asdict. split; [reflexivity|]. split; [reflexivity|].
  clear Hf. induction es as [|e es IH]; cbn [List.map]; constructor;
    [apply same_fields_record_of_entry | exact IH].
Qed.
End ReadBack.

Section ReadBack2.
Context {RT : PyRuntime}.
Import json_reader.





End ReadBack2.

(* ================================================================== *)
(** * The reader: files that are missing, blank or no records       *)
(* ================================================================== *)

Section ReaderEdges.
Context {RT : PyRuntime}.
Import json_reader.


Lemma iter_lines_head (line : pystr) (rest : list pystr) :
  is_blank line = false ->
  (exists v t, iter_lines (line :: rest) = mkTrace (v :: t) (raised (iter_lines rest)))
  \/ (exists e, iter_lines (line :: rest) = mkTrace [] (Some e)).
Proof.
  unfold is_blank. intros H. cbn [iter_lines].
  destruct (strip line) as [|c s] eqn:Hs; [discriminate|].
  destruct (json_loads (c :: s)) as [v|e].
  - left. exists v, (yielded (iter_lines rest)). reflexivity.
  - right. now exists e.
Qed.

Lemma iter_lines_empty (lines : list pystr) :
  iter_lines lines = mkTrace [] None <->
  filter (fun l => negb (is_blank l)) lines = [].
Proof.
  split.
  - rewrite iter_lines_nonblank.
    destruct (filter (fun l => negb (is_blank l)) lines) as [|l t] eqn:Hf;
      [reflexivity|].
    assert (Hl : is_blank l = false).
    { assert (Hin : In l (filter (fun l => negb (is_blank l)) lines))
        by (rewrite Hf; now left).
      apply filter_In in Hin. destruct Hin as [_ Hin]. now destruct (is_blank l). }
    destruct (@iter_lines_head l t Hl) as [(v & t' & ->)|(e & ->)]; discriminate.
  - intros H. rewrite iter_lines_nonblank, H. reflexivity.
Qed.

Lemma records_of_empty (vs : list pyval) (stop : option exn) :
  records_of vs stop = mkTrace [] None <-> vs = [] /\ stop = None.
Proof.
  split.
  - destruct vs as [|v vs]; cbn [records_of].
    + intros H. inversion H. auto.
    + destruct (from_dict v); discriminate.
  - intros [-> ->]. reflexivity.
Qed.

(** X5. The reader on a missing file and on a file without records.  For
    a path that is no file, [to_list] and [to_records] raise
    [FileNotFoundError] and the generators yield nothing.  [to_list]
    returns the empty list exactly when the file exists and all its lines
    are blank (so also for the empty file), and [to_records] returns the
    empty list in exactly the same cases. *)
Theorem reader_on_missing_and_blank_files (self : JsonLogReader) (fs : Files) :
  (dict_lookup fs (_path self) = None ->
   to_list self fs = Raise (FileNotFoundError (_path self))
   /\ to_records self fs = Raise (FileNotFoundError (_path self))
   /\ yielded (iter_dicts self fs) = []
   /\ yielded (iter_records self fs) = [])
  /\ (to_list self fs = Ok []
      <-> exists content, dict_lookup fs (_path self) = Some content
                          /\ nonblank_lines content = [])
  /\ (to_records self fs = Ok [] <-> to_list self fs = Ok []).
Proof.
  split; [|split].
  - intros H. unfold to_list, to_records, iter_records, iter_dicts. rewrite H.
    repeat split.
  - rewrite to_list_trace. unfold iter_dicts, nonblank_lines.
    destruct (dict_lookup fs (_path self)) as [content|]; split.
    + intros H. exists content. split; [reflexivity|]. now apply iter_lines_empty.
    + intros (content' & Hc & Hnb). inversion Hc; subst. now apply iter_lines_empty.
    + discriminate.
    + intros (content' & Hc & _). discriminate.
  - rewrite to_list_trace. unfold to_records, iter_records, list_of_trace.
    destruct (iter_dicts self fs) as [ys stop]. cbn [yielded raised]. split.
    + intros H.
      destruct (records_of ys stop) as [rs [e|]] eqn:Hr; cbn [raised yielded] in H;
        [discriminate|]. inversion H; subst.
      apply records_of_empty in Hr. destruct Hr as [-> ->]. reflexivity.
    + intros H. inversion H; subst. reflexivity.
Qed.
End ReaderEdges.

(* ================================================================== *)
(** * The record model: what [from_record] raises                   *)
(* ================================================================== *)

Section FromRecordRaises.
Context {RT : PyRuntime}.
Import logging json_logger.

(** X6. What [from_record] and [_serialize_record] raise.  Serializing
    adds no failure: [_serialize_record] raises [err] exactly when
    [from_record] does.  [from_record] raises [err] exactly when
    [str(evalue)] raises it; or [str(evalue)] returns and formatting the
    traceback raises it and it is no [Exception]; or those two pass (an
    [Exception] from formatting the traceback is swallowed) and
    [record.getMessage()] raises it.  Without exception info, and with
    the value [None], only [getMessage] can raise. *)
Theorem from_record_raises_exactly (record : LogRecord) (err : exn) :
  (_serialize_record record = Raise err <-> from_record record = Raise err)
  /\ (from_record record = Raise err <->
      match exc_info record with
      | None => getMessage record = Raise err
      | Some (etype, Some v, etb) =>
          ev_str v = Raise err
          \/ ((exists s, ev_str v = Ok s)
              /\ ev_format v = Raise err /\ is_Exception err = false)
          \/ ((exists s, ev_str v = Ok s)
              /\ (forall e, ev_format v = Raise e -> is_Exception e = true)
              /\ getMessage record = Raise err)
      | Some (etype, None, etb) => getMessage record = Raise err
      end).
Proof.
  split.
  - unfold _serialize_record. destruct (from_record record); cbn [bind];
      split; congruence.
  - unfold from_record.
    destruct (exc_info record) as [[[etype [v|]] etb]|].
    + unfold traceback_or_None, format_exception.
      destruct (ev_str v) as [s|e1]; cbn [bind].
      * destruct (ev_format v) as [lines|e2]; cbn [bind].
        -- destruct (getMessage record) as [m|e3]; cbn [bind]; split.
           ++ discriminate.
           ++ intros [H|[(_ & H & _)|(_ & _ & H)]]; discriminate.
           ++ intros H. right. right. split; [eauto|]. split; [discriminate|].
              congruence.
           ++ intros [H|[(_ & H & _)|(_ & _ & H)]]; congruence.
        -- destruct (is_Exception e2) eqn:E2; cbn [bind].
           ++ destruct (getMessage record) as [m|e3]; cbn [bind]; split.
              ** discriminate.
              ** intros [H|[(_ & H & H')|(_ & _ & H)]]; try discriminate.
                 congruence.
              ** intros H. right. right. split; [eauto|]. split.
                 --- intros e' He'. congruence.
                 --- congruence.
              ** intros [H|[(_ & H & H')|(_ & _ & H)]]; congruence.
           ++ split.
              ** intros H. right. left. split; [eauto|]. split; congruence.
              ** intros [H|[(_ & H & H')|(_ & Hall & H)]]; try congruence.
                 specialize (Hall e2 eq_refl). congruence.
      * split.
        -- intros H. left. congruence.
        -- intros [H|[([s Hs] & _)|([s Hs] & _)]]; congruence.
    + cbn [bind format_exception traceback_or_None].
      destruct (getMessage record); cbn [bind]; split; congruence.
    + destruct (getMessage record); cbn [bind]; split; congruence.
Qed.
End FromRecordRaises.

(* ================================================================== *)
(** * The names of the log files                                    *)
(* ================================================================== *)

Lemma app_same_length (A : Type) (a b c d : list A) :
  length a = length c -> a ++ b = c ++ d -> a = c /\ b = d.
Proof.
  revert c. induction a as [|x a IH]; intros [|y c] Hl H; try discriminate.
  - auto.
  - cbn [app length] in *. injection H as -> H. injection Hl as Hl.
    destruct (IH c Hl H) as [-> ->]. auto.
Qed.

Lemma pad2_inj (n m : N) :
  (n < 100)%N -> (m < 100)%N -> pad2 n = pad2 m -> n = m.
Proof.
  unfold pad2. intros Hn Hm H.
  pose proof (f_equal (fun l => nth 0 l 0%N) H) as E1.
  pose proof (f_equal (fun l => nth 1 l 0%N) H) as E2.
  cbn [nth] in E1, E2.
  apply N.add_cancel_l in E1, E2.
  rewrite (N.mod_small (n / 10) 10) in E1
    by (apply N.Div0.div_lt_upper_bound; lia).
  rewrite (N.mod_small (m / 10) 10) in E1
    by (apply N.Div0.div_lt_upper_bound; lia).
  rewrite (N.div_mod n 10), (N.div_mod m 10) by lia.
  now rewrite E1, E2.
Qed.

Lemma strftime_d_m_y_inj (t1 t2 : datetime) :
  calendar_date t1 -> calendar_date t2 ->
  (strftime_d_m_y t1 = strftime_d_m_y t2 <-> same_date_key t1 t2).
Proof.
  intros [Hd1 Hm1] [Hd2 Hm2]. unfold same_date_key, strftime_d_m_y. split.
  - intros H.
    assert (Hlen : forall n, length (pad2 n) = 2) by reflexivity.
    pose proof (@app_same_length N) as Hsplit.
    apply Hsplit in H; [|now rewrite !Hlen]. destruct H as [Hday H].
    apply app_inv_head in H.
    apply Hsplit in H; [|now rewrite !Hlen]. destruct H as [Hmon H].
    apply app_inv_head in H.
    apply pad2_inj in Hday; [|lia|lia].
    apply pad2_inj in Hmon; [|lia|lia].
    apply pad2_inj in H;
      [| apply N.mod_upper_bound; lia | apply N.mod_upper_bound; lia].
    auto.
  - intros (-> & -> & ->). reflexivity.
Qed.

(** X7. The path of the log file depends on the date only, and on the year
    only through its last two digits.  For two calendar dates and one
    directory, both handlers give the same path exactly when the day, the
    month and the year modulo 100 agree: the time of day never changes the
    file, two different days of one century never share a file, and the
    same day a century later is written to the same file. *)
Theorem log_file_of_same_date (dir : pystr) (t1 t2 : datetime) :
  calendar_date t1 -> calendar_date t2 ->
  (json_logger.log_file_of dir t1 = json_logger.log_file_of dir t2
   <-> same_date_key t1 t2)
  /\ (app_logger.log_file_of dir t1 = app_logger.log_file_of dir t2
      <-> same_date_key t1 t2).
Proof.
  intros H1 H2.
  pose proof (strftime_d_m_y_inj H1 H2) as Hkey.
  unfold json_logger.log_file_of, app_logger.log_file_of, joinpath.
  split; (split; [intros H | intros H; apply Hkey in H; now rewrite H]).
  - apply app_inv_head in H. apply app_inv_head in H. apply app_inv_tail in H.
    now apply Hkey.
  - apply app_inv_head in H. apply app_inv_head in H. apply app_inv_tail in H.
    now apply Hkey.
Qed.

Lemma str_ltb_app_same (p a b : pystr) :
  str_ltb (p ++ a) (p ++ b) = str_ltb a b.
Proof.
  induction p as [|x p IH]; [reflexivity|].
  cbn [app str_ltb]. now rewrite N.ltb_irrefl.
Qed.

Lemma str_ltb_irrefl (a : pystr) : str_ltb a a = false.
Proof.
  induction a as [|x a IH]; [reflexivity|].
  cbn [str_ltb]. now rewrite N.ltb_irrefl.
Qed.

Lemma str_ltb_two (x1 x2 y1 y2 : N) (a b : pystr) :
  str_ltb (x1 :: x2 :: a) (y1 :: y2 :: b) = true
  <-> (x1 < y1 \/ (x1 = y1 /\ (x2 < y2 \/ (x2 = y2 /\ str_ltb a b = true))))%N.
Proof.
  cbn [str_ltb].
  destruct (x1 <? y1)%N eqn:E1; [apply N.ltb_lt in E1; intuition lia|].
  apply N.ltb_ge in E1.
  destruct (y1 <? x1)%N eqn:E2.
  { apply N.ltb_lt in E2. split; [discriminate | lia]. }
  apply N.ltb_ge in E2.
  destruct (x2 <? y2)%N eqn:E3; [apply N.ltb_lt in E3; intuition lia|].
  apply N.ltb_ge in E3.
  destruct (y2 <? x2)%N eqn:E4.
  { apply N.ltb_lt in E4. split; [discriminate | lia]. }
  apply N.ltb_ge in E4.
  split.
  - intros H. right. split; [lia|]. right. split; [lia | exact H].
  - intros [H|[_ [H|[_ H]]]]; [lia | lia | exact H].
Qed.

Lemma two_digits (n : N) :
  (n < 100)%N ->
  exists q r, (n = 10 * q + r /\ q < 10 /\ r < 10)%N
              /\ pad2 n = [(48 + q)%N; (48 + r)%N].
Proof.
  intros H. exists (n / 10)%N, (n mod 10)%N.
  assert (Hq : (n / 10 < 10)%N) by (apply N.Div0.div_lt_upper_bound; lia).
  assert (Hr : (n mod 10 < 10)%N) by (apply N.mod_upper_bound; lia).
  split.
  - split; [apply N.div_mod; lia | now split].
  - unfold pad2. now rewrite (N.mod_small (n / 10) 10) by exact Hq.
Qed.

Lemma str_ltb_pad2 (n m : N) (a b : pystr) :
  (n < 100)%N -> (m < 100)%N ->
  (str_ltb (pad2 n ++ a) (pad2 m ++ b) = true
   <-> (n < m \/ (n = m /\ str_ltb a b = true))%N).
Proof.
  intros Hn Hm.
  destruct (two_digits Hn) as (q1 & r1 & (E1 & Hq1 & Hr1) & ->).
  destruct (two_digits Hm) as (q2 & r2 & (E2 & Hq2 & Hr2) & ->).
  cbn [app]. rewrite str_ltb_two. subst n m.
  split.
  - intros [H|[H [H'|[H' H'']]]]; [left; lia | left; lia | right; split; [lia | exact H'']].
  - intros [H|[H H']].
    + destruct (N.lt_ge_cases q1 q2) as [Hlt|Hge]; [left; lia|].
      right. split; [lia|]. left. lia.
    + right. split; [lia|]. right. split; [lia | exact H'].
Qed.

Lemma str_ltb_head_same (x : N) (a b : pystr) :
  str_ltb (x :: a) (x :: b) = str_ltb a b.
Proof. apply (str_ltb_app_same [x]). Qed.

Lemma strftime_d_m_y_order (t1 t2 : datetime) (suffix : pystr) :
  calendar_date t1 -> calendar_date t2 ->
  (str_ltb (strftime_d_m_y t1 ++ suffix) (strftime_d_m_y t2 ++ suffix) = true
   <-> date_key_lt t1 t2).
Proof.
  intros [Hd1 Hm1] [Hd2 Hm2]. unfold strftime_d_m_y, date_key_lt.
  change (py "_") with [95%N]. rewrite <- !app_assoc. cbn [app].
  rewrite str_ltb_pad2 by lia. rewrite str_ltb_head_same.
  rewrite str_ltb_pad2 by lia. rewrite str_ltb_head_same.
  rewrite str_ltb_pad2 by (apply N.mod_upper_bound; lia).
  rewrite str_ltb_irrefl.
  intuition discriminate.
Qed.

(** X8. The names of the log files do not sort by date.  In the order of
    [str] (by which [sorted] orders the paths of one directory), the path
    of the date [t1] comes before the path of [t2] exactly when [t1] has
    the smaller day of the month, or the same day and the smaller month,
    or the same day and month and the smaller two digits of the year. *)
Theorem log_file_names_order_by_day_first (dir : pystr) (t1 t2 : datetime) :
  calendar_date t1 -> calendar_date t2 ->
  (str_ltb (json_logger.log_file_of dir t1) (json_logger.log_file_of dir t2) = true
   <-> date_key_lt t1 t2)
  /\ (str_ltb (app_logger.log_file_of dir t1) (app_logger.log_file_of dir t2) = true
      <-> date_key_lt t1 t2).
Proof.
  intros H1 H2.
  unfold json_logger.log_file_of, app_logger.log_file_of, joinpath.
  rewrite !str_ltb_app_same. split; now apply strftime_d_m_y_order.
Qed.

(* ================================================================== *)
(** * The writers: invariant and failures                           *)
(* ================================================================== *)

Section HandlerInvariant.
Context {RT : PyRuntime}.

(** X9. The invariant of the handlers.  In every state a handler reaches
    (created in append mode, then any calls of [setLevel], [setFormatter]
    and [emit], whatever failed in them), the mode is still append, and
    once a path was opened by [emit] the file name of the base class is
    that path and the stream the handler holds, if it holds one, is the
    stream of that path. *)
Theorem reachable_handlers_write_to_the_last_opened_path :
  (forall h,
      json_reachable h ->
      logging_handlers.mode (json_logger.base h) = mode_a
      /\ forall p,
           json_logger._current_file h = Some p ->
           logging_handlers.baseFilename (json_logger.base h) = p
           /\ forall st, logging_handlers.stream (json_logger.base h) = Some st ->
                         st_name st = p)
  /\ (forall h,
      text_reachable h ->
      logging_handlers.mode (app_logger.base h) = mode_a
      /\ forall p,
           app_logger._current_file h = Some p ->
           logging_handlers.baseFilename (app_logger.base h) = p
           /\ forall st, logging_handlers.stream (app_logger.base h) = Some st ->
                         st_name st = p).
Proof.
  split; intros h Hreach.
  - destruct (json_reachable_consistent Hreach) as [Hwf Hmode].
    split; [exact Hmode | exact Hwf].
  - destruct (text_reachable_consistent Hreach) as [Hwf Hmode].
    split; [exact Hmode | exact Hwf].
Qed.
End HandlerInvariant.

Lemma json_flushed_reachable {RT : PyRuntime}
      (h : json_logger.DailyJsonRotatingFileHandler) :
  json_flushed h -> json_reachable h.
Proof.
  induction 1 as [env dir enc w h s' H|h lvl _ IH|env record h w r h' w' _ IH _ _ H].
  - eapply json_created. exact H.
  - now apply json_level_set.
  - eapply json_emitted; [exact IH | exact H].
Qed.

Lemma text_flushed_reachable (h : app_logger.DailyRotatingFileHandler) :
  text_flushed h -> text_reachable h.
Proof.
  induction 1 as [env dir enc w h s' H|h lvl _ IH|h f _ IH
                 |env record h w r h' w' _ IH _ _ H].
  - eapply text_created. exact H.
  - now apply text_level_set.
  - now apply text_formatter_set.
  - eapply text_emitted; [exact IH | exact H].
Qed.

(** X10. [emit] only appends, and only to the file of the current date.
    For a handler in any state it can reach while the writes and the
    flushes of its stream succeed, so that the stream holds no text of an
    earlier record, in any environment of the call (whatever file operation
    fails now, whatever rendering the record raises) and whether [emit]
    returns or raises: the content of every file after the call is its
    content before the call with something appended at the end, and
    nothing is appended to a file other than the log file of the date of
    the call; the directory of the handler is unchanged. *)
Theorem emit_only_appends_to_file_of_current_date {RT : PyRuntime}
        (env : Env) (record : logging.LogRecord) :
  (forall h w r h' w',
      json_flushed h ->
      json_logger.emit env record (h, w) = (r, (h', w')) ->
      appended_only_to (json_logger.log_file_of (json_logger.log_dir h) (now env))
                       (files w) (files w')
      /\ json_logger.log_dir h' = json_logger.log_dir h)
  /\ (forall h w r h' w',
      text_flushed h ->
      app_logger.emit env record (h, w) = (r, (h', w')) ->
      appended_only_to (app_logger.log_file_of (app_logger.log_dir h) (now env))
                       (files w) (files w')
      /\ app_logger.log_dir h' = app_logger.log_dir h).
Proof.
  split; intros h w r h' w' Hflushed H.
  - apply json_flushed_reachable in Hflushed.
    destruct (json_reachable_consistent Hflushed) as [Hwf Hmode].
    eapply json_emit_appends_only; eassumption.
  - apply text_flushed_reachable in Hflushed.
    destruct (text_reachable_consistent Hflushed) as [Hwf Hmode].
    eapply text_emit_appends_only; eassumption.
Qed.

(** X11. The constructor opens the log file of the day, and the first
    [emit] closes that stream and opens a file again, also when the date
    has not changed, because [_current_file] starts as [None]: when no
    file operation fails and the record renders, the events of the first
    [emit] of a handler created in append mode are, from the first to the
    last, the file of the day of creation closed, the file of the current
    day opened in append mode, the line written and flushed. *)
Theorem first_emit_closes_and_opens_the_file_again
        {RT : PyRuntime} (env0 env : Env) (dir enc : pystr) (w0 : World)
        (record : logging.LogRecord) :
  no_io_failure env ->
  (forall h s0 w line,
      json_logger.__init__ env0 dir enc mode_a (tt, w0) = (Ok h, s0) ->
      json_logger._serialize_record record = Ok line ->
      exists h' w',
        json_logger.emit env record (h, w) = (Ok tt, (h', w'))
        /\ events w'
           = Flushed (json_logger.log_file_of dir (now env))
             :: Wrote (json_logger.log_file_of dir (now env)) (line ++ [10%N])
             :: Opened (json_logger.log_file_of dir (now env)) mode_a
             :: Closed (json_logger.log_file_of dir (now env0))
             :: events w)
  /\ (forall h s0 w msg,
      app_logger.__init__ env0 dir enc mode_a (tt, w0) = (Ok h, s0) ->
      logging_handlers.format (logging_handlers.formatter (app_logger.base h)) record
      = Ok msg ->
      exists h' w',
        app_logger.emit env record (h, w) = (Ok tt, (h', w'))
        /\ events w'
           = Flushed (app_logger.log_file_of dir (now env))
             :: Flushed (app_logger.log_file_of dir (now env))
             :: Wrote (app_logger.log_file_of dir (now env)) (msg ++ [10%N])
             :: Opened (app_logger.log_file_of dir (now env)) mode_a
             :: Closed (app_logger.log_file_of dir (now env0))
             :: events w).
Proof.
  intros Hio. split.
  - intros h s0 w line Hinit Hser.
    destruct (json_init_consistent _ _ _ _ _ Hinit) as [Hwf Hmode].
    apply json_init_inv in Hinit. destruct Hinit as [-> _].
    destruct (@json_emit_appends RT env _ w record line Hwf Hmode Hio Hser)
      as (h' & w' & pre & He & _ & _ & Hev & Hpre & _).
    exists h', w'. split; [exact He|].
    rewrite Hev, (Hpre eq_refl). reflexivity.
  - intros h s0 w msg Hinit Hfmt.
    destruct (text_init_consistent _ _ _ _ _ Hinit) as [Hwf Hmode].
    apply text_init_inv in Hinit. destruct Hinit as [-> _].
    destruct (@text_emit_appends env _ w record msg Hwf Hmode Hio Hfmt)
      as (h' & w' & pre & He & _ & _ & Hev & Hpre & _).
    exists h', w'. split; [exact He|].
    rewrite Hev, (Hpre eq_refl). reflexivity.
Qed.

Section JsonReports.
Context {RT : PyRuntime}.
Import logging_handlers json_logger.

Lemma json_emit_try_reports_nothing (env : Env) (record : logging.LogRecord)
      (h : DailyJsonRotatingFileHandler) (w : World)
      (r : result unit) (h1 : DailyJsonRotatingFileHandler) (w1 : World) :
  emit_try env record (h, w) = (r, (h1, w1)) -> stderr w1 = stderr w.
Proof.
  destruct h as [[hid hlevel hfmt hbase hmode henc hst hclosed] hdir hcur].
  intros H.
  cbv [emit_try _get_current_log_file
       base log_dir _current_file mode stream baseFilename
       with_base set_stream set_baseFilename set__current_file] in H.
  unfold_monad_in H.
  cbv [base log_dir _current_file mode stream baseFilename
       with_base set_stream set_baseFilename set__current_file] in H.
  repeat split_atom H.
  all: repeat match goal with
              | E : (_, _) = (_, _) |- _ => inversion E; subst; clear E
              end.
  all: reflexivity.
Qed.

Lemma json_emit_reports (env : Env) (record : logging.LogRecord)
      (h : DailyJsonRotatingFileHandler) (w : World)
      (r : result unit) (h' : DailyJsonRotatingFileHandler) (w' : World) :
  emit env record (h, w) = (r, (h', w')) ->
  stderr w' = stderr w \/ stderr w' = record :: stderr w.
Proof.
  unfold emit, try_except_Exception.
  destruct (emit_try env record (h, w)) as [r1 [h1 w1]] eqn:E.
  apply json_emit_try_reports_nothing in E.
  destruct r1 as [[]|e].
  - intros H. inversion H; subst. now left.
  - destruct (is_Exception e).
    + unfold handleError, on_world, modify. cbn [fst snd].
      intros H. inversion H; subst. right. cbn [report stderr]. now rewrite E.
    + intros H. inversion H; subst. now left.
Qed.
End JsonReports.

Section TextReports.
Import logging_handlers app_logger.

Lemma text_emit_try_reports (env : Env) (record : logging.LogRecord)
      (h : DailyRotatingFileHandler) (w : World)
      (r : result unit) (h1 : DailyRotatingFileHandler) (w1 : World) :
  emit_try env record (h, w) = (r, (h1, w1)) ->
  stderr w1 = stderr w \/ stderr w1 = record :: stderr w.
Proof.
  destruct h as [[hid hlevel hfmt hbase hmode henc hst hclosed] hdir hdate hcur].
  intros H.
  cbv [emit_try _get_current_log_file FileHandler_emit StreamHandler_emit
       try_except_Exception try_except_reraising_RecursionError
       logging_handlers._open logging_handlers.flush
       logging_handlers.get logging_handlers.set
       open_ stream_close stream_write stream_flush handleError
       on_world system_call bindM gets modify ret raise lift
       fst snd base log_dir _current_file mode stream baseFilename formatter
       _closed with_base set_stream set_baseFilename set__current_file] in H.
  repeat split_atom H.
  all: repeat match goal with
           | E : (_, _) = (_, _) |- _ => inversion E; subst; clear E
           end.
  all: cbn [stderr log_event with_files events report].
  all: auto.
Qed.

Lemma text_emit_reports (env : Env) (record : logging.LogRecord)
      (h : DailyRotatingFileHandler) (w : World)
      (r : result unit) (h' : DailyRotatingFileHandler) (w' : World) :
  emit env record (h, w) = (r, (h', w')) ->
  stderr w' = stderr w \/ stderr w' = record :: stderr w
  \/ stderr w' = record :: record :: stderr w.
Proof.
  unfold emit, try_except_Exception.
  destruct (emit_try env record (h, w)) as [r1 [h1 w1]] eqn:E.
  apply text_emit_try_reports in E.
  destruct r1 as [[]|e].
  - intros H. inversion H; subst. destruct E; auto.
  - destruct (is_Exception e).
    + unfold handleError, on_world, modify. cbn [fst snd].
      intros H. inversion H; subst. cbn [report stderr].
      destruct E as [-> | ->]; auto.
    + intros H. inversion H; subst. destruct E; auto.
Qed.
End TextReports.

(** X12. How often a record is reported.  In any environment and from any
    state, [emit] of the JSON handler reports the record through
    [handleError] at most once; [emit] of the text handler reports it at
    most twice (once in [StreamHandler.emit], which has its own error
    handling, and once in its own [except] clause).  Nothing else is put
    on the diagnostic channel. *)
Theorem emit_reports_a_record_at_most_twice {RT : PyRuntime} (env : Env)
                                            (record : logging.LogRecord) :
  (forall h w r h' w',
      json_logger.emit env record (h, w) = (r, (h', w')) ->
      stderr w' = stderr w \/ stderr w' = record :: stderr w)
  /\ (forall h w r h' w',
      app_logger.emit env record (h, w) = (r, (h', w')) ->
      stderr w' = stderr w \/ stderr w' = record :: stderr w
      \/ stderr w' = record :: record :: stderr w).
Proof.
  split; intros h w r h' w' H.
  - eapply json_emit_reports; exact H.
  - eapply text_emit_reports; exact H.
Qed.

Section JsonUnrenderable.
Context {RT : PyRuntime}.
Import logging_handlers json_logger.

End JsonUnrenderable.

Section TextUnrenderable.
Import logging_handlers app_logger.

End TextUnrenderable.





(* ================================================================== *)
(** * The factories: effects and failures                           *)
(* ================================================================== *)

Section FactoryEffects.
Import logging_handlers.

Lemma mkdir_exist_ok_effect env path (w : World) (s' : unit * World) :
  mkdir_exist_ok env path (tt, w) = (Ok tt, s') ->
  exists w', s' = (tt, w') /\ next_id w' = next_id w /\ files w' = files w
             /\ events w' = events w /\ stderr w' = stderr w
             /\ is_dir w' path = true
             /\ (forall q, is_dir w q = true -> is_dir w' q = true).
Proof.
  unfold mkdir_exist_ok, system_call, on_world, bindM, gets, modify, ret, raise.
  destruct (mkdir_error env); [discriminate|].
  cbv beta iota delta [fst snd].
  destruct (dict_lookup (files w) path); [discriminate|].
  intros H. injection H as <-.
  eexists. split; [reflexivity|]. unfold is_dir.
  destruct (existsb (path_eqb path) (dirs w)) eqn:E.
  - repeat split; try reflexivity; auto.
  - repeat split; try reflexivity.
    + cbn [with_dirs dirs existsb]. unfold path_eqb at 1.
      now rewrite str_eqb_refl.
    + intros q Hq. cbn [with_dirs dirs existsb]. rewrite Hq. apply orb_true_r.
Qed.

Lemma json_init_effect env dir enc m (w : World) h s' :
  json_logger.__init__ env dir enc m (tt, w) = (Ok h, s') ->
  exists w', s' = (tt, w')
    /\ files w' = files_after_open (files w) (json_logger.log_file_of dir (now env)) m
    /\ dirs w' = dirs w /\ stderr w' = stderr w.
Proof.
  unfold json_logger.__init__, open_, new_id, system_call, on_world, bindM, gets,
    modify, ret, raise. cbn [fst snd].
  destruct (open_error env); [discriminate|].
  intros H. injection H as _ <-.
  eexists. repeat split; reflexivity.
Qed.

Lemma text_init_effect env dir enc m (w : World) h s' :
  app_logger.__init__ env dir enc m (tt, w) = (Ok h, s') ->
  exists w', s' = (tt, w')
    /\ files w' = files_after_open (files w) (app_logger.log_file_of dir (now env)) m
    /\ dirs w' = dirs w /\ stderr w' = stderr w.
Proof.
  unfold app_logger.__init__, open_, new_id, system_call, on_world, bindM, gets,
    modify, ret, raise. cbn [fst snd].
  destruct (open_error env); [discriminate|].
  intros H. injection H as _ <-.
  eexists. repeat split; reflexivity.
Qed.

Lemma is_dir_with_next_id (w : World) (n : nat) (q : pystr) :
  is_dir (with_next_id w n) q = is_dir w q.
Proof. reflexivity. Qed.

Lemma files_after_open_exists (fs : Files) (p : pystr) (m : FileMode) :
  dict_lookup (files_after_open fs p m) p <> None.
Proof.
  unfold files_after_open. destruct m.
  - destruct (dict_lookup fs p) eqn:E; [now rewrite E|].
    now rewrite dict_lookup_setitem_same.
  - now rewrite dict_lookup_setitem_same.
Qed.

Lemma addHandler_hd (Hd : Type) (ident : Hd -> nat) (lg : Logger Hd) (h : Hd) :
  hd_error (handlers (addHandler ident lg h))
  = match handlers lg with
    | [] => Some h
    | x :: _ => Some x
    end.
Proof.
  unfold addHandler. destruct (handlers lg) as [|x l] eqn:E.
  - cbn [existsb]. cbn [handlers app hd_error]. reflexivity.
  - destruct (existsb _ _); cbn [handlers]; rewrite ?E; reflexivity.
Qed.

Lemma json_factory_effects {RT : PyRuntime} env name level_name to_console w lg s' :
  json_logger.get_json_app_logger env name level_name to_console (tt, w)
  = (Ok lg, s') ->
  exists fh w',
    s' = (tt, w')
    /\ hd_error (handlers lg) = Some (json_logger.File fh)
    /\ json_reachable fh
    /\ formatter (json_logger.base fh) = None
    /\ encoding (json_logger.base fh) = py "utf-8"
    /\ stream (json_logger.base fh)
       = Some (mkStream (json_logger.log_file_of (joinpath (py "logs") name) (now env)))
    /\ files w' = files_after_open (files w)
                    (json_logger.log_file_of (joinpath (py "logs") name) (now env))
                    mode_a
    /\ stderr w' = stderr w
    /\ is_dir w' (py "logs") = true
    /\ is_dir w' (joinpath (py "logs") name) = true
    /\ (forall q, is_dir w q = true -> is_dir w' q = true).
Proof.
  intros H. unfold json_logger.get_json_app_logger in H.
  apply bindM_Ok_inv in H. destruct H as ([] & s1 & Hm1 & H).
  apply mkdir_exist_ok_effect in Hm1.
  destruct Hm1 as (w1 & -> & _ & Hf1 & _ & He1 & Hd1 & Hk1).
  apply bindM_Ok_inv in H. destruct H as ([] & s2 & Hm2 & H).
  apply mkdir_exist_ok_effect in Hm2.
  destruct Hm2 as (w2 & -> & _ & Hf2 & _ & He2 & Hd2 & Hk2).
  apply bindM_Ok_inv in H. destruct H as (lg0 & s3 & Hl & H).
  apply Logger_init_inv in Hl. destruct Hl as [-> ->].
  cbv [Logger_setLevel is_empty handlers logger_id logger_name logger_level] in H.
  apply bindM_Ok_inv in H. destruct H as (fh & s4 & Hi & H).
  pose proof Hi as Hcreated.
  apply json_init_effect in Hi. destruct Hi as (w4 & -> & Hf4 & Hd4 & He4).
  pose proof (json_init_inv _ _ _ _ _ Hcreated) as [Hfh _].
  assert (Hreach : json_reachable
                     (json_logger.with_base fh
                        (setLevel (json_logger.base fh)
                                  (dict_get levels_map level_name logging.INFO)))).
  { apply json_level_set. eapply json_created. exact Hcreated. }
  assert (Hworld :
            files w4 = files_after_open (files w)
                         (json_logger.log_file_of (joinpath (py "logs") name) (now env))
                         mode_a
            /\ stderr w4 = stderr w
            /\ is_dir w4 (py "logs") = true
            /\ is_dir w4 (joinpath (py "logs") name) = true
            /\ (forall q, is_dir w q = true -> is_dir w4 q = true)).
  { assert (Hsame : forall q, is_dir w4 q = is_dir w2 q)
      by (intros q; unfold is_dir; now rewrite Hd4).
    cbn [with_next_id files stderr] in Hf4, He4.
    rewrite Hf4, Hf2, Hf1, He4, He2, He1.
    repeat split; rewrite ?Hsame; auto.
    intros q Hq. rewrite Hsame. auto. }
  destruct Hworld as (Hw1 & Hw2 & Hw3 & Hw4 & Hw5).
  destruct to_console.
  - apply bindM_Ok_inv in H. destruct H as (sh & s5 & Hs & H).
    apply StreamHandler_init_inv in Hs. destruct Hs as [-> ->].
    unfold ret in H. injection H as <- <-.
    eexists _, _. split; [reflexivity|].
    rewrite !addHandler_hd. cbn [handlers hd_error].
    split; [reflexivity|]. split; [exact Hreach|].
    subst fh. cbn. repeat split; auto.
  - unfold ret in H. injection H as <- <-.
    eexists _, _. split; [reflexivity|].
    rewrite !addHandler_hd. cbn [handlers hd_error].
    split; [reflexivity|]. split; [exact Hreach|].
    subst fh. cbn. repeat split; auto.
Qed.
End FactoryEffects.

Section FactoryEffectsText.
Import logging_handlers.

Lemma text_factory_effects env name level_name to_console w lg s' :
  app_logger.get_app_logger env name level_name to_console (tt, w)
  = (Ok lg, s') ->
  exists fh w',
    s' = (tt, w')
    /\ hd_error (handlers lg) = Some (app_logger.File fh)
    /\ text_reachable fh
    /\ formatter (app_logger.base fh) = Some log_format
    /\ encoding (app_logger.base fh) = py "utf-8"
    /\ stream (app_logger.base fh)
       = Some (mkStream (app_logger.log_file_of (joinpath (py "logs") name) (now env)))
    /\ files w' = files_after_open (files w)
                    (app_logger.log_file_of (joinpath (py "logs") name) (now env))
                    mode_a
    /\ stderr w' = stderr w
    /\ is_dir w' (py "logs") = true
    /\ is_dir w' (joinpath (py "logs") name) = true
    /\ (forall q, is_dir w q = true -> is_dir w' q = true).
Proof.
  intros H. unfold app_logger.get_app_logger in H.
  apply bindM_Ok_inv in H. destruct H as ([] & s1 & Hm1 & H).
  apply mkdir_exist_ok_effect in Hm1.
  destruct Hm1 as (w1 & -> & _ & Hf1 & _ & He1 & Hd1 & Hk1).
  apply bindM_Ok_inv in H. destruct H as ([] & s2 & Hm2 & H).
  apply mkdir_exist_ok_effect in Hm2.
  destruct Hm2 as (w2 & -> & _ & Hf2 & _ & He2 & Hd2 & Hk2).
  apply bindM_Ok_inv in H. destruct H as (lg0 & s3 & Hl & H).
  apply Logger_init_inv in Hl. destruct Hl as [-> ->].
  cbv [Logger_setLevel is_empty handlers logger_id logger_name logger_level] in H.
  apply bindM_Ok_inv in H. destruct H as (fh & s4 & Hi & H).
  pose proof Hi as Hcreated.
  apply text_init_effect in Hi. destruct Hi as (w4 & -> & Hf4 & Hd4 & He4).
  pose proof (text_init_inv _ _ _ _ _ Hcreated) as [Hfh _].
  match type of H with
  | context [app_logger.File ?x] =>
      assert (Hreach : text_reachable x)
        by (apply text_formatter_set, text_level_set;
            eapply text_created; exact Hcreated)
  end.
  assert (Hworld :
            files w4 = files_after_open (files w)
                         (app_logger.log_file_of (joinpath (py "logs") name) (now env))
                         mode_a
            /\ stderr w4 = stderr w
            /\ is_dir w4 (py "logs") = true
            /\ is_dir w4 (joinpath (py "logs") name) = true
            /\ (forall q, is_dir w q = true -> is_dir w4 q = true)).
  { assert (Hsame : forall q, is_dir w4 q = is_dir w2 q)
      by (intros q; unfold is_dir; now rewrite Hd4).
    cbn [with_next_id files stderr] in Hf4, He4.
    rewrite Hf4, Hf2, Hf1, He4, He2, He1.
    repeat split; rewrite ?Hsame; auto.
    intros q Hq. rewrite Hsame. auto. }
  destruct Hworld as (Hw1 & Hw2 & Hw3 & Hw4 & Hw5).
  destruct to_console.
  - apply bindM_Ok_inv in H. destruct H as (sh & s5 & Hs & H).
    apply StreamHandler_init_inv in Hs. destruct Hs as [-> ->].
    unfold ret in H. injection H as <- <-.
    eexists _, _. split; [reflexivity|].
    rewrite !addHandler_hd. cbn [handlers hd_error].
    split; [reflexivity|]. split; [exact Hreach|].
    subst fh. cbn. repeat split; auto.
  - unfold ret in H. injection H as <- <-.
    eexists _, _. split; [reflexivity|].
    rewrite !addHandler_hd. cbn [handlers hd_error].
    split; [reflexivity|]. split; [exact Hreach|].
    subst fh. cbn. repeat split; auto.
Qed.
End FactoryEffectsText.


(** X17. What a factory does to the file system.  After a call that
    returns a logger for a name that is one path component: the
    directories [logs] and [logs/<name>] exist and every directory that
    was there is still there; the log file of the day exists; every file
    has the content it had (a missing file counting as empty), and no
    entry other than the log file of the day was added or changed;
    nothing was reported on the diagnostic channel. *)
Theorem factories_create_the_log_file_and_keep_the_others
        {RT : PyRuntime} (env : Env) (name level_name : pystr)
        (to_console : bool) (w : World) :
  path_component name ->
  (forall lg s',
      json_logger.get_json_app_logger env name level_name to_console (tt, w)
      = (Ok lg, s') ->
      is_dir (snd s') (py "logs") = true
      /\ is_dir (snd s') (joinpath (py "logs") name) = true
      /\ (forall q, is_dir w q = true -> is_dir (snd s') q = true)
      /\ dict_lookup (files (snd s'))
           (json_logger.log_file_of (joinpath (py "logs") name) (now env)) <> None
      /\ (forall p, dict_get (files (snd s')) p [] = dict_get (files w) p [])
      /\ (forall p,
             p <> json_logger.log_file_of (joinpath (py "logs") name) (now env) ->
             dict_lookup (files (snd s')) p = dict_lookup (files w) p)
      /\ stderr (snd s') = stderr w)
  /\ (forall lg s',
      app_logger.get_app_logger env name level_name to_console (tt, w)
      = (Ok lg, s') ->
      is_dir (snd s') (py "logs") = true
      /\ is_dir (snd s') (joinpath (py "logs") name) = true
      /\ (forall q, is_dir w q = true -> is_dir (snd s') q = true)
      /\ dict_lookup (files (snd s'))
           (app_logger.log_file_of (joinpath (py "logs") name) (now env)) <> None
      /\ (forall p, dict_get (files (snd s')) p [] = dict_get (files w) p [])
      /\ (forall p,
             p <> app_logger.log_file_of (joinpath (py "logs") name) (now env) ->
             dict_lookup (files (snd s')) p = dict_lookup (files w) p)
      /\ stderr (snd s') = stderr w).
Proof.
  intros _. split; intros lg s' H.
  - apply json_factory_effects in H.
    destruct H as (fh & w' & -> & _ & _ & _ & _ & _ & Hf & He & Hd1 & Hd2 & Hk).
    cbn [snd]. rewrite Hf.
    split; [exact Hd1|]. split; [exact Hd2|]. split; [exact Hk|].
    split; [apply files_after_open_exists|].
    split; [intros p; apply files_after_open_a|].
    split; [intros p Hp; now apply files_after_open_other | exact He].
  - apply text_factory_effects in H.
    destruct H as (fh & w' & -> & _ & _ & _ & _ & _ & Hf & He & Hd1 & Hd2 & Hk).
    cbn [snd]. rewrite Hf.
    split; [exact Hd1|]. split; [exact Hd2|]. split; [exact Hk|].
    split; [apply files_after_open_exists|].
    split; [intros p; apply files_after_open_a|].
    split; [intros p Hp; now apply files_after_open_other | exact He].
Qed.

Section FactoryShape.
Context {RT : PyRuntime}.
Import logging_handlers.

(** X18. What a factory returns.  For a name that is one path component,
    the logger has the name given and carries, first, one file handler and
    then, exactly when [to_console] is true, one console handler with the
    text format.  The file handler is in a state reachable from its
    constructor, its directory is [logs/<name>], its stream is open on the
    log file of the day in append mode with the encoding [utf-8], its
    level is the level of the logger, and its formatter is the text format
    for [get_app_logger] and none for [get_json_app_logger]. *)
Theorem factories_attach_the_file_handler_of_the_day
        (env : Env) (name level_name : pystr) (to_console : bool) (w : World) :
  path_component name ->
  (forall lg s',
      json_logger.get_json_app_logger env name level_name to_console (tt, w)
      = (Ok lg, s') ->
      exists fh c,
        logger_name lg = name
        /\ handlers lg
           = json_logger.File fh
             :: (if to_console then [json_logger.Console c] else [])
        /\ console_formatter c = Some log_format
        /\ json_reachable fh
        /\ json_logger.log_dir fh = joinpath (py "logs") name
        /\ stream (json_logger.base fh)
           = Some (mkStream (json_logger.log_file_of (joinpath (py "logs") name)
                                                     (now env)))
        /\ formatter (json_logger.base fh) = None
        /\ encoding (json_logger.base fh) = py "utf-8"
        /\ mode (json_logger.base fh) = mode_a
        /\ logging_handlers.level (json_logger.base fh) = logger_level lg)
  /\ (forall lg s',
      app_logger.get_app_logger env name level_name to_console (tt, w)
      = (Ok lg, s') ->
      exists fh c,
        logger_name lg = name
        /\ handlers lg
           = app_logger.File fh
             :: (if to_console then [app_logger.Console c] else [])
        /\ console_formatter c = Some log_format
        /\ text_reachable fh
        /\ app_logger.log_dir fh = joinpath (py "logs") name
        /\ stream (app_logger.base fh)
           = Some (mkStream (app_logger.log_file_of (joinpath (py "logs") name)
                                                    (now env)))
        /\ formatter (app_logger.base fh) = Some log_format
        /\ encoding (app_logger.base fh) = py "utf-8"
        /\ mode (app_logger.base fh) = mode_a
        /\ logging_handlers.level (app_logger.base fh) = logger_level lg).
Proof.
  intros _. split; intros lg s' H.
  - pose proof H as H2. apply get_json_app_logger_result in H.
    destruct H as (fh & rest & w' & _ & -> & _ & Hlv & Hmode & _ & Hdir & _ & Hrest & _).
    apply json_factory_effects in H2.
    destruct H2 as (fh2 & w2 & _ & Hhd & Hreach & Hfmt & Henc & Hst & _).
    cbn [handlers hd_error] in Hhd. injection Hhd as <-.
    exists fh, (mkStreamHandler (S (S (next_id w))) (level_of_name level_name)
                                (Some log_format)).
    cbn [logger_name handlers logger_level console_formatter].
    split; [reflexivity|]. split; [rewrite Hrest; destruct to_console; reflexivity|].
    repeat split; assumption.
  - pose proof H as H2. apply get_app_logger_result in H.
    destruct H as (fh & rest & w' & _ & -> & _ & Hlv & Hmode & _ & Hdir & _ & Hrest & _).
    apply text_factory_effects in H2.
    destruct H2 as (fh2 & w2 & _ & Hhd & Hreach & Hfmt & Henc & Hst & _).
    cbn [handlers hd_error] in Hhd. injection Hhd as <-.
    exists fh, (mkStreamHandler (S (S (next_id w))) (level_of_name level_name)
                                (Some log_format)).
    cbn [logger_name handlers logger_level console_formatter].
    split; [reflexivity|]. split; [rewrite Hrest; destruct to_console; reflexivity|].
    repeat split; assumption.
Qed.
End FactoryShape.

Section FactoryFailures.
Import logging_handlers.

Lemma mkdir_exist_ok_raise env path (w : World) :
  (forall e, mkdir_error env = Some e ->
             mkdir_exist_ok env path (tt, w) = (Raise e, (tt, w)))
  /\ (forall c, mkdir_error env = None -> dict_lookup (files w) path = Some c ->
                mkdir_exist_ok env path (tt, w)
                = (Raise (FileExistsError path), (tt, w))).
Proof.
  unfold mkdir_exist_ok, system_call, on_world, bindM, gets, modify, ret, raise.
  split.
  - intros e ->. reflexivity.
  - intros c -> Hc. cbv beta iota delta [fst snd]. now rewrite Hc.
Qed.

Lemma mkdir_exist_ok_ok env path (w : World) :
  mkdir_error env = None -> dict_lookup (files w) path = None ->
  exists w', mkdir_exist_ok env path (tt, w) = (Ok tt, (tt, w'))
             /\ files w' = files w /\ stderr w' = stderr w
             /\ events w' = events w.
Proof.
  intros He Hf.
  unfold mkdir_exist_ok, system_call, on_world, bindM, gets, modify, ret, raise.
  rewrite He. cbv beta iota delta [fst snd]. rewrite Hf.
  eexists. split; [reflexivity|].
  destruct (existsb _ _); repeat split.
Qed.

Lemma json_factory_failures {RT : PyRuntime} env name level_name to_console w :
  (forall e, mkdir_error env = Some e ->
      json_logger.get_json_app_logger env name level_name to_console (tt, w)
      = (Raise e, (tt, w)))
  /\ (forall c, mkdir_error env = None ->
      dict_lookup (files w) (py "logs") = Some c ->
      json_logger.get_json_app_logger env name level_name to_console (tt, w)
      = (Raise (FileExistsError (py "logs")), (tt, w)))
  /\ (forall c, mkdir_error env = None ->
      dict_lookup (files w) (py "logs") = None ->
      dict_lookup (files w) (joinpath (py "logs") name) = Some c ->
      exists w',
        json_logger.get_json_app_logger env name level_name to_console (tt, w)
        = (Raise (FileExistsError (joinpath (py "logs") name)), (tt, w'))
        /\ files w' = files w /\ events w' = events w /\ stderr w' = stderr w)
  /\ (forall e, mkdir_error env = None ->
      dict_lookup (files w) (py "logs") = None ->
      dict_lookup (files w) (joinpath (py "logs") name) = None ->
      open_error env = Some e ->
      exists w',
        json_logger.get_json_app_logger env name level_name to_console (tt, w)
        = (Raise e, (tt, w'))
        /\ files w' = files w /\ events w' = events w /\ stderr w' = stderr w).
Proof.
  unfold json_logger.get_json_app_logger.
  split; [|split; [|split]].
  - intros e He. unfold bindM at 1.
    now rewrite (proj1 (mkdir_exist_ok_raise env (py "logs") w) e He).
  - intros c He Hc. unfold bindM at 1.
    now rewrite (proj2 (mkdir_exist_ok_raise env (py "logs") w) c He Hc).
  - intros c He Hn Hc.
    destruct (mkdir_exist_ok_ok env (py "logs") w He Hn) as (w1 & Hm & Hf & Hs & Hev).
    unfold bindM at 1. rewrite Hm. unfold bindM at 1.
    rewrite <- Hf in Hc.
    rewrite (proj2 (mkdir_exist_ok_raise env (joinpath (py "logs") name) w1) c He Hc).
    exists w1. auto.
  - intros e He Hn Hn2 Ho.
    destruct (mkdir_exist_ok_ok env (py "logs") w He Hn) as (w1 & Hm & Hf & Hs & Hev).
    rewrite <- Hf in Hn2.
    destruct (mkdir_exist_ok_ok env (joinpath (py "logs") name) w1 He Hn2)
      as (w2 & Hm2 & Hf2 & Hs2 & Hev2).
    unfold bindM at 1. rewrite Hm. unfold bindM at 1. rewrite Hm2.
    unfold bindM at 1. unfold Logger_init, new_id, on_world, bindM at 1 2, gets,
      modify, ret. cbn [fst snd].
    cbv [Logger_setLevel is_empty handlers].
    unfold bindM at 1. unfold json_logger.__init__, open_, system_call, bindM at 1 2.
    rewrite Ho. unfold raise.
    eexists. split; [reflexivity|]. cbn [with_next_id files events stderr].
    repeat split; cbn [snd]; congruence.
Qed.

Lemma text_factory_failures env name level_name to_console w :
  (forall e, mkdir_error env = Some e ->
      app_logger.get_app_logger env name level_name to_console (tt, w)
      = (Raise e, (tt, w)))
  /\ (forall c, mkdir_error env = None ->
      dict_lookup (files w) (py "logs") = Some c ->
      app_logger.get_app_logger env name level_name to_console (tt, w)
      = (Raise (FileExistsError (py "logs")), (tt, w)))
  /\ (forall c, mkdir_error env = None ->
      dict_lookup (files w) (py "logs") = None ->
      dict_lookup (files w) (joinpath (py "logs") name) = Some c ->
      exists w',
        app_logger.get_app_logger env name level_name to_console (tt, w)
        = (Raise (FileExistsError (joinpath (py "logs") name)), (tt, w'))
        /\ files w' = files w /\ events w' = events w /\ stderr w' = stderr w)
  /\ (forall e, mkdir_error env = None ->
      dict_lookup (files w) (py "logs") = None ->
      dict_lookup (files w) (joinpath (py "logs") name) = None ->
      open_error env = Some e ->
      exists w',
        app_logger.get_app_logger env name level_name to_console (tt, w)
        = (Raise e, (tt, w'))
        /\ files w' = files w /\ events w' = events w /\ stderr w' = stderr w).
Proof.
  unfold app_logger.get_app_logger.
  split; [|split; [|split]].
  - intros e He. unfold bindM at 1.
    now rewrite (proj1 (mkdir_exist_ok_raise env (py "logs") w) e He).
  - intros c He Hc. unfold bindM at 1.
    now rewrite (proj2 (mkdir_exist_ok_raise env (py "logs") w) c He Hc).
  - intros c He Hn Hc.
    destruct (mkdir_exist_ok_ok env (py "logs") w He Hn) as (w1 & Hm & Hf & Hs & Hev).
    unfold bindM at 1. rewrite Hm. unfold bindM at 1.
    rewrite <- Hf in Hc.
    rewrite (proj2 (mkdir_exist_ok_raise env (joinpath (py "logs") name) w1) c He Hc).
    exists w1. auto.
  - intros e He Hn Hn2 Ho.
    destruct (mkdir_exist_ok_ok env (py "logs") w He Hn) as (w1 & Hm & Hf & Hs & Hev).
    rewrite <- Hf in Hn2.
    destruct (mkdir_exist_ok_ok env (joinpath (py "logs") name) w1 He Hn2)
      as (w2 & Hm2 & Hf2 & Hs2 & Hev2).
    unfold bindM at 1. rewrite Hm. unfold bindM at 1. rewrite Hm2.
    unfold bindM at 1. unfold Logger_init, new_id, on_world, bindM at 1 2, gets,
      modify, ret. cbn [fst snd].
    cbv [Logger_setLevel is_empty handlers].
    unfold bindM at 1. unfold app_logger.__init__, open_, system_call, bindM at 1 2.
    rewrite Ho. unfold raise.
    eexists. split; [reflexivity|]. cbn [with_next_id files events stderr].
    repeat split; cbn [snd]; congruence.
Qed.
End FactoryFailures.

(** X19. The factories handle no error.  For a logger name that is one
    component of a path: an exception of [mkdir] is raised by the factory;
    a regular file in the place of [logs], or of [logs/<name>], gives
    [FileExistsError] for that path; and when the directories can be made
    and [open] raises, the factory raises that exception.  In each case no
    logger is returned and no file, event or report is added. *)
Theorem factories_raise_what_mkdir_and_open_raise
        {RT : PyRuntime} (env : Env) (name level_name : pystr)
        (to_console : bool) (w : World) :
  path_component name ->
  raises_what_mkdir_and_open_raise
    (json_logger.get_json_app_logger env name level_name to_console) env name w
  /\ raises_what_mkdir_and_open_raise
       (app_logger.get_app_logger env name level_name to_console) env name w.
Proof.
  intros _. unfold raises_what_mkdir_and_open_raise. split.
  - destruct (@json_factory_failures RT env name level_name to_console w)
      as (H1 & H2 & H3 & H4).
    split; [|split; [exact H2 | split; [exact H3 | exact H4]]].
    intros e He. exists w. rewrite (H1 e He). repeat split.
  - destruct (@text_factory_failures env name level_name to_console w)
      as (H1 & H2 & H3 & H4).
    split; [|split; [exact H2 | split; [exact H3 | exact H4]]].
    intros e He. exists w. rewrite (H1 e He). repeat split.
Qed.

(* ================================================================== *)
(** * Logging calls                                                 *)
(* ================================================================== *)

Section JsonKeeps.
Context {RT : PyRuntime}.
Import logging_handlers json_logger.

End JsonKeeps.

Section TextKeeps.
Import logging_handlers app_logger.

Lemma text_emit_keeps_attributes env record h w r h' w' :
  emit env record (h, w) = (r, (h', w')) ->
  logging_handlers.level (base h') = logging_handlers.level (base h)
  /\ id (base h') = id (base h)
  /\ formatter (base h') = formatter (base h) /\ log_dir h' = log_dir h.
Proof.
  intros H.
  destruct h as [[hid hlevel hfmt hbase hmode henc hst hclosed] hdir hdate hcur].
  cbv [emit emit_try _get_current_log_file
       base log_dir _current_file mode stream baseFilename formatter _closed
       with_base set_stream set_baseFilename set__current_file] in H.
  unfold_monad_in H.
  cbv [base log_dir _current_file mode stream baseFilename formatter _closed
       with_base set_stream set_baseFilename set__current_file] in H.
  repeat split_atom H; injection H as _ <- _; repeat split.
Qed.
End TextKeeps.



Section Calls.
Context {RT : PyRuntime}.
Import logging_handlers logging_calls.

Lemma log_disabled (Hd : Type) (level_of : Hd -> Z)
      (emit_of : Env -> logging.LogRecord -> M (Hd * World) unit)
      (env : Env) (m : Method) (caller : Caller) (msg : pystr) (exc : ExcArg)
      (lg : Logger Hd) (w : World) :
  (method_level m < logger_level lg)%Z ->
  log level_of emit_of env m caller msg exc (lg, w) = (Ok tt, (lg, w)).
Proof.
  intros H. unfold log, isEnabledFor, getEffectiveLevel. cbn [fst].
  destruct (method_level m <=? 0)%Z; [reflexivity|].
  destruct (logger_level lg <=? method_level m)%Z eqn:E; [|reflexivity].
  apply Z.leb_le in E. lia.
Qed.

Lemma method_level_positive (m : Method) : (method_level m <=? 0)%Z = false.
Proof. destruct m; reflexivity. Qed.


Lemma text_log_one_file_handler env m caller msg exc (lg : app_logger.AppLogger)
      fh w r fh' w' :
  handlers lg = [app_logger.File fh] ->
  (logger_level lg <= method_level m)%Z ->
  (logging_handlers.level (app_logger.base fh) <= method_level m)%Z ->
  app_logger.emit env (record_of_call lg m caller msg exc) (fh, w) = (r, (fh', w')) ->
  text_log env m caller msg exc (lg, w)
  = (r, (mkLogger (logger_id lg) (logger_name lg) (logger_level lg)
                  [app_logger.File fh'], w')).
Proof.
  intros Hh Hl Hhl He.
  unfold text_log, log, isEnabledFor, getEffectiveLevel. cbn [fst].
  rewrite method_level_positive.
  apply Z.leb_le in Hl. rewrite Hl.
  unfold _log, callHandlers. cbn [fst snd]. rewrite Hh.
  cbn [callHandlers_loop]. cbn [makeRecord logging.levelno app_logger.handler_level].
  apply Z.leb_le in Hhl. rewrite Hhl.
  unfold text_handler_emit. cbn [fst snd].
  unfold record_of_call in He. rewrite He.
  destruct r as [[]|e]; reflexivity.
Qed.


End Calls.

Section CallsOfFactoryLoggers.
Context {RT : PyRuntime}.
Import logging_handlers logging_calls.

(** X21. A logger of a factory drops the calls below its level.  For the
    logger returned for the level name [level_name], a call of [debug],
    [info], [warning], [error] or [critical] whose level is below the
    level of that name returns without building a record: the logger, its
    handlers, the files and the diagnostic channel are as before. *)
Theorem calls_below_the_configured_level_do_nothing
        (env0 : Env) (name level_name : pystr) (to_console : bool) (w0 : World) :
  (forall lg s',
      json_logger.get_json_app_logger env0 name level_name to_console (tt, w0)
      = (Ok lg, s') ->
      forall env m caller msg exc w,
        (method_level m < level_of_name level_name)%Z ->
        json_log env m caller msg exc (lg, w) = (Ok tt, (lg, w)))
  /\ (forall lg s',
      app_logger.get_app_logger env0 name level_name to_console (tt, w0)
      = (Ok lg, s') ->
      forall env m caller msg exc w,
        (method_level m < level_of_name level_name)%Z ->
        text_log env m caller msg exc (lg, w) = (Ok tt, (lg, w))).
Proof.
  split; intros lg s' H env m caller msg exc w Hlt.
  - apply get_json_app_logger_result in H.
    destruct H as (fh & rest & w' & _ & -> & _).
    apply log_disabled. exact Hlt.
  - apply get_app_logger_result in H.
    destruct H as (fh & rest & w' & _ & -> & _).
    apply log_disabled. exact Hlt.
Qed.

Lemma format_log_format_plain (record : logging.LogRecord) (msg : pystr) :
  logging.getMessage record = Ok msg ->
  logging.exc_info record = None ->
  format (Some log_format) record = Ok (text_line record msg).
Proof. intros Hm He. unfold format. rewrite Hm, He. reflexivity. Qed.

(** X22. The line of the text log.  For an [AppLogger] whose only handler
    is a file handler in a reachable state with the format of the factory,
    a call without exception info of a logging method at or above the
    level of the logger and of the handler, when no file operation fails,
    returns normally and appends to the log file of today the line
    [[time] [file] [thread] [level] - message] and a newline. *)
Theorem text_call_appends_formatted_line
        (env : Env) (m : Method) (caller : Caller) (msg : pystr)
        (lg : app_logger.AppLogger) (fh : app_logger.DailyRotatingFileHandler)
        (w : World) :
  handlers lg = [app_logger.File fh] ->
  text_reachable fh ->
  formatter (app_logger.base fh) = Some log_format ->
  (logger_level lg <= method_level m)%Z ->
  (logging_handlers.level (app_logger.base fh) <= method_level m)%Z ->
  no_io_failure env ->
  exists fh' w',
    text_log env m caller msg exc_absent (lg, w)
    = (Ok tt, (mkLogger (logger_id lg) (logger_name lg) (logger_level lg)
                        [app_logger.File fh'], w'))
    /\ text_reachable fh'
    /\ formatter (app_logger.base fh') = Some log_format
    /\ logging_handlers.level (app_logger.base fh')
       = logging_handlers.level (app_logger.base fh)
    /\ app_logger.log_dir fh' = app_logger.log_dir fh
    /\ dict_lookup (files w')
         (app_logger.log_file_of (app_logger.log_dir fh) (now env))
       = Some (dict_get (files w)
                 (app_logger.log_file_of (app_logger.log_dir fh) (now env)) []
               ++ py "[" ++ strftime_Y_m_d_H_M_S (caller_time caller)
               ++ py "] [" ++ caller_filename caller
               ++ py "] [" ++ caller_threadName caller
               ++ py "] [" ++ getLevelName (method_level m)
               ++ py "] - " ++ msg ++ [10%N]).
Proof.
  intros Hh Hreach Hfmt Hl Hhl Hio.
  destruct (text_reachable_consistent Hreach) as [Hwf Hmode].
  assert (Hline : format (formatter (app_logger.base fh))
                         (record_of_call lg m caller msg exc_absent)
                  = Ok (text_line (record_of_call lg m caller msg exc_absent) msg))
    by (rewrite Hfmt; apply format_log_format_plain; reflexivity).
  destruct (@text_emit_appends env fh w _ _ Hwf Hmode Hio Hline)
    as (fh' & w' & pre & He & _ & _ & Hev & _ & _ & Hcontent & _).
  exists fh', w'.
  split; [eapply text_log_one_file_handler; eassumption|].
  split; [eapply text_emitted; [exact Hreach | exact He]|].
  destruct (text_emit_keeps_attributes _ _ _ _ He) as (Hlv & _ & Hf & Hdir).
  split; [congruence|]. split; [exact Hlv|]. split; [exact Hdir|].
  rewrite Hcontent. unfold text_line, record_of_call, makeRecord, logging.formatTime.
  cbn [logging.created logging.filename logging.threadName logging.levelname].
  rewrite <- !app_assoc. reflexivity.
Qed.
End CallsOfFactoryLoggers.

Section Console.
Context {RT : PyRuntime}.
Import logging_handlers logging_calls.

Lemma Console_emit_writes (env : Env) (record : logging.LogRecord)
      (c : StreamHandler) (w : World) (text : pystr) :
  no_io_failure env ->
  format (console_formatter c) record = Ok text ->
  exists w',
    Console_emit env record (c, w) = (Ok tt, (c, w'))
    /\ files w' = files_after_write (files w) (st_name sys_stderr) (text ++ [10%N])
    /\ stderr w' = stderr w.
Proof.
  intros (Hopen & Hclose & Hwrite & Hflush) Hfmt.
  unfold Console_emit, StreamHandler_emit. run_monad.
  cbn [fst snd console_base formatter stream]. rewrite Hfmt, Hwrite.
  cbn [fst snd console_base formatter stream]. rewrite Hflush.
  eexists. split; [reflexivity|]. split; reflexivity.
Qed.

Lemma log_file_is_not_the_console (dir : pystr) (t : datetime) :
  json_logger.log_file_of dir t <> st_name sys_stderr.
Proof.
  unfold json_logger.log_file_of, joinpath. intros H.
  assert (Hin : In 47%N (st_name sys_stderr)).
  { rewrite <- H. apply in_or_app. right. now left. }
  cbn in Hin. repeat (destruct Hin as [Hin|Hin]; [discriminate|]). exact Hin.
Qed.

(** X23. The JSON logger with a console.  For a [JsonAppLogger] with a file
    handler and a console handler with the text format, as
    [get_json_app_logger(..., to_console=True)] makes it, a call without
    exception info at or above the three levels, when no file operation
    fails, appends the JSON line of the record to the log file of today
    and the text line [[time] [file] [thread] [level] - message] to
    [sys.stderr]; the console handler is unchanged. *)
Theorem json_logger_with_console_writes_both
        (env : Env) (m : Method) (caller : Caller) (msg : pystr)
        (lg : json_logger.JsonAppLogger)
        (fh : json_logger.DailyJsonRotatingFileHandler) (c : StreamHandler)
        (w : World) :
  handlers lg = [json_logger.File fh; json_logger.Console c] ->
  json_reachable fh ->
  console_formatter c = Some log_format ->
  (logger_level lg <= method_level m)%Z ->
  (logging_handlers.level (json_logger.base fh) <= method_level m)%Z ->
  (console_level c <= method_level m)%Z ->
  no_io_failure env ->
  exists fh' w',
    json_log env m caller msg exc_absent (lg, w)
    = (Ok tt, (mkLogger (logger_id lg) (logger_name lg) (logger_level lg)
                        [json_logger.File fh'; json_logger.Console c], w'))
    /\ dict_lookup (files w')
         (json_logger.log_file_of (json_logger.log_dir fh) (now env))
       = Some (dict_get (files w)
                 (json_logger.log_file_of (json_logger.log_dir fh) (now env)) []
               ++ serialize (plain_entry (record_of_call lg m caller msg exc_absent) msg)
               ++ [10%N])
    /\ dict_lookup (files w') (st_name sys_stderr)
       = Some (dict_get (files w) (st_name sys_stderr) []
               ++ text_line (record_of_call lg m caller msg exc_absent) msg
               ++ [10%N]).
Proof.
  intros Hh Hreach Hfmt Hl Hhl Hcl Hio.
  destruct (json_reachable_consistent Hreach) as [Hwf Hmode].
  set (record := record_of_call lg m caller msg exc_absent).
  assert (Hser : json_logger._serialize_record record
                 = Ok (serialize (plain_entry record msg))) by reflexivity.
  destruct (@json_emit_appends RT env fh w record _ Hwf Hmode Hio Hser)
    as (fh' & w1 & pre & He & _ & _ & _ & _ & _ & Hcontent & Hother).
  assert (Hline : format (console_formatter c) record = Ok (text_line record msg))
    by (rewrite Hfmt; apply format_log_format_plain; reflexivity).
  destruct (@Console_emit_writes env record c w1 _ Hio Hline) as (w' & Hc & Hfiles & _).
  exists fh', w'. split.
  - unfold json_log, log, isEnabledFor, getEffectiveLevel. cbn [fst].
    rewrite method_level_positive.
    apply Z.leb_le in Hl. rewrite Hl.
    unfold _log, callHandlers. cbn [fst snd]. rewrite Hh.
    cbn [callHandlers_loop]. cbn [makeRecord logging.levelno json_logger.handler_level].
    apply Z.leb_le in Hhl. rewrite Hhl. apply Z.leb_le in Hcl. rewrite Hcl.
    unfold json_handler_emit. cbn [fst snd].
    fold record. unfold record, record_of_call in He, Hc. rewrite He.
    cbn [fst snd]. rewrite Hc. reflexivity.
  - rewrite Hfiles. split.
    + rewrite files_after_write_other by apply log_file_is_not_the_console.
      exact Hcontent.
    + rewrite files_after_write_same. f_equal. f_equal.
      unfold dict_get. rewrite Hother; [reflexivity|].
      intros E. symmetry in E. revert E. apply log_file_is_not_the_console.
Qed.
End Console.

(* ================================================================== *)
(** * Instances                                                     *)
(* ================================================================== *)

(** The sample handlers are what the constructors return before midnight
    in an empty world. *)
Lemma new_json_handler_created :
  exists s0,
    @json_logger.__init__ (calm before_midnight) (py "logs/app") (py "utf-8") mode_a
      (tt, empty_world) = (Ok new_json_handler, s0).
Proof. eexists. vm_compute. reflexivity. Qed.

Lemma new_text_handler_created :
  exists s0,
    app_logger.__init__ (calm before_midnight) (py "logs/app") (py "utf-8") mode_a
      (tt, empty_world) = (Ok new_text_handler, s0).
Proof. eexists. vm_compute. reflexivity. Qed.

Lemma new_json_handler_reachable {RT : PyRuntime} : json_reachable new_json_handler.
Proof.
  destruct new_json_handler_created as [s0 H]. eapply json_created. exact H.
Qed.

Lemma new_text_handler_reachable : text_reachable new_text_handler.
Proof.
  destruct new_text_handler_created as [s0 H]. eapply text_created. exact H.
Qed.

Lemma new_json_handler_flushed {RT : PyRuntime} : json_flushed new_json_handler.
Proof.
  destruct new_json_handler_created as [s0 H]. eapply json_flushed_created. exact H.
Qed.

Lemma calm_no_io_failure (t : datetime) : no_io_failure (calm t).
Proof. repeat split. Qed.

Lemma app_is_path_component : path_component (py "app").
Proof.
  repeat split; try discriminate.
  cbn. intros H. repeat (destruct H as [H|H]; [discriminate|]). exact H.
Qed.

(** A file of two lines, one of them with an exception. *)
Lemma written_lines_read_back_witness :
  @json_reader.to_records sample_runtime (json_reader.mkJsonLogReader path_a)
    [(path_a, @ndjson sample_runtime [sample_entry; sample_error_entry])]
  = Ok [record_of_entry sample_entry; record_of_entry sample_error_entry].
Proof.
  exact (proj1 (proj2 (@written_lines_read_back sample_runtime
                         (json_reader.mkJsonLogReader path_a)
                         [(path_a, @ndjson sample_runtime
                                     [sample_entry; sample_error_entry])]
                         [sample_entry; sample_error_entry] eq_refl))).
Defined.



(** The 9th of March of 2025 and of 2125 share a file. *)
Lemma log_file_of_same_date_witness :
  json_logger.log_file_of (py "logs/app") before_midnight
  = json_logger.log_file_of (py "logs/app") a_century_later.
Proof.
  assert (H1 : calendar_date before_midnight) by (unfold calendar_date; cbn; lia).
  assert (H2 : calendar_date a_century_later) by (unfold calendar_date; cbn; lia).
  apply (proj1 (log_file_of_same_date (py "logs/app") H1 H2)).
  repeat split.
Defined.

(** The file of the 1st of February sorts before the file of the 31st of
    January. *)
Lemma log_file_names_order_by_day_first_witness :
  str_ltb (json_logger.log_file_of (py "logs/app") the_1st_of_February)
          (json_logger.log_file_of (py "logs/app") the_31st_of_January) = true.
Proof.
  assert (H1 : calendar_date the_1st_of_February)
    by (unfold calendar_date; cbn; lia).
  assert (H2 : calendar_date the_31st_of_January)
    by (unfold calendar_date; cbn; lia).
  apply (proj1 (log_file_names_order_by_day_first (py "logs/app") H1 H2)).
  left. cbn. lia.
Defined.

(** A handler created and used on the same day. *)
Lemma first_emit_closes_and_opens_the_file_again_witness :
  exists h' w' line,
    @json_logger.emit sample_runtime (calm before_midnight) sample_record
      (new_json_handler, empty_world) = (Ok tt, (h', w'))
    /\ events w'
       = [ Flushed (py "logs/app/09_03_25_logs.ndjson");
           Wrote (py "logs/app/09_03_25_logs.ndjson") (line ++ [10%N]);
           Opened (py "logs/app/09_03_25_logs.ndjson") mode_a;
           Closed (py "logs/app/09_03_25_logs.ndjson") ].
Proof.
  destruct new_json_handler_created as [s0 Hinit].
  destruct (@first_emit_closes_and_opens_the_file_again sample_runtime
              (calm before_midnight) (calm before_midnight) (py "logs/app")
              (py "utf-8") empty_world sample_record
              (calm_no_io_failure before_midnight)) as [Hjson _].
  destruct (Hjson new_json_handler s0 empty_world
              (@serialize sample_runtime sample_entry) Hinit eq_refl)
    as (h' & w' & He & Hev).
  exists h', w', (@serialize sample_runtime sample_entry).
  split; [exact He | exact Hev].
Defined.





(** The factories in an empty world. *)
Lemma factories_create_the_log_file_and_keep_the_others_witness :
  exists lg s',
    json_logger.get_json_app_logger (calm before_midnight)
      (py "app") (py "INFO") false (tt, empty_world) = (Ok lg, s')
    /\ is_dir (snd s') (py "logs") = true
    /\ is_dir (snd s') (py "logs/app") = true
    /\ dict_lookup (files (snd s')) (py "logs/app/09_03_25_logs.ndjson") <> None.
Proof.
  destruct (@factories_create_the_log_file_and_keep_the_others sample_runtime
              (calm before_midnight) (py "app") (py "INFO") false empty_world
              app_is_path_component) as [Hjson _].
  destruct (json_logger.get_json_app_logger (calm before_midnight)
              (py "app") (py "INFO") false (tt, empty_world)) as [[lg|e] s'] eqn:E;
    [|vm_compute in E; discriminate E].
  destruct (Hjson lg s' eq_refl) as (H1 & H2 & _ & H4 & _).
  exists lg, s'. split; [reflexivity|]. split; [exact H1|].
  split; [exact H2 | exact H4].
Defined.

Lemma factories_attach_the_file_handler_of_the_day_witness :
  exists lg s' fh,
    app_logger.get_app_logger (calm before_midnight) (py "app") (py "INFO") false
      (tt, empty_world) = (Ok lg, s')
    /\ logging_handlers.handlers lg = [app_logger.File fh]
    /\ logging_handlers.formatter (app_logger.base fh)
       = Some logging_handlers.log_format
    /\ logging_handlers.stream (app_logger.base fh)
       = Some (mkStream (py "logs/app/09_03_25_logs.log")).
Proof.
  destruct (@factories_attach_the_file_handler_of_the_day sample_runtime
              (calm before_midnight) (py "app") (py "INFO") false empty_world
              app_is_path_component) as [_ Htext].
  destruct (app_logger.get_app_logger (calm before_midnight) (py "app") (py "INFO")
              false (tt, empty_world)) as [[lg|e] s'] eqn:E;
    [|vm_compute in E; discriminate E].
  destruct (Htext lg s' eq_refl) as (fh & c & _ & Hh & _ & _ & _ & Hst & Hf & _).
  exists lg, s', fh. split; [reflexivity|]. split; [exact Hh|].
  split; [exact Hf | exact Hst].
Defined.


Lemma text_call_appends_formatted_line_witness :
  exists lg' w',
    text_log (calm after_midnight) logging_calls.info sample_caller
      (py "started") logging_calls.exc_absent (sample_text_logger, empty_world)
    = (Ok tt, (lg', w'))
    /\ dict_lookup (files w') (py "logs/app/10_03_25_logs.log")
       = Some (py "[2025-03-09 23:59:58] [main.py] [MainThread] [INFO] - started"
               ++ [10%N]).
Proof.
  destruct (@text_call_appends_formatted_line (calm after_midnight)
              logging_calls.info sample_caller (py "started") sample_text_logger
              (app_logger.with_base new_text_handler
                 (logging_handlers.setFormatter (app_logger.base new_text_handler)
                                                logging_handlers.log_format))
              empty_world eq_refl)
    as (fh' & w' & He & _ & _ & _ & _ & Hc).
  - apply text_formatter_set. apply new_text_handler_reachable.
  - reflexivity.
  - cbn. lia.
  - cbn. lia.
  - apply calm_no_io_failure.
  - eexists _, w'. split; [exact He | exact Hc].
Defined.

Lemma json_logger_with_console_writes_both_witness :
  exists lg' w',
    @json_log sample_runtime (calm after_midnight) logging_calls.info sample_caller
      (py "started") logging_calls.exc_absent
      (sample_json_logger_with_console, empty_world)
    = (Ok tt, (lg', w'))
    /\ dict_lookup (files w') (py "<stderr>")
       = Some (py "[2025-03-09 23:59:58] [main.py] [MainThread] [INFO] - started"
               ++ [10%N]).
Proof.
  destruct (@json_logger_with_console_writes_both sample_runtime
              (calm after_midnight) logging_calls.info sample_caller (py "started")
              sample_json_logger_with_console new_json_handler sample_console
              empty_world eq_refl new_json_handler_reachable eq_refl)
    as (fh' & w' & He & _ & Hc).
  - cbn. lia.
  - cbn. lia.
  - cbn. lia.
  - apply calm_no_io_failure.
  - eexists _, w'. split; [exact He | exact Hc].
Defined.

(** The first record of a new handler, after midnight. *)
Lemma emit_only_appends_to_file_of_current_date_witness :
  exists r h' w',
    @json_logger.emit sample_runtime (calm after_midnight) sample_record
      (new_json_handler, empty_world) = (r, (h', w'))
    /\ appended_only_to
         (json_logger.log_file_of (py "logs/app") after_midnight)
         (files empty_world) (files w').
Proof.
  destruct (@json_logger.emit sample_runtime (calm after_midnight) sample_record
              (new_json_handler, empty_world)) as [r [h' w']] eqn:E.
  exists r, h', w'. split; [reflexivity|].
  exact (proj1 (proj1 (@emit_only_appends_to_file_of_current_date sample_runtime
                         (calm after_midnight) sample_record)
                      new_json_handler empty_world r h' w'
                      (@new_json_handler_flushed sample_runtime) E)).
Defined.

(** The factory for the name [app] when [open] is refused. *)
Lemma factories_raise_what_mkdir_and_open_raise_witness :
  exists w',
    json_logger.get_json_app_logger (open_refused after_midnight) (py "app")
      (py "INFO") false (tt, empty_world)
    = (Raise (OSError "Permission denied"), (tt, w'))
    /\ files w' = files empty_world.
Proof.
  destruct (@factories_raise_what_mkdir_and_open_raise sample_runtime
              (open_refused after_midnight) (py "app") (py "INFO") false
              empty_world app_is_path_component) as [(_ & _ & _ & H) _].
  destruct (H (OSError "Permission denied") eq_refl eq_refl eq_refl eq_refl)
    as (w' & E & Hf & _).
  exists w'. split; assumption.
Defined.
